(** * deploy_with_rollback: a shallow embedding of the Ansible module

    Source: lessons/04-ansible/267-ansible-advanced-automation/library/
    deploy_with_rollback.py (class [ApplicationDeployer] and [main]).

    The module keeps one directory per release under <app_path>/releases
    and a symbolic link <app_path>/current naming the active one.  Each
    method of the class is a computation in a state-and-exception monad
    over the part of the machine the module touches: the two filesystem
    entries, the clock, and the fields of the deployer object.  What the
    outside answers (sub-processes, HTTP probes, failing deletions) is a
    parameter, the [World].

    Conventions of the model:
    - a release is addressed by its directory-entry name; version strings
      are taken to be single path components ([plain_name] below), so that
      os.path.join(app_path, 'releases', v) denotes the entry [v]; for a
      version with a '/' in it, or '', '.' or '..', the path denotes
      something else, and the properties that depend on what the path
      denotes carry [plain_name] as a hypothesis;
    - a directory holds a set of file names: writing a file that is there
      overwrites it, removing it leaves none of that name;
    - time.time() is read from an integer clock counted in seconds;
    - the entries of the releases directory are kept in os.listdir order;
    - module.fail_json ends the process through SystemExit, which an
      `except Exception` clause does not catch: it is the outcome [Exit],
      distinct from [Raise];
    - of the filesystem calls, the ones that can fail are shutil.rmtree
      (of a release when the [World] says so, of current when it is a
      regular file) and os.remove of an archive that is not there;
      os.makedirs and os.symlink on a free name succeed;
    - an exception is the string the code can format it to; for the
      exceptions of the filesystem calls this is the name of the class,
      except for os.remove of the archive, whose str(e) ends up in the
      message of fail_json. *)

From Stdlib Require Import String Ascii List ZArith NArith Bool Lia Permutation
  Sorted.
Import ListNotations.
Open Scope string_scope.
Open Scope Z_scope.

(** ** Paths (posixpath.join, posixpath.basename) *)

Module Path.

Definition is_sep (c : ascii) : bool := Ascii.eqb c "/"%char.

Fixpoint has_sep (p : string) : bool :=
  match p with
  | EmptyString => false
  | String c r => is_sep c || has_sep r
  end.

Definition startswith_sep (p : string) : bool :=
  match p with
  | String c _ => is_sep c
  | EmptyString => false
  end.

Fixpoint endswith_sep (p : string) : bool :=
  match p with
  | EmptyString => false
  | String c EmptyString => is_sep c
  | String _ r => endswith_sep r
  end.

(** One step of posixpath.join: an absolute component restarts the path,
    a separator is added unless the path is empty or already ends in one. *)
Definition join2 (path b : string) : string :=
  if startswith_sep b then b
  else if orb (String.eqb path "") (endswith_sep path) then path ++ b
  else path ++ "/" ++ b.

Definition join (a : string) (ps : list string) : string :=
  fold_left join2 ps a.

(** posixpath.basename: p[p.rfind('/') + 1:]. *)
Fixpoint basename (p : string) : string :=
  match p with
  | EmptyString => EmptyString
  | String c r =>
      if has_sep r then basename r
      else if is_sep c then r
      else String c r
  end.

End Path.

(** ** The filesystem under app_path *)

(** An entry of <app_path>/releases.  A directory carries its st_mtime and
    the names of the files directly inside it. *)
Inductive entry : Type :=
| EDir (mtime : Z) (files : list string)
| EFile (mtime : Z).

(** What <app_path>/current is. *)
Inductive current_node : Type :=
| NoCurrent
| Symlink (target : string)
| CurDir
| CurFile.

Record FS : Type := mkFS {
  releases : option (list (string * entry));
  current : current_node
}.

Fixpoint lookup (name : string) (ents : list (string * entry)) : option entry :=
  match ents with
  | [] => None
  | (n, e) :: rest => if String.eqb n name then Some e else lookup name rest
  end.

Definition find_release (name : string) (f : FS) : option entry :=
  match releases f with
  | Some ents => lookup name ents
  | None => None
  end.

(** os.path.exists(os.path.join(app_path, 'releases', name)), for a name
    that is a single path component. *)
Definition release_exists (name : string) (f : FS) : bool :=
  match find_release name f with
  | Some _ => true
  | None => false
  end.

(** os.path.isdir of the same path *)
Definition release_isdir (name : string) (f : FS) : bool :=
  match find_release name f with
  | Some (EDir _ _) => true
  | _ => false
  end.

Definition remove_entry (name : string) (ents : list (string * entry))
  : list (string * entry) :=
  filter (fun ne => negb (String.eqb (fst ne) name)) ents.

Fixpoint update_entry (name : string) (g : entry -> entry)
    (ents : list (string * entry)) : list (string * entry) :=
  match ents with
  | [] => []
  | (n, e) :: rest =>
      if String.eqb n name then (n, g e) :: rest
      else (n, e) :: update_entry name g rest
  end.

(** ** What the program does to the outside, in order *)

Inductive event : Type :=
| Run (argv : list string)          (* subprocess.run(argv, ...) *)
| Get (url : string)                (* requests.get(url, timeout=10) *)
| Sleep (secs : Z)                  (* time.sleep(secs) *)
| Mutated (after : FS).             (* a filesystem change, with its result *)

(** ** What the outside answers *)

Inductive run_outcome : Type :=
| Completed (returncode : Z) (stderr : string) (elapsed : N)
            (written : list string)
| RunError (exc : string).          (* subprocess.run itself raised *)

Inductive http_outcome : Type :=
| Response (status_code : Z) (elapsed : N)
| HttpError (exc : string) (elapsed : N).

Record World : Type := mkWorld {
  (** a sub-process, given what happened so far and its argv; [written]
      lists the files it leaves in the release directory it works in *)
  run_process : list event -> list string -> run_outcome;
  http_get : list event -> string -> http_outcome;
  (** shutil.rmtree of a release directory: [Some msg] when it raises *)
  rmtree_error : string -> option string
}.

(** ** Module parameters (module.params) *)

Record Params : Type := mkParams {
  app_name : string;
  app_path : string;
  version : string;
  artifact_url : option string;
  health_check_url : option string;
  health_check_timeout : Z;
  rollback_on_failure : bool;
  keep_versions : Z;
  service_name : option string
}.

(** Python truthiness of an optional string: None and '' are falsy. *)
Definition truthy (o : option string) : bool :=
  match o with
  | None => false
  | Some s => negb (String.eqb s "")
  end.

Definition releases_dir (p : Params) : string :=
  Path.join (app_path p) ["releases"].

Definition release_path (p : Params) (v : string) : string :=
  Path.join (app_path p) ["releases"; v].

Definition current_link (p : Params) : string :=
  Path.join (app_path p) ["current"].

(** ** Machine state and the monad *)

Record State : Type := mkState {
  fs : FS;
  clock : Z;
  trace : list event;                (* oldest first *)
  changed : bool;                    (* self.changed *)
  deployment_start_time : Z          (* self.deployment_start_time *)
}.

Inductive outcome (A : Type) : Type :=
| Ok (a : A)                         (* normal return *)
| Raise (exc : string)               (* an Exception propagates *)
| Exit (msg : string).               (* module.fail_json(msg=msg) *)
Arguments Ok {A} a.
Arguments Raise {A} exc.
Arguments Exit {A} msg.

Definition M (A : Type) : Type := State -> outcome A * State.

Definition ret {A} (a : A) : M A := fun s => (Ok a, s).

Definition bind {A B} (m : M A) (k : A -> M B) : M B :=
  fun s =>
    match m s with
    | (Ok a, s') => k a s'
    | (Raise e, s') => (Raise e, s')
    | (Exit msg, s') => (Exit msg, s')
    end.

Declare Scope py_scope.
Delimit Scope py_scope with py.
Notation "x <- m ;; k" := (bind m (fun x => k))
  (at level 61, m at next level, right associativity) : py_scope.
Notation "m ;; k" := (bind m (fun _ => k))
  (at level 61, right associativity) : py_scope.
Notation "' pat <- m ;; k" := (bind m (fun x => match x with pat => k end))
  (at level 61, pat pattern, m at next level, right associativity) : py_scope.
Open Scope py_scope.

Definition raise {A} (e : string) : M A := fun s => (Raise e, s).
Definition fail_json {A} (msg : string) : M A := fun s => (Exit msg, s).

(** try: m / except Exception as e: h e.  [Exit] is not an Exception. *)
Definition try_except {A} (m : M A) (h : string -> M A) : M A :=
  fun s =>
    match m s with
    | (Raise e, s') => h e s'
    | r => r
    end.

Definition get_state : M State := fun s => (Ok s, s).

Definition time_time : M Z := fun s => (Ok (clock s), s).

Definition emit (e : event) : M unit :=
  fun s => (Ok tt, mkState (fs s) (clock s) (trace s ++ [e]) (changed s)
                           (deployment_start_time s)).

Definition advance (d : Z) : M unit :=
  fun s => (Ok tt, mkState (fs s) (clock s + d) (trace s) (changed s)
                           (deployment_start_time s)).

(** Every filesystem change is recorded with the filesystem it leaves. *)
Definition put_fs (f : FS) : M unit :=
  fun s => (Ok tt, mkState f (clock s) (trace s ++ [Mutated f]) (changed s)
                           (deployment_start_time s)).

Definition set_changed : M unit :=
  fun s => (Ok tt, mkState (fs s) (clock s) (trace s) true
                           (deployment_start_time s)).

Definition time_sleep (secs : Z) : M unit :=
  emit (Sleep secs) ;; advance secs.

(** ** Primitive operations *)

Definition with_releases (f : FS) (r : option (list (string * entry))) : FS :=
  mkFS r (current f).

Definition with_current (f : FS) (c : current_node) : FS :=
  mkFS (releases f) c.

(** The names in a directory once the files [new] are written into it: a
    name that is there already is overwritten, not added again. *)
Fixpoint add_names (files new : list string) : list string :=
  match new with
  | [] => files
  | f :: r =>
      add_names (if existsb (String.eqb f) files then files
                 else (files ++ [f])%list) r
  end.

(** Files written into a release directory; its st_mtime becomes [now]. *)
Definition add_files (now : Z) (new : list string) (e : entry) : entry :=
  match e with
  | EDir _ files => EDir now (add_names files new)
  | EFile m => EFile m
  end.

Definition write_files (dir : option string) (new : list string) : M unit :=
  match dir, new with
  | Some name, _ :: _ =>
      s <- get_state ;;
      match releases (fs s) with
      | Some ents =>
          put_fs (with_releases (fs s)
                    (Some (update_entry name (add_files (clock s) new) ents)))
      | None => ret tt
      end
  | _, _ => ret tt
  end.

(** subprocess.run(argv, capture_output=True, text=True); [dir] names the
    release directory the command writes into, if any. *)
Definition subprocess_run (w : World) (argv : list string)
    (dir : option string) : M (Z * string) :=
  s <- get_state ;;
  match run_process w (trace s) argv with
  | RunError exc => raise exc
  | Completed rc err d new =>
      emit (Run argv) ;;
      advance (Z.of_N d) ;;
      write_files dir new ;;
      ret (rc, err)
  end.

(** requests.get(url, timeout=10), returning response.status_code. *)
Definition requests_get (w : World) (url : string) : M Z :=
  s <- get_state ;;
  emit (Get url) ;;
  match http_get w (trace s) url with
  | Response code d => advance (Z.of_N d) ;; ret code
  | HttpError exc d => advance (Z.of_N d) ;; raise exc
  end.

(** os.makedirs(releases_dir, exist_ok=True) *)
Definition makedirs_releases : M unit :=
  s <- get_state ;;
  match releases (fs s) with
  | Some _ => ret tt
  | None => put_fs (with_releases (fs s) (Some []))
  end.

(** os.makedirs(version_dir, exist_ok=True), for a version that is a
    single path component: missing parents are created. *)
Definition makedirs_release (name : string) : M unit :=
  s <- get_state ;;
  let ents := match releases (fs s) with Some l => l | None => [] end in
  match lookup name ents with
  | Some (EDir _ _) => ret tt
  | Some (EFile _) => raise "FileExistsError"
  | None =>
      put_fs (with_releases (fs s) (Some (ents ++ [(name, EDir (clock s) [])])%list))
  end.

(** The names left once the file [x] is removed; [None] when there is no
    such file. *)
Definition remove_string (x : string) (l : list string) : option (list string) :=
  if existsb (String.eqb x) l
  then Some (filter (fun y => negb (String.eqb y x)) l)
  else None.

(** str(e) of the FileNotFoundError that os.remove(path) raises, for a
    path that repr shows as it is between single quotes. *)
Definition no_such_file (path : string) : string :=
  "[Errno 2] No such file or directory: '" ++ path ++ "'".

(** os.remove(path) of the file [file] directly inside the release
    directory [name]. *)
Definition remove_release_file (name file path : string) : M unit :=
  s <- get_state ;;
  match releases (fs s) with
  | Some ents =>
      match lookup name ents with
      | Some (EDir _ files) =>
          match remove_string file files with
          | Some files' =>
              put_fs (with_releases (fs s)
                 (Some (update_entry name (fun _ => EDir (clock s) files') ents)))
          | None => raise (no_such_file path)
          end
      | _ => raise (no_such_file path)
      end
  | None => raise (no_such_file path)
  end.

(** shutil.rmtree of a release directory. *)
Definition rmtree_release (w : World) (name : string) : M unit :=
  s <- get_state ;;
  match rmtree_error w name with
  | Some msg => raise msg
  | None =>
      match releases (fs s) with
      | Some ents =>
          match lookup name ents with
          | Some _ => put_fs (with_releases (fs s) (Some (remove_entry name ents)))
          | None => raise "FileNotFoundError"
          end
      | None => raise "FileNotFoundError"
      end
  end.

(** The lines shared by create_symlink and rollback:
      if os.path.islink(current_link): os.remove(current_link)
      elif os.path.exists(current_link): shutil.rmtree(current_link)
    shutil.rmtree of a regular file raises NotADirectoryError. *)
Definition clear_current_link : M unit :=
  s <- get_state ;;
  match current (fs s) with
  | Symlink _ => put_fs (with_current (fs s) NoCurrent)
  | NoCurrent => ret tt
  | CurDir => put_fs (with_current (fs s) NoCurrent)
  | CurFile => raise "NotADirectoryError"
  end.

(** os.symlink(target, current_link) *)
Definition os_symlink (target : string) : M unit :=
  s <- get_state ;;
  match current (fs s) with
  | NoCurrent => put_fs (with_current (fs s) (Symlink target))
  | _ => raise "FileExistsError"
  end.

(** ** ApplicationDeployer *)

(** __init__ *)
Definition init_deployer : M unit :=
  fun s => (Ok tt, mkState (fs s) (clock s) (trace s) false (clock s)).

(** get_current_version, as a function of the filesystem *)
Definition current_version_of (f : FS) : option string :=
  match current f with
  | Symlink target => Some (Path.basename target)
  | _ => None
  end.

Definition get_current_version : M (option string) :=
  s <- get_state ;; ret (current_version_of (fs s)).

Definition archive_name : string := "app.tar.gz".

(** download_artifact, lines 153-175: the try statement. *)
Definition fetch_and_extract (w : World) (p : Params) (url : string) : M bool :=
  let version_dir := release_path p (version p) in
  try_except
    ('(rc, err) <- subprocess_run w
         ["wget"; "-O"; version_dir ++ "/" ++ archive_name; url]
         (Some (version p)) ;;
     (if negb (rc =? 0)
      then fail_json ("Failed to download artifact: " ++ err)
      else ret tt) ;;
     '(rc2, err2) <- subprocess_run w
         ["tar"; "-xzf"; version_dir ++ "/" ++ archive_name;
          "-C"; version_dir; "--strip-components=1"]
         (Some (version p)) ;;
     (if negb (rc2 =? 0)
      then fail_json ("Failed to extract artifact: " ++ err2)
      else ret tt) ;;
     remove_release_file (version p) archive_name
       (version_dir ++ "/" ++ archive_name) ;;
     set_changed ;;
     ret true)
    (fun e => fail_json ("Failed to download/extract artifact: " ++ e)).

Definition download_artifact (w : World) (p : Params) : M bool :=
  match artifact_url p with
  | None => ret true
  | Some url =>
      if String.eqb url "" then ret true
      else
        s <- get_state ;;
        if release_exists (version p) (fs s) then ret true
        else
          makedirs_release (version p) ;;
          fetch_and_extract w p url
  end.

Definition create_symlink (p : Params) : M unit :=
  clear_current_link ;;
  os_symlink (release_path p (version p)) ;;
  set_changed.

Definition restart_service (w : World) (p : Params) : M bool :=
  match service_name p with
  | None => ret true
  | Some svc =>
      if String.eqb svc "" then ret true
      else
        try_except
          ('(rc, _) <- subprocess_run w ["systemctl"; "restart"; svc] None ;;
           if negb (rc =? 0) then ret false
           else
             time_sleep 5 ;;
             '(rc2, _) <- subprocess_run w ["systemctl"; "is-active"; svc] None ;;
             ret (rc2 =? 0))
          (fun _ => ret false)
  end.

(** The while loop of health_check.  Every pass advances the clock by at
    least the ten seconds it sleeps, so [fuel] passes suffice once [fuel]
    exceeds the seconds left ([health_check_returns] below). *)
Fixpoint health_poll (fuel : nat) (w : World) (url : string)
    (start_time timeout : Z) : M (bool * string) :=
  match fuel with
  | O => raise "health_poll: fuel exhausted"
  | S n =>
      now <- time_time ;;
      if now - start_time <? timeout then
        ok <- try_except (code <- requests_get w url ;; ret (code =? 200))
                         (fun _ => ret false) ;;
        if ok then ret (true, "Health check passed")
        else time_sleep 10 ;; health_poll n w url start_time timeout
      else ret (false, "Health check failed")
  end.

Definition health_check (w : World) (p : Params) : M (bool * string) :=
  match health_check_url p with
  | None => ret (true, "No health check URL provided")
  | Some url =>
      if String.eqb url "" then ret (true, "No health check URL provided")
      else
        let timeout := health_check_timeout p in
        start_time <- time_time ;;
        health_poll (S (Z.to_nat timeout)) w url start_time timeout
  end.

Definition rollback (w : World) (p : Params) (previous_version : option string)
  : M bool :=
  match previous_version with
  | None => ret false
  | Some pv =>
      if String.eqb pv "" then ret false
      else
        s <- get_state ;;
        if negb (release_exists pv (fs s)) then ret false
        else
          clear_current_link ;;
          os_symlink (release_path p pv) ;;
          restart_service w p ;;
          ret true
  end.

(** versions.sort(key=lambda x: x[1], reverse=True): a stable sort, newest
    first; entries with equal keys keep their listing order. *)
Fixpoint insert_newest (x : string * Z) (l : list (string * Z))
  : list (string * Z) :=
  match l with
  | [] => [x]
  | y :: r => if snd x <? snd y then y :: insert_newest x r else x :: y :: r
  end.

Definition sort_newest_first (l : list (string * Z)) : list (string * Z) :=
  fold_right insert_newest [] l.

(** l[k:] with Python's reading of a negative k. *)
Definition slice_from {A} (k : Z) (l : list A) : list A :=
  if 0 <=? k then skipn (Z.to_nat k) l
  else skipn (length l - Z.to_nat (- k)) l.

(** The (item, st_mtime) pairs of the directories among the entries. *)
Fixpoint listed_versions (ents : list (string * entry)) : list (string * Z) :=
  match ents with
  | [] => []
  | (n, EDir m _) :: r => (n, m) :: listed_versions r
  | (_, EFile _) :: r => listed_versions r
  end.

Fixpoint for_each {A} (f : A -> M unit) (l : list A) : M unit :=
  match l with
  | [] => ret tt
  | x :: r => f x ;; for_each f r
  end.

Definition cleanup_old_versions (w : World) (p : Params) : M unit :=
  s <- get_state ;;
  match releases (fs s) with
  | None => ret tt
  | Some ents =>
      let versions := sort_newest_first (listed_versions ents) in
      for_each (fun vm => rmtree_release w (fst vm))
               (slice_from (keep_versions p) versions)
  end.

(** The dictionary deploy returns; [previous_version] is [None] when the
    key is not set. *)
Record Result : Type := mkResult {
  r_changed : bool;
  version_deployed : option string;
  rollback_occurred : bool;
  deployment_time : Z;
  health_check_status : string;
  previous_version : option string
}.

(** deploy, lines 313-321: what follows the health check inside try. *)
Definition after_health_check (w : World) (p : Params)
    (current_version : option string) (hc : bool * string)
  : M (bool * string) :=
  let '(health_ok, health_check_status) := hc in
  if negb health_ok && rollback_on_failure p then
    ok <- rollback w p current_version ;;
    if ok then ret (true, health_check_status ++ " - Rolled back to previous version")
    else ret (false, health_check_status ++ " - Rollback failed")
  else ret (false, health_check_status).

(** deploy, lines 302-310: stage, switch and restart. *)
Definition stage_and_switch (w : World) (p : Params) : M unit :=
  download_artifact w p ;;
  create_symlink p ;;
  ok <- restart_service w p ;;
  if negb ok then raise "Failed to restart service" else ret tt.

(** deploy, the body of try: the pair is (rollback_occurred,
    health_check_status). *)
Definition deploy_try (w : World) (p : Params)
    (current_version : option string) : M (bool * string) :=
  stage_and_switch w p ;;
  hc <- health_check w p ;;
  after_health_check w p current_version hc.

(** deploy, the except clause (lines 323-331). *)
Definition deploy_except (w : World) (p : Params)
    (current_version : option string) (e : string) : M (bool * string) :=
  if rollback_on_failure p && truthy current_version then
    ok <- rollback w p current_version ;;
    if ok then ret (true, "Deployment failed: " ++ e ++ " - Rolled back")
    else ret (false, "Deployment failed: " ++ e ++ " - Rollback failed")
  else fail_json ("Deployment failed: " ++ e).

(** deploy, lines 333-349: cleanup and the result dictionary. *)
Definition finish (w : World) (p : Params) (current_version : option string)
    (r : bool * string) : M Result :=
  let '(rollback_occurred, health_check_status) := r in
  cleanup_old_versions w p ;;
  s <- get_state ;;
  let deployment_time := clock s - deployment_start_time s in
  ret (mkResult (changed s)
                (if rollback_occurred then current_version
                 else Some (version p))
                rollback_occurred
                deployment_time
                health_check_status
                (if rollback_occurred && truthy current_version
                 then current_version else None)).

Definition deploy (w : World) (p : Params) : M Result :=
  current_version <- get_current_version ;;
  makedirs_releases ;;
  s <- get_state ;;
  if release_exists (version p) (fs s)
     && match current_version with
        | Some cv => String.eqb cv (version p)
        | None => false
        end
  then
    ret (mkResult false (Some (version p)) false
                  (clock s - deployment_start_time s)
                  "Already deployed" None)
  else
    r <- try_except (deploy_try w p current_version)
                    (deploy_except w p current_version) ;;
    finish w p current_version r.

(** ** main *)

(** The task's arguments as given by the playbook; [None] is an option
    left out. *)
Record Args : Type := mkArgs {
  arg_app_name : string;
  arg_app_path : string;
  arg_version : string;
  arg_artifact_url : option string;
  arg_health_check_url : option string;
  arg_health_check_timeout : option Z;
  arg_rollback_on_failure : option bool;
  arg_keep_versions : option Z;
  arg_service_name : option string;
  check_mode : bool
}.

Definition default_health_check_url : string := "http://localhost:8080/health".

Definition or_default {A} (o : option A) (d : A) : A :=
  match o with
  | Some a => a
  | None => d
  end.

(** module.params under main's argument_spec: an option left out takes
    its default, or None when the spec gives none. *)
Definition module_params (a : Args) : Params :=
  mkParams (arg_app_name a) (arg_app_path a) (arg_version a)
           (arg_artifact_url a)
           (Some (or_default (arg_health_check_url a) default_health_check_url))
           (or_default (arg_health_check_timeout a) 300)
           (or_default (arg_rollback_on_failure a) true)
           (or_default (arg_keep_versions a) 5)
           (arg_service_name a).

(** What module.exit_json is called with. *)
Inductive exit_json : Type :=
| WouldDeploy (changed : bool) (msg : string)
| Deployed (result : Result).

Definition main (w : World) (a : Args) : M exit_json :=
  if check_mode a then ret (WouldDeploy true "Would deploy application")
  else
    init_deployer ;;
    result <- deploy w (module_params a) ;;
    ret (Deployed result).

(** * Vocabulary of the properties *)

(** [stable I m]: running [m] from a state satisfying [I] ends, however it
    ends, in a state satisfying [I]. *)
Definition stable {A} (I : State -> Prop) (m : M A) : Prop :=
  forall s, I s -> I (snd (m s)).

(** [returns m]: [m] never raises and never exits. *)
Definition returns {A} (m : M A) : Prop :=
  forall s, exists a, fst (m s) = Ok a.

(** A property of the filesystem, read as a property of the state. *)
Definition on_fs (P : FS -> Prop) : State -> Prop := fun s => P (fs s).

(** Case analysis on the next answer of the outside. *)
Ltac ask_world :=
  match goal with
  | |- context [run_process ?w ?t ?a] =>
      destruct (run_process w t a) as [?rc ?err ?d ?new|?exc] eqn:?Hrun
  | |- context [http_get ?w ?t ?u] =>
      destruct (http_get w t u) as [?code ?d|?exc ?d] eqn:?Hget
  end.

(** Unfolding of the monad and of the primitives that cannot fail. *)
Ltac unfold_monad :=
  cbv beta iota zeta delta
    [bind ret raise fail_json try_except get_state time_time emit advance
     put_fs set_changed time_sleep].

(** stat.S_ISDIR of an entry. *)
Definition is_dir (e : entry) : bool :=
  match e with
  | EDir _ _ => true
  | EFile _ => false
  end.

(** [kind_in v k]: the entry [v] is there, a directory if [k] and a plain
    file if not. *)
Definition kind_in (v : string) (k : bool) : FS -> Prop :=
  fun f => option_map is_dir (find_release v f) = Some k.

(** The entry [v] is there and is a directory. *)
Definition is_dir_in (v : string) : FS -> Prop := kind_in v true.

(** The filesystem states a switch to [target] goes through, in order. *)
Definition switch_steps (f : FS) (target : string) : list event :=
  match current f with
  | NoCurrent => [Mutated (with_current f (Symlink target))]
  | _ => [Mutated (with_current f NoCurrent);
          Mutated (with_current f (Symlink target))]
  end.

(** The state a completed switch to [target] leaves. *)
Definition switched (s : State) (target : string) : State :=
  mkState (with_current (fs s) (Symlink target)) (clock s)
          (trace s ++ switch_steps (fs s) target)
          (changed s) (deployment_start_time s).

(** The names cleanup_old_versions passes to shutil.rmtree. *)
Definition doomed (p : Params) (ents : list (string * entry)) : list string :=
  map fst (slice_from (keep_versions p)
                      (sort_newest_first (listed_versions ents))).

(** The pointer is [c]. *)
Definition current_is (c : current_node) : FS -> Prop :=
  fun f => current f = c.

(** The state a successful shutil.rmtree of release [n] leaves. *)
Definition without_release (s : State) (n : string)
    (ents : list (string * entry)) : State :=
  let f := with_releases (fs s) (Some (remove_entry n ents)) in
  mkState f (clock s) (trace s ++ [Mutated f]) (changed s)
          (deployment_start_time s).

(** current_version == self.params['version'], where current_version may
    be None. *)
Definition same_version (cv : option string) (v : string) : bool :=
  match cv with
  | Some c => String.eqb c v
  | None => false
  end.

(** The test of deploy's idempotency check. *)
Definition already_deployed (p : Params) (f : FS) : bool :=
  release_exists (version p) f && same_version (current_version_of f) (version p).

(** The state os.makedirs(releases_dir, exist_ok=True) leaves. *)
Definition after_makedirs (s : State) : State :=
  match releases (fs s) with
  | Some _ => s
  | None =>
      mkState (with_releases (fs s) (Some [])) (clock s)
              (trace s ++ [Mutated (with_releases (fs s) (Some []))])
              (changed s) (deployment_start_time s)
  end.

(** deploy's try statement as a whole. *)
Definition attempt (w : World) (p : Params) (cv : option string)
  : M (bool * string) :=
  try_except (deploy_try w p cv) (deploy_except w p cv).

(** A run of deploy from [s] in which rollback is called and returns
    False; [narrative] is the status text built up to that point and [s5]
    the state the call leaves. *)
Inductive failed_rollback (w : World) (p : Params) (s : State)
  : string -> State -> Prop :=
| failed_after_health_check (s3 s4 s5 : State) (st : string) :
    stage_and_switch w p (after_makedirs s) = (Ok tt, s3) ->
    health_check w p s3 = (Ok (false, st), s4) ->
    rollback_on_failure p = true ->
    rollback w p (current_version_of (fs s)) s4 = (Ok false, s5) ->
    failed_rollback w p s st s5
| failed_after_exception (s4 s5 : State) (e : string) :
    deploy_try w p (current_version_of (fs s)) (after_makedirs s)
    = (Raise e, s4) ->
    rollback_on_failure p = true ->
    truthy (current_version_of (fs s)) = true ->
    rollback w p (current_version_of (fs s)) s4 = (Ok false, s5) ->
    failed_rollback w p s ("Deployment failed: " ++ e) s5.

(** [newer_or_equal a b]: the st_mtime of [a] is at least that of [b]. *)
Definition newer_or_equal (a b : string * Z) : Prop := snd b <= snd a.

(** What cleanup_old_versions leaves of the entries when every deletion
    succeeds. *)
Definition surviving (p : Params) (ents : list (string * entry))
  : list (string * entry) :=
  filter (fun ne => negb (existsb (String.eqb (fst ne)) (doomed p ents))) ents.

(** [never_exits m]: [m] never calls module.fail_json. *)
Definition never_exits {A} (m : M A) : Prop :=
  forall s msg, fst (m s) <> Exit msg.

(** [never_raises m]: no exception leaves [m]. *)
Definition never_raises {A} (m : M A) : Prop :=
  forall s e, fst (m s) <> Raise e.

(** A property of the pointer alone, read as a property of the state. *)
Definition on_current (P : current_node -> Prop) : State -> Prop :=
  on_fs (fun f => P (current f)).

(** The number of requests.get calls in a trace. *)
Fixpoint count_gets (tr : list event) : nat :=
  match tr with
  | [] => O
  | Get _ :: r => S (count_gets r)
  | _ :: r => count_gets r
  end.

(** A property of the releases directory alone, read as a property of
    the state. *)
Definition on_releases (Q : option (list (string * entry)) -> Prop)
  : State -> Prop :=
  on_fs (fun f => Q (releases f)).

(** The release [v] is not on disk. *)
Definition absent (v : string) : FS -> Prop :=
  fun f => release_exists v f = false.

(** A version string that is one ordinary path component: it has no '/'
    and is none of '', '.' and '..', so that
    os.path.join(app_path, 'releases', v) is the entry [v] of the releases
    directory and nothing else. *)
Definition plain_name (v : string) : Prop :=
  Path.has_sep v = false /\ v <> "" /\ v <> "." /\ v <> "..".

Ltac solve_plain_name := split; [reflexivity | repeat split; discriminate].

(** The state after shutil.rmtree has deleted the releases [names], one
    after the other. *)
Definition after_deletions (s : State) (names : list string) : State :=
  fold_left (fun st n =>
               match releases (fs st) with
               | Some ents => without_release st n ents
               | None => st
               end) names s.

(** The entries other than those called [names]. *)
Definition entries_without (names : list string)
    (ents : list (string * entry)) : list (string * entry) :=
  filter (fun ne => negb (existsb (String.eqb (fst ne)) names)) ents.

(** The argv of the two commands of download_artifact. *)
Definition wget_argv (p : Params) (url : string) : list string :=
  ["wget"; "-O"; release_path p (version p) ++ "/" ++ archive_name; url].

Definition tar_argv (p : Params) : list string :=
  ["tar"; "-xzf"; release_path p (version p) ++ "/" ++ archive_name;
   "-C"; release_path p (version p); "--strip-components=1"].

(** ** Sample machines *)

Module Sample.

(** Every command succeeds, the service answers 200 at once. *)
Definition calm : World :=
  mkWorld (fun _ _ => Completed 0 "" 1 [])
          (fun _ _ => Response 200 0)
          (fun _ => None).

(** Every command succeeds, the health URL answers 503. *)
Definition unhealthy : World :=
  mkWorld (fun _ _ => Completed 0 "" 1 [])
          (fun _ _ => Response 503 1)
          (fun _ => None).

(** wget fails after creating its output file. *)
Definition wget_fails : World :=
  mkWorld (fun _ argv =>
             match argv with
             | "wget" :: _ => Completed 8 "404 Not Found" 2 ["app.tar.gz"]
             | _ => Completed 0 "" 1 []
             end)
          (fun _ _ => Response 200 0)
          (fun _ => None).

(** systemctl restart fails. *)
Definition restart_fails : World :=
  mkWorld (fun _ argv =>
             match argv with
             | "systemctl" :: "restart" :: _ => Completed 1 "failed" 1 []
             | _ => Completed 0 "" 1 []
             end)
          (fun _ _ => Response 503 1)
          (fun _ => None).

(** The directory of v1 cannot be deleted. *)
Definition v1_undeletable : World :=
  mkWorld (fun _ _ => Completed 0 "" 1 [])
          (fun _ _ => Response 200 0)
          (fun n => if String.eqb n "v1" then Some "PermissionError" else None).

Definition five : list (string * entry) :=
  [("v1", EDir 10 ["app"]); ("v2", EDir 20 ["app"]); ("v3", EDir 30 ["app"]);
   ("v4", EDir 40 ["app"]); ("v5", EDir 50 ["app"])].

Definition at_1000 (f : FS) : State := mkState f 1000 [] false 1000.

(** v1..v5 staged, [v] active. *)
Definition running (v : string) : State :=
  at_1000 (mkFS (Some five) (Symlink ("/opt/my-app/releases/" ++ v))).

(** Nothing deployed yet. *)
Definition fresh : State := at_1000 (mkFS None NoCurrent).

(** v6 was left behind by a failed download. *)
Definition half_staged : State :=
  at_1000 (mkFS (Some (five ++ [("v6", EDir 900 ["app.tar.gz"])])%list)
                (Symlink "/opt/my-app/releases/v5")).

Definition params (v : string) (url health : option string) (keep : Z)
    (svc : option string) : Params :=
  mkParams "my-app" "/opt/my-app" v url health 25 true keep svc.

Definition args (v : string) (health : option string) : Args :=
  mkArgs "my-app" "/opt/my-app" v None health None None None None false.

End Sample.

(** self.changed, once set, stays set. *)
Definition changed_is_set (s : State) : Prop := changed s = true.

(** The state create_symlink leaves when it runs from [s1]. *)
Definition linked (p : Params) (s1 : State) : State :=
  snd (set_changed (switched s1 (release_path p (version p)))).

(** Where the pointer is after deploy's try statement: on the target
    release unless a rollback took place, and then on the previous one. *)
Definition pointer_after (p : Params) (cv : option string) (rb : bool)
    (f : FS) : Prop :=
  if rb
  then exists pv, cv = Some pv /\ pv <> ""
                  /\ current f = Symlink (release_path p pv)
  else current f = Symlink (release_path p (version p)).

(** The result of the idempotency check. *)
Definition already_deployed_result (p : Params) (s : State) : Result :=
  mkResult false (Some (version p)) false (clock s - deployment_start_time s)
           "Already deployed" None.

(** ** A machine on which staging works *)

Module Scenario.

(** wget leaves the archive, tar leaves the two entries it holds. *)
Definition mirror : World :=
  mkWorld (fun _ argv =>
             match argv with
             | "wget" :: _ => Completed 0 "" 3 ["app.tar.gz"]
             | "tar" :: _ => Completed 0 "" 2 ["bin"; "lib"]
             | _ => Completed 0 "" 1 []
             end)
          (fun _ _ => Response 200 0)
          (fun _ => None).

(** wget succeeds, tar finds the archive damaged. *)
Definition tar_fails : World :=
  mkWorld (fun _ argv =>
             match argv with
             | "wget" :: _ => Completed 0 "" 3 ["app.tar.gz"]
             | "tar" :: _ => Completed 2 "not in gzip format" 1 ["bin"]
             | _ => Completed 0 "" 1 []
             end)
          (fun _ _ => Response 200 0)
          (fun _ => None).

(** There is no wget on the machine: subprocess.run raises. *)
Definition no_wget : World :=
  mkWorld (fun _ argv =>
             match argv with
             | "wget" :: _ =>
                 RunError "[Errno 2] No such file or directory: 'wget'"
             | _ => Completed 0 "" 1 []
             end)
          (fun _ _ => Response 200 0)
          (fun _ => None).

(** The health URL answers 503 and the directory of v1 cannot be
    deleted. *)
Definition unhealthy_v1_undeletable : World :=
  mkWorld (fun _ _ => Completed 0 "" 1 [])
          (fun _ _ => Response 503 1)
          (fun n => if String.eqb n "v1" then Some "PermissionError" else None).

End Scenario.

(** * Properties *)

(** ** Paths *)

Module PathFacts.
Import Path.

Lemma basename_no_sep (p : string) : has_sep (basename p) = false.
Proof.
  induction p as [|c r IH]; simpl; [reflexivity|].
  destruct (has_sep r) eqn:Hr; [exact IH|].
  destruct (is_sep c) eqn:Hc; [exact Hr|].
  simpl. now rewrite Hc, Hr.
Qed.

Lemma basename_id (v : string) : has_sep v = false -> basename v = v.
Proof.
  destruct v as [|c r]; simpl; [reflexivity|].
  intros H. apply orb_false_iff in H as [Hc Hr]. now rewrite Hr, Hc.
Qed.

Lemma has_sep_app (a b : string) :
  has_sep (a ++ b) = has_sep a || has_sep b.
Proof.
  induction a as [|c r IH]; simpl; [reflexivity|].
  now rewrite IH, orb_assoc.
Qed.

Lemma basename_after_sep (a v : string) :
  has_sep v = false -> basename (a ++ "/" ++ v) = v.
Proof.
  intros Hv. induction a as [|c r IH]; simpl.
  - now rewrite Hv.
  - rewrite has_sep_app. simpl. rewrite orb_true_r. exact IH.
Qed.

Lemma endswith_sep_split (a : string) :
  endswith_sep a = true -> exists a', a = a' ++ "/".
Proof.
  induction a as [|c r IH]; simpl; [discriminate|].
  destruct r as [|c' r'].
  - intros H. exists "". unfold is_sep in H.
    apply Ascii.eqb_eq in H. now subst.
  - intros H. destruct (IH H) as [a' Ha']. exists (String c a').
    simpl. now rewrite <- Ha'.
Qed.

Lemma append_assoc (a b c : string) : (a ++ b) ++ c = a ++ (b ++ c).
Proof. induction a as [|x r IH]; simpl; [reflexivity | now rewrite IH]. Qed.

Lemma no_sep_not_absolute (v : string) :
  has_sep v = false -> startswith_sep v = false.
Proof.
  destruct v as [|c r]; simpl; [reflexivity|].
  intros H. now apply orb_false_iff in H as [Hc _].
Qed.

(** The last component of a joined path is the component, when that is a
    plain name. *)
Lemma basename_join2 (a v : string) :
  has_sep v = false -> basename (join2 a v) = v.
Proof.
  intros Hv. unfold join2. rewrite (no_sep_not_absolute v Hv).
  destruct (String.eqb a "") eqn:Ha; simpl.
  - apply String.eqb_eq in Ha. subst. simpl. now apply basename_id.
  - destruct (endswith_sep a) eqn:He.
    + destruct (endswith_sep_split a He) as [a' ->].
      rewrite append_assoc. now apply basename_after_sep.
    + now apply basename_after_sep.
Qed.

End PathFacts.

Lemma basename_release_path (p : Params) (v : string) :
  Path.has_sep v = false -> Path.basename (release_path p v) = v.
Proof.
  intros Hv. unfold release_path, Path.join. simpl.
  now apply PathFacts.basename_join2.
Qed.

(** ** Association lists *)

Lemma lookup_remove_entry (n m : string) (ents : list (string * entry)) :
  lookup n (remove_entry m ents)
  = if String.eqb n m then None else lookup n ents.
Proof.
  induction ents as [|[k e] r IH]; simpl.
  - now destruct (String.eqb n m).
  - destruct (String.eqb k m) eqn:Hkm; simpl.
    + apply String.eqb_eq in Hkm. subst k.
      rewrite IH. rewrite (String.eqb_sym m n).
      now destruct (String.eqb n m).
    + rewrite IH. destruct (String.eqb k n) eqn:Hkn.
      * apply String.eqb_eq in Hkn. subst k. now rewrite Hkm.
      * reflexivity.
Qed.

Lemma lookup_update_entry (n m : string) (g : entry -> entry)
    (ents : list (string * entry)) :
  lookup n (update_entry m g ents)
  = if String.eqb m n then option_map g (lookup n ents) else lookup n ents.
Proof.
  induction ents as [|[k e] r IH]; simpl.
  - now destruct (String.eqb m n).
  - destruct (String.eqb k m) eqn:Hkm; simpl.
    + apply String.eqb_eq in Hkm. subst k.
      now destruct (String.eqb m n).
    + rewrite IH. destruct (String.eqb k n) eqn:Hkn; [|reflexivity].
      apply String.eqb_eq in Hkn. subst k.
      rewrite (String.eqb_sym m n). now rewrite Hkm.
Qed.

Lemma lookup_app (n : string) (a b : list (string * entry)) :
  lookup n (a ++ b)
  = match lookup n a with Some e => Some e | None => lookup n b end.
Proof.
  induction a as [|[k e] r IH]; simpl; [reflexivity|].
  now destruct (String.eqb k n).
Qed.

Lemma lookup_in (n : string) (ents : list (string * entry)) :
  In n (map fst ents) <-> lookup n ents <> None.
Proof.
  induction ents as [|[k e] r IH]; simpl.
  - split; [tauto | congruence].
  - destruct (String.eqb k n) eqn:Hkn.
    + apply String.eqb_eq in Hkn. split; [congruence | auto].
    + apply String.eqb_neq in Hkn. rewrite <- IH. tauto.
Qed.

Lemma filter_remove_entry (v : string) (names : list string)
    (ents : list (string * entry)) :
  filter (fun ne => negb (existsb (String.eqb (fst ne)) names))
         (remove_entry v ents)
  = filter (fun ne => negb (existsb (String.eqb (fst ne)) (v :: names))) ents.
Proof.
  unfold remove_entry. induction ents as [|[k e] r IH]; simpl; [reflexivity|].
  destruct (String.eqb k v); simpl; [exact IH|].
  destruct (existsb (String.eqb k) names); simpl; [exact IH|].
  now rewrite IH.
Qed.

Lemma lookup_filter_names (g : string -> bool) (n : string)
    (ents : list (string * entry)) :
  lookup n (filter (fun ne => g (fst ne)) ents)
  = if g n then lookup n ents else None.
Proof.
  induction ents as [|[k e] r IH]; simpl; [now destruct (g n)|].
  destruct (String.eqb k n) eqn:Hkn.
  - apply String.eqb_eq in Hkn. subst k.
    destruct (g n) eqn:Hg; simpl.
    + now rewrite String.eqb_refl.
    + exact IH.
  - destruct (g k); simpl; [rewrite Hkn|]; exact IH.
Qed.

(** ** Reasoning about computations *)

Section Rules.
Context {A B : Type}.
Variable I : State -> Prop.

Lemma stable_ret (a : A) : stable I (ret a).
Proof. intros s H. exact H. Qed.

Lemma stable_raise (e : string) : stable I (@raise A e).
Proof. intros s H. exact H. Qed.

Lemma stable_fail_json (msg : string) : stable I (@fail_json A msg).
Proof. intros s H. exact H. Qed.

Lemma stable_bind (m : M A) (k : A -> M B) :
  stable I m -> (forall a, stable I (k a)) -> stable I (bind m k).
Proof.
  intros Hm Hk s H. unfold bind. specialize (Hm s H).
  destruct (m s) as [[a|e|msg] s']; simpl in *; auto.
  now apply Hk.
Qed.

Lemma stable_try_except (m : M A) (h : string -> M A) :
  stable I m -> (forall e, stable I (h e)) -> stable I (try_except m h).
Proof.
  intros Hm Hh s H. unfold try_except. specialize (Hm s H).
  destruct (m s) as [[a|e|msg] s']; simpl in *; auto.
  now apply Hh.
Qed.
End Rules.

Lemma bind_ok {A B} (m : M A) (k : A -> M B) (s s' : State) (a : A) :
  m s = (Ok a, s') -> bind m k s = k a s'.
Proof. intros H. unfold bind. now rewrite H. Qed.

Lemma bind_raise {A B} (m : M A) (k : A -> M B) (s s' : State) (e : string) :
  m s = (Raise e, s') -> bind m k s = (Raise e, s').
Proof. intros H. unfold bind. now rewrite H. Qed.

Lemma bind_exit {A B} (m : M A) (k : A -> M B) (s s' : State) (msg : string) :
  m s = (Exit msg, s') -> bind m k s = (Exit msg, s').
Proof. intros H. unfold bind. now rewrite H. Qed.

Lemma bind_inv_ok {A B} (m : M A) (k : A -> M B) (s s' : State) (b : B) :
  bind m k s = (Ok b, s') ->
  exists a s1, m s = (Ok a, s1) /\ k a s1 = (Ok b, s').
Proof.
  unfold bind. destruct (m s) as [[a|e|msg] s1]; try discriminate.
  intros H. now exists a, s1.
Qed.

Lemma bind_inv_exit {A B} (m : M A) (k : A -> M B) (s s' : State)
    (msg : string) :
  bind m k s = (Exit msg, s') ->
  m s = (Exit msg, s') \/ exists a s1, m s = (Ok a, s1) /\ k a s1 = (Exit msg, s').
Proof.
  unfold bind. destruct (m s) as [[a|e|msg'] s1]; try discriminate.
  - intros H. right. now exists a, s1.
  - intros H. left. now inversion H.
Qed.

(** *** Invariants of the filesystem *)

Section FsRules.
Variable P : FS -> Prop.

Lemma stable_get_state : stable (on_fs P) get_state.
Proof. intros s H. exact H. Qed.

Lemma stable_time_time : stable (on_fs P) time_time.
Proof. intros s H. exact H. Qed.

Lemma stable_emit (e : event) : stable (on_fs P) (emit e).
Proof. intros s H. exact H. Qed.

Lemma stable_advance (d : Z) : stable (on_fs P) (advance d).
Proof. intros s H. exact H. Qed.

Lemma stable_set_changed : stable (on_fs P) set_changed.
Proof. intros s H. exact H. Qed.

Lemma stable_time_sleep (d : Z) : stable (on_fs P) (time_sleep d).
Proof. intros s H. exact H. Qed.

Lemma stable_put_fs (f : FS) : P f -> stable (on_fs P) (put_fs f).
Proof. intros Hf s H. exact Hf. Qed.

Lemma stable_requests_get (w : World) (url : string) :
  stable (on_fs P) (requests_get w url).
Proof.
  intros s H. unfold requests_get, bind, get_state, emit.
  destruct (http_get w (trace s) url); exact H.
Qed.

(** A sub-process that writes into no release directory. *)
Lemma stable_subprocess_run_none (w : World) (argv : list string) :
  stable (on_fs P) (subprocess_run w argv None).
Proof.
  intros s H. unfold subprocess_run, bind, get_state.
  destruct (run_process w (trace s) argv); exact H.
Qed.

Lemma stable_restart_service (w : World) (p : Params) :
  stable (on_fs P) (restart_service w p).
Proof.
  unfold restart_service. destruct (service_name p) as [svc|].
  2: apply stable_ret.
  destruct (String.eqb svc ""). 1: apply stable_ret.
  apply stable_try_except; [|intros; apply stable_ret].
  apply stable_bind; [apply stable_subprocess_run_none|].
  intros [rc err]. destruct (negb (rc =? 0)). 1: apply stable_ret.
  apply stable_bind; [apply stable_time_sleep|]. intros _.
  apply stable_bind; [apply stable_subprocess_run_none|].
  intros [rc2 err2]. apply stable_ret.
Qed.

Lemma stable_health_poll (w : World) (url : string) (start timeout : Z)
    (fuel : nat) :
  stable (on_fs P) (health_poll fuel w url start timeout).
Proof.
  induction fuel as [|n IH]; simpl. 1: apply stable_raise.
  apply stable_bind; [apply stable_time_time|]. intros now.
  destruct (now - start <? timeout). 2: apply stable_ret.
  apply stable_bind.
  - apply stable_try_except; [|intros; apply stable_ret].
    apply stable_bind; [apply stable_requests_get|].
    intros; apply stable_ret.
  - intros [|]. 1: apply stable_ret.
    apply stable_bind; [apply stable_time_sleep | intros _; exact IH].
Qed.

Lemma stable_health_check (w : World) (p : Params) :
  stable (on_fs P) (health_check w p).
Proof.
  unfold health_check. destruct (health_check_url p) as [url|].
  2: apply stable_ret.
  destruct (String.eqb url ""). 1: apply stable_ret.
  apply stable_bind; [apply stable_time_time|]. intros start.
  apply stable_health_poll.
Qed.
End FsRules.

(** restart_service and health_check leave the filesystem as it is. *)
Lemma restart_service_fs (w : World) (p : Params) (s : State) :
  fs (snd (restart_service w p s)) = fs s.
Proof. now apply (stable_restart_service (fun f => f = fs s) w p s). Qed.

Lemma health_check_fs (w : World) (p : Params) (s : State) :
  fs (snd (health_check w p s)) = fs s.
Proof. now apply (stable_health_check (fun f => f = fs s) w p s). Qed.

(** restart_service answers with a boolean whatever the sub-processes do. *)
Lemma restart_service_returns (w : World) (p : Params) :
  returns (restart_service w p).
Proof.
  intros s. unfold restart_service.
  destruct (service_name p) as [svc|]; [|now exists true].
  destruct (String.eqb svc ""); [now exists true|].
  unfold subprocess_run, write_files. unfold_monad.
  ask_world; simpl; [|now exists false].
  destruct (negb (rc =? 0)); simpl; [now exists false|].
  ask_world; simpl; eauto.
Qed.

(** ** Staging *)

Lemma is_dir_in_isdir (v : string) (f : FS) :
  is_dir_in v f <-> release_isdir v f = true.
Proof.
  unfold is_dir_in, kind_in, release_isdir.
  destruct (find_release v f) as [[| ]|]; simpl; split; congruence.
Qed.

Lemma exists_kind (v : string) (f : FS) :
  release_exists v f = true <-> exists k, kind_in v k f.
Proof.
  unfold kind_in, release_exists.
  destruct (find_release v f) as [e|]; simpl; split; eauto;
    try discriminate.
  intros [k Hk]. discriminate.
Qed.

Lemma kind_in_update (v v' : string) (k : bool) (g : entry -> entry)
    (f : FS) (ents : list (string * entry)) :
  releases f = Some ents ->
  (forall e, lookup v' ents = Some e -> is_dir (g e) = is_dir e) ->
  kind_in v k f ->
  kind_in v k (with_releases f (Some (update_entry v' g ents))).
Proof.
  unfold kind_in, find_release. intros -> Hg. simpl.
  rewrite lookup_update_entry.
  destruct (String.eqb v' v) eqn:Hv; [|auto].
  apply String.eqb_eq in Hv. subst v'.
  destruct (lookup v ents) as [e|] eqn:He; simpl; [|auto].
  now rewrite (Hg e eq_refl).
Qed.

Lemma stable_write_files (v v' : string) (k : bool) (new : list string) :
  stable (on_fs (kind_in v k)) (write_files (Some v') new).
Proof.
  intros s H. unfold write_files. destruct new as [|x new]; [exact H|].
  unfold_monad. destruct (releases (fs s)) as [ents|] eqn:Hr; [|exact H].
  simpl. unfold on_fs in *. simpl.
  apply kind_in_update; auto.
  intros e _. now destruct e.
Qed.

Lemma stable_subprocess_run_dir (w : World) (argv : list string)
    (v v' : string) (k : bool) :
  stable (on_fs (kind_in v k)) (subprocess_run w argv (Some v')).
Proof.
  unfold subprocess_run.
  apply stable_bind; [apply stable_get_state|]. intros s0.
  destruct (run_process w (trace s0) argv); [|apply stable_raise].
  apply stable_bind; [apply stable_emit|]. intros _.
  apply stable_bind; [apply stable_advance|]. intros _.
  apply stable_bind; [apply stable_write_files|]. intros _.
  apply stable_ret.
Qed.

Lemma stable_remove_release_file (v v' file path : string) (k : bool) :
  stable (on_fs (kind_in v k)) (remove_release_file v' file path).
Proof.
  intros s H. unfold remove_release_file. unfold_monad.
  destruct (releases (fs s)) as [ents|] eqn:Hr; [|exact H].
  destruct (lookup v' ents) as [[m files|m]|] eqn:Hl; try exact H.
  destruct (remove_string file files); [|exact H].
  simpl. unfold on_fs in *. simpl.
  apply kind_in_update; auto.
  intros e He. rewrite Hl in He. now inversion He.
Qed.

Lemma stable_makedirs_release (v v' : string) (k : bool) :
  stable (on_fs (kind_in v k)) (makedirs_release v').
Proof.
  intros s H. unfold makedirs_release. unfold_monad.
  destruct (lookup v' _) as [[m files|m]|] eqn:Hl; try exact H.
  simpl. unfold on_fs, kind_in, find_release in *. simpl.
  destruct (releases (fs s)) as [ents|]; [|discriminate].
  rewrite lookup_app.
  destruct (lookup v ents); [exact H | discriminate].
Qed.

(** What os.makedirs(version_dir) leaves when the path did not exist. *)
Lemma makedirs_release_creates (v : string) (s : State) :
  release_exists v (fs s) = false ->
  exists s1, makedirs_release v s = (Ok tt, s1) /\ is_dir_in v (fs s1).
Proof.
  unfold release_exists, find_release, makedirs_release. unfold_monad.
  intros H.
  destruct (releases (fs s)) as [ents|]; simpl.
  - destruct (lookup v ents) eqn:Hl; [discriminate|].
    eexists; split; [reflexivity|].
    unfold is_dir_in, kind_in, find_release. simpl.
    rewrite lookup_app, Hl. simpl. now rewrite String.eqb_refl.
  - eexists; split; [reflexivity|].
    unfold is_dir_in, kind_in, find_release. simpl.
    now rewrite String.eqb_refl.
Qed.

Lemma stable_fetch_and_extract (w : World) (p : Params) (url v : string)
    (k : bool) :
  stable (on_fs (kind_in v k)) (fetch_and_extract w p url).
Proof.
  unfold fetch_and_extract.
  apply stable_try_except; [|intros; apply stable_fail_json].
  apply stable_bind; [apply stable_subprocess_run_dir|]. intros [rc err].
  apply stable_bind.
  { destruct (negb (rc =? 0)); [apply stable_fail_json | apply stable_ret]. }
  intros _.
  apply stable_bind; [apply stable_subprocess_run_dir|]. intros [rc2 err2].
  apply stable_bind.
  { destruct (negb (rc2 =? 0)); [apply stable_fail_json | apply stable_ret]. }
  intros _.
  apply stable_bind; [apply stable_remove_release_file|]. intros _.
  apply stable_bind; [apply stable_set_changed|]. intros _.
  apply stable_ret.
Qed.

(** download_artifact never removes a release or changes its kind. *)
Lemma stable_download_artifact (w : World) (p : Params) (v : string)
    (k : bool) :
  stable (on_fs (kind_in v k)) (download_artifact w p).
Proof.
  unfold download_artifact. destruct (artifact_url p) as [url|].
  2: apply stable_ret.
  destruct (String.eqb url ""). 1: apply stable_ret.
  apply stable_bind; [apply stable_get_state|]. intros s0.
  destruct (release_exists (version p) (fs s0)). 1: apply stable_ret.
  apply stable_bind; [apply stable_makedirs_release|]. intros _.
  apply stable_fetch_and_extract.
Qed.

(** A call that gets past the two early returns leaves the directory of
    the version on disk, however the download goes. *)
Lemma download_artifact_leaves_dir (w : World) (p : Params) (s : State)
    (url : string) :
  artifact_url p = Some url -> url <> "" ->
  release_exists (version p) (fs s) = false ->
  is_dir_in (version p) (fs (snd (download_artifact w p s))).
Proof.
  intros Hu Hne Hex. unfold download_artifact. rewrite Hu.
  apply String.eqb_neq in Hne. rewrite Hne.
  rewrite (bind_ok get_state _ s s s eq_refl). rewrite Hex.
  destruct (makedirs_release_creates _ _ Hex) as (s1 & Hmk & Hdir).
  rewrite (bind_ok _ _ _ _ _ Hmk).
  now apply (stable_fetch_and_extract w p url (version p) true s1).
Qed.

(** download_artifact exits only from a call that created the directory,
    and the directory is still there when it does. *)
Lemma download_exit_leaves_dir (w : World) (p : Params) (s s' : State)
    (msg : string) :
  download_artifact w p s = (Exit msg, s') ->
  release_exists (version p) (fs s) = false
  /\ release_isdir (version p) (fs s') = true.
Proof.
  intros H.
  destruct (artifact_url p) as [url|] eqn:Hu.
  2: { unfold download_artifact in H. rewrite Hu in H. discriminate. }
  destruct (String.eqb url "") eqn:Hne.
  { unfold download_artifact in H. rewrite Hu, Hne in H. discriminate. }
  destruct (release_exists (version p) (fs s)) eqn:Hex.
  { unfold download_artifact in H. rewrite Hu, Hne in H.
    rewrite (bind_ok get_state _ s s s eq_refl), Hex in H. discriminate. }
  split; [reflexivity|].
  apply String.eqb_neq in Hne.
  pose proof (download_artifact_leaves_dir w p s url Hu Hne Hex) as Hd.
  rewrite H in Hd. now apply is_dir_in_isdir.
Qed.

Lemma isdir_exists (v : string) (f : FS) :
  release_isdir v f = true -> release_exists v f = true.
Proof.
  unfold release_isdir, release_exists.
  destruct (find_release v f) as [[| ]|]; congruence.
Qed.

Lemma download_artifact_existing (w : World) (p : Params) (s : State) :
  release_exists (version p) (fs s) = true ->
  download_artifact w p s = (Ok true, s).
Proof.
  intros H. unfold download_artifact.
  destruct (artifact_url p) as [url|]; [|reflexivity].
  destruct (String.eqb url ""); [reflexivity|].
  rewrite (bind_ok get_state _ s s s eq_refl). now rewrite H.
Qed.

(** ** The health check *)

(** The polling loop ends with an answer as soon as the fuel exceeds the
    seconds left before the timeout. *)
Lemma health_poll_returns (w : World) (url : string) (start timeout : Z)
    (fuel : nat) :
  forall s,
    Z.of_nat fuel > Z.max 0 (timeout - (clock s - start)) ->
    exists r, fst (health_poll fuel w url start timeout s) = Ok r.
Proof.
  induction fuel as [|n IH]; intros s Hfuel; [lia|].
  simpl. unfold requests_get. unfold_monad.
  destruct (clock s - start <? timeout) eqn:Hlt; [|simpl; eauto].
  apply Z.ltb_lt in Hlt.
  ask_world; simpl.
  - destruct (code =? 200); simpl; [eauto|].
    match goal with
    | |- context [health_poll n w url start timeout ?s1] =>
        destruct (IH s1) as [r Hr]; [simpl; lia|]
    end.
    exists r. exact Hr.
  - match goal with
    | |- context [health_poll n w url start timeout ?s1] =>
        destruct (IH s1) as [r Hr]; [simpl; lia|]
    end.
    exists r. exact Hr.
Qed.

(** health_check always returns its pair: never an exception, never an
    exit, and the loop cannot run out of fuel. *)
Lemma health_check_returns (w : World) (p : Params) :
  returns (health_check w p).
Proof.
  intros s. unfold health_check.
  destruct (health_check_url p) as [url|]; [|simpl; eauto].
  destruct (String.eqb url ""); [simpl; eauto|].
  unfold_monad.
  apply health_poll_returns. lia.
Qed.

Lemma health_check_disabled (w : World) (p : Params) (s : State) :
  truthy (health_check_url p) = false ->
  health_check w p s = (Ok (true, "No health check URL provided"), s).
Proof.
  unfold truthy, health_check.
  destruct (health_check_url p) as [url|]; [|reflexivity].
  destruct (String.eqb url ""); [reflexivity | discriminate].
Qed.

(** restart_service only adds to the trace. *)
Lemma restart_service_trace (w : World) (p : Params) (s : State) :
  exists rest, trace (snd (restart_service w p s)) = (trace s ++ rest)%list.
Proof.
  unfold restart_service.
  destruct (service_name p) as [svc|].
  2: { exists []. simpl. now rewrite app_nil_r. }
  destruct (String.eqb svc "").
  1: { exists []. simpl. now rewrite app_nil_r. }
  unfold subprocess_run, write_files. unfold_monad.
  ask_world; simpl.
  2: { exists []. now rewrite app_nil_r. }
  destruct (negb (rc =? 0)); simpl; [eauto|].
  ask_world; simpl; rewrite <- ?app_assoc; eauto.
Qed.

(** ** Switching the pointer *)

Lemma bind_assoc {A B C} (m : M A) (k : A -> M B) (k' : B -> M C) (s : State) :
  bind (bind m k) k' s = bind m (fun a => bind (k a) k') s.
Proof. unfold bind. now destruct (m s) as [[a|e|msg] s1]. Qed.

Lemma switch_runs (target : string) (s : State) :
  current (fs s) <> CurFile ->
  (clear_current_link ;; os_symlink target) s = (Ok tt, switched s target).
Proof.
  intros Hc. unfold clear_current_link, os_symlink, switched, switch_steps.
  unfold_monad.
  destruct (current (fs s)) eqn:Hcur; simpl; try congruence.
  - rewrite Hcur. reflexivity.
  - now rewrite <- app_assoc.
  - now rewrite <- app_assoc.
Qed.

Lemma switch_refuses_file (target : string) (s : State) :
  current (fs s) = CurFile ->
  (clear_current_link ;; os_symlink target) s = (Raise "NotADirectoryError", s).
Proof.
  intros Hc. unfold clear_current_link. unfold_monad. now rewrite Hc.
Qed.

Lemma create_symlink_runs (p : Params) (s : State) :
  current (fs s) <> CurFile ->
  create_symlink p s
  = (Ok tt, snd (set_changed (switched s (release_path p (version p))))).
Proof.
  intros Hc. unfold create_symlink.
  rewrite <- (bind_assoc clear_current_link (fun _ => os_symlink _)
                (fun _ => set_changed) s).
  now rewrite (bind_ok _ _ _ _ _ (switch_runs _ s Hc)).
Qed.

(** ** Rollback *)

Lemma rollback_unavailable (w : World) (p : Params) (pv : option string)
    (s : State) :
  truthy pv = false
  \/ (exists v, pv = Some v /\ release_exists v (fs s) = false) ->
  rollback w p pv s = (Ok false, s).
Proof.
  unfold rollback, truthy. intros [H | (v & -> & H)].
  - destruct pv as [v|]; [|reflexivity].
    destruct (String.eqb v ""); [reflexivity | discriminate].
  - destruct (String.eqb v ""); [reflexivity|].
    rewrite (bind_ok get_state _ s s s eq_refl). now rewrite H.
Qed.

Lemma rollback_runs (w : World) (p : Params) (v : string) (s : State) :
  v <> "" ->
  release_exists v (fs s) = true ->
  current (fs s) <> CurFile ->
  rollback w p (Some v) s
  = (Ok true, snd (restart_service w p (switched s (release_path p v)))).
Proof.
  intros Hv Hex Hc. unfold rollback.
  apply String.eqb_neq in Hv. rewrite Hv.
  rewrite (bind_ok get_state _ s s s eq_refl). rewrite Hex.
  change (negb true) with false. cbv iota.
  rewrite <- (bind_assoc clear_current_link (fun _ => os_symlink _)
                (fun _ => restart_service w p ;; ret true) s).
  rewrite (bind_ok _ _ _ _ _ (switch_runs _ s Hc)).
  destruct (restart_service_returns w p (switched s (release_path p v)))
    as [b Hb].
  unfold bind.
  destruct (restart_service w p (switched s (release_path p v)))
    as [o s2]. simpl in *. now rewrite Hb.
Qed.

Lemma rollback_fs (w : World) (p : Params) (v : string) (s : State) :
  v <> "" ->
  release_exists v (fs s) = true ->
  current (fs s) <> CurFile ->
  fs (snd (rollback w p (Some v) s))
  = with_current (fs s) (Symlink (release_path p v)).
Proof.
  intros Hv Hex Hc. rewrite (rollback_runs w p v s Hv Hex Hc). simpl.
  now rewrite restart_service_fs.
Qed.

(** ** Retention *)

Lemma insert_newest_perm (x : string * Z) (l : list (string * Z)) :
  Permutation (insert_newest x l) (x :: l).
Proof.
  induction l as [|y r IH]; simpl; [reflexivity|].
  destruct (snd x <? snd y); [|reflexivity].
  rewrite IH. apply perm_swap.
Qed.

Lemma sort_newest_first_perm (l : list (string * Z)) :
  Permutation (sort_newest_first l) l.
Proof.
  induction l as [|x r IH]; simpl; [reflexivity|].
  rewrite insert_newest_perm. now constructor.
Qed.

Lemma listed_versions_in (n : string) (ents : list (string * entry)) :
  In n (map fst (listed_versions ents)) -> In n (map fst ents).
Proof.
  induction ents as [|[k [m files|m]] r IH]; simpl; tauto.
Qed.

Lemma listed_versions_nodup (ents : list (string * entry)) :
  NoDup (map fst ents) -> NoDup (map fst (listed_versions ents)).
Proof.
  induction ents as [|[k [m files|m]] r IH]; simpl; intros H.
  - constructor.
  - inversion H; subst. constructor; [|auto].
    intros Hin. now apply listed_versions_in in Hin.
  - inversion H; subst. auto.
Qed.

Lemma slice_from_split {A} (k : Z) (l : list A) :
  exists kept, l = (kept ++ slice_from k l)%list.
Proof.
  unfold slice_from. destruct (0 <=? k).
  - exists (firstn (Z.to_nat k) l). now rewrite firstn_skipn.
  - exists (firstn (length l - Z.to_nat (- k)) l). now rewrite firstn_skipn.
Qed.

Lemma doomed_listed (p : Params) (ents : list (string * entry)) (n : string) :
  In n (doomed p ents) -> In n (map fst ents).
Proof.
  unfold doomed. intros H. apply listed_versions_in.
  apply (Permutation_in n
           (Permutation_map fst (sort_newest_first_perm (listed_versions ents)))).
  destruct (slice_from_split (keep_versions p)
              (sort_newest_first (listed_versions ents))) as [kept Hk].
  rewrite Hk, map_app. apply in_or_app. now right.
Qed.

Lemma doomed_nodup (p : Params) (ents : list (string * entry)) :
  NoDup (map fst ents) -> NoDup (doomed p ents).
Proof.
  intros H. unfold doomed.
  assert (Hs : NoDup (map fst (sort_newest_first (listed_versions ents)))).
  { apply (Permutation_NoDup
             (Permutation_map fst
                (Permutation_sym (sort_newest_first_perm (listed_versions ents))))).
    now apply listed_versions_nodup. }
  destruct (slice_from_split (keep_versions p)
              (sort_newest_first (listed_versions ents))) as [kept Hk].
  rewrite Hk, map_app in Hs. now apply NoDup_app_remove_l in Hs.
Qed.

Lemma stable_rmtree_current (w : World) (c : current_node) (n : string) :
  stable (on_fs (current_is c)) (rmtree_release w n).
Proof.
  intros s H. unfold rmtree_release. unfold_monad.
  destruct (rmtree_error w n); [exact H|].
  destruct (releases (fs s)) as [ents|]; [|exact H].
  destruct (lookup n ents); exact H.
Qed.

Lemma stable_for_each {A} (I : State -> Prop) (f : A -> M unit) (l : list A) :
  (forall a, stable I (f a)) -> stable I (for_each f l).
Proof.
  intros Hf. induction l as [|x r IH]; simpl; [apply stable_ret|].
  apply stable_bind; [apply Hf | intros _; exact IH].
Qed.

(** cleanup_old_versions does not touch the pointer. *)
Lemma cleanup_keeps_current (w : World) (p : Params) (s : State) :
  current (fs (snd (cleanup_old_versions w p s))) = current (fs s).
Proof.
  assert (H : stable (on_fs (current_is (current (fs s))))
                     (cleanup_old_versions w p)).
  { unfold cleanup_old_versions.
    apply stable_bind; [apply stable_get_state|]. intros s0.
    destruct (releases (fs s0)); [|apply stable_ret].
    apply stable_for_each. intros a. apply stable_rmtree_current. }
  now apply (H s).
Qed.

Lemma rmtree_release_run (w : World) (n : string) (s : State) :
  rmtree_release w n s
  = match rmtree_error w n with
    | Some msg => (Raise msg, s)
    | None =>
        match releases (fs s) with
        | Some ents =>
            match lookup n ents with
            | Some _ => (Ok tt, without_release s n ents)
            | None => (Raise "FileNotFoundError", s)
            end
        | None => (Raise "FileNotFoundError", s)
        end
    end.
Proof.
  unfold rmtree_release. unfold_monad.
  destruct (rmtree_error w n); [reflexivity|].
  destruct (releases (fs s)) as [ents|]; [|reflexivity].
  now destruct (lookup n ents).
Qed.

(** It returns or raises; it never calls fail_json. *)
Lemma for_each_rmtree_outcome (w : World) (l : list (string * Z)) (s : State) :
  fst (for_each (fun vm => rmtree_release w (fst vm)) l s) = Ok tt
  \/ exists e, fst (for_each (fun vm => rmtree_release w (fst vm)) l s) = Raise e.
Proof.
  revert s. induction l as [|[n m] r IH]; intros s; simpl; [now left|].
  unfold bind. rewrite rmtree_release_run.
  destruct (rmtree_error w n); [right; simpl; eauto|].
  destruct (releases (fs s)) as [ents|]; [|right; simpl; eauto].
  destruct (lookup n ents); [apply IH | right; simpl; eauto].
Qed.

Lemma cleanup_outcome (w : World) (p : Params) (s : State) :
  fst (cleanup_old_versions w p s) = Ok tt
  \/ exists e, fst (cleanup_old_versions w p s) = Raise e.
Proof.
  unfold cleanup_old_versions.
  rewrite (bind_ok get_state _ s s s eq_refl).
  destruct (releases (fs s)); [apply for_each_rmtree_outcome | now left].
Qed.

Lemma never_exits_cleanup_run (w : World) (p : Params) (s : State)
    (msg : string) :
  fst (cleanup_old_versions w p s) <> Exit msg.
Proof.
  destruct (cleanup_outcome w p s) as [H | [e H]]; rewrite H; discriminate.
Qed.

(** Deleting a list of distinct, existing releases when no deletion fails. *)
Lemma for_each_rmtree_ok (w : World) (l : list (string * Z)) :
  (forall n, rmtree_error w n = None) ->
  forall (s : State) (ents : list (string * entry)),
    releases (fs s) = Some ents ->
    NoDup (map fst l) ->
    (forall n, In n (map fst l) -> lookup n ents <> None) ->
    exists s' ents',
      for_each (fun vm => rmtree_release w (fst vm)) l s = (Ok tt, s')
      /\ releases (fs s') = Some ents'
      /\ forall n, lookup n ents'
                   = if existsb (String.eqb n) (map fst l) then None
                     else lookup n ents.
Proof.
  intros Hw. induction l as [|[v m] r IH]; intros s ents Hr Hnd Hin; simpl.
  - exists s, ents. auto.
  - unfold bind. rewrite rmtree_release_run, Hw, Hr.
    destruct (lookup v ents) eqn:Hl.
    2: { exfalso. apply (Hin v); simpl; auto. }
    inversion Hnd as [|? ? Hnotin Hnd']; subst.
    destruct (IH (without_release s v ents) (remove_entry v ents) eq_refl Hnd')
      as (s' & ents' & Hrun & Hr' & Hlk).
    { intros n Hn. rewrite lookup_remove_entry.
      destruct (String.eqb n v) eqn:Hnv.
      - apply String.eqb_eq in Hnv. subst. contradiction.
      - apply Hin. simpl. auto. }
    exists s', ents'. repeat split; auto.
    intros n. rewrite Hlk, lookup_remove_entry.
    destruct (String.eqb n v); simpl; [|reflexivity].
    now destruct (existsb (String.eqb n) (map fst r)).
Qed.

Lemma existsb_eqb_in (n : string) (l : list string) :
  existsb (String.eqb n) l = true <-> In n l.
Proof.
  rewrite existsb_exists. split.
  - intros (x & Hx & He). apply String.eqb_eq in He. now subst.
  - intros H. exists n. split; [exact H | apply String.eqb_refl].
Qed.

(** With no failing deletion, cleanup_old_versions removes exactly the
    doomed releases. *)
Lemma cleanup_runs (w : World) (p : Params) (s : State)
    (ents : list (string * entry)) :
  releases (fs s) = Some ents ->
  NoDup (map fst ents) ->
  (forall n, rmtree_error w n = None) ->
  exists s',
    cleanup_old_versions w p s = (Ok tt, s')
    /\ forall n, release_exists n (fs s') = true
                 <-> release_exists n (fs s) = true /\ ~ In n (doomed p ents).
Proof.
  intros Hr Hnd Hw. unfold cleanup_old_versions.
  rewrite (bind_ok get_state _ s s s eq_refl), Hr.
  destruct (for_each_rmtree_ok w
              (slice_from (keep_versions p)
                 (sort_newest_first (listed_versions ents)))
              Hw s ents Hr (doomed_nodup p ents Hnd))
    as (s' & ents' & Hrun & Hr' & Hlk).
  { intros n Hn. apply lookup_in. now apply (doomed_listed p). }
  exists s'. split; [exact Hrun|].
  intros n. unfold release_exists, find_release. rewrite Hr, Hr', Hlk.
  fold (doomed p ents).
  destruct (existsb (String.eqb n) (doomed p ents)) eqn:Hd.
  - apply existsb_eqb_in in Hd. split; [discriminate | tauto].
  - assert (Hn : ~ In n (doomed p ents)).
    { intros Hin. apply existsb_eqb_in in Hin. congruence. }
    tauto.
Qed.

(** Deletions in a row, the first failing one ending the loop: the
    releases before it are gone, it and the ones after it are not
    touched. *)
Lemma for_each_rmtree_stops (w : World) (n : string) (m : Z) (msg : string)
    (rest pre : list (string * Z)) :
  rmtree_error w n = Some msg ->
  (forall v, In v (map fst pre) -> rmtree_error w v = None) ->
  NoDup (map fst pre) ->
  forall (s : State) (ents : list (string * entry)),
    releases (fs s) = Some ents ->
    (forall v, In v (map fst pre) -> lookup v ents <> None) ->
    for_each (fun vm => rmtree_release w (fst vm)) (pre ++ (n, m) :: rest)%list s
    = (Raise msg, after_deletions s (map fst pre))
    /\ releases (fs (after_deletions s (map fst pre)))
       = Some (entries_without (map fst pre) ents).
Proof.
  intros Hn. induction pre as [|[v mv] pre IH]; intros Hok Hnd s ents Hr Hin.
  - simpl. unfold bind. rewrite rmtree_release_run, Hn. split; [reflexivity|].
    rewrite Hr. f_equal. unfold entries_without. simpl. clear.
    induction ents as [|x ents IHe]; simpl; [reflexivity|]. now rewrite <- IHe.
  - simpl. unfold bind. rewrite rmtree_release_run, (Hok v), Hr by (simpl; auto).
    destruct (lookup v ents) eqn:Hl.
    2: { exfalso. apply (Hin v); simpl; auto. }
    inversion Hnd as [|? ? Hnotin Hnd']; subst.
    destruct (IH (fun x Hx => Hok x (or_intror Hx)) Hnd'
                 (without_release s v ents) (remove_entry v ents) eq_refl)
      as [Hrun Hrel].
    { intros x Hx. rewrite lookup_remove_entry.
      destruct (String.eqb x v) eqn:Hxv.
      - apply String.eqb_eq in Hxv. subst. contradiction.
      - apply Hin. simpl. auto. }
    split; [exact Hrun|].
    rewrite Hrel. unfold entries_without. now rewrite filter_remove_entry.
Qed.

(** A failing deletion ends cleanup_old_versions where it stands. *)
Lemma cleanup_stops (w : World) (p : Params) (s : State)
    (ents : list (string * entry)) (pre : list string) (n : string)
    (rest : list string) (msg : string) :
  releases (fs s) = Some ents ->
  doomed p ents = (pre ++ n :: rest)%list ->
  NoDup pre ->
  (forall v, In v pre -> rmtree_error w v = None) ->
  rmtree_error w n = Some msg ->
  cleanup_old_versions w p s = (Raise msg, after_deletions s pre)
  /\ releases (fs (after_deletions s pre)) = Some (entries_without pre ents)
  /\ (forall v, In v (n :: rest) -> ~ In v pre ->
                release_exists v (fs (after_deletions s pre)) = true).
Proof.
  intros Hr Hd Hnd Hok Hn.
  assert (Hdl : forall v, In v (doomed p ents) -> lookup v ents <> None).
  { intros v Hv. apply lookup_in. now apply (doomed_listed p). }
  unfold doomed in Hd.
  apply map_eq_app in Hd as (lpre & l2 & Hl & Hpre & H2).
  apply map_eq_cons in H2 as ([n' m] & lrest & -> & Hn' & Hrest).
  simpl in Hn'. subst n' pre rest.
  destruct (for_each_rmtree_stops w n m msg lrest lpre Hn Hok Hnd s ents Hr)
    as [Hrun Hrel].
  { intros v Hv. apply Hdl. unfold doomed. rewrite Hl, map_app.
    apply in_or_app. now left. }
  split; [|split].
  - unfold cleanup_old_versions.
    rewrite (bind_ok get_state _ s s s eq_refl), Hr, Hl. exact Hrun.
  - exact Hrel.
  - intros v Hv Hnot. unfold release_exists, find_release. rewrite Hrel.
    unfold entries_without.
    rewrite (lookup_filter_names
               (fun x => negb (existsb (String.eqb x) (map fst lpre)))).
    destruct (existsb (String.eqb v) (map fst lpre)) eqn:He.
    { apply existsb_eqb_in in He. contradiction. }
    simpl. destruct (lookup v ents) eqn:Hlk; [reflexivity|].
    exfalso. apply (Hdl v); [|exact Hlk].
    unfold doomed. rewrite Hl, map_app. apply in_or_app. right.
    exact Hv.
Qed.

(** shutil.rmtree creates nothing. *)
Lemma absent_kept_rmtree (w : World) (v n : string) :
  stable (on_fs (absent v)) (rmtree_release w n).
Proof.
  intros s H. rewrite rmtree_release_run.
  destruct (rmtree_error w n); [exact H|].
  destruct (releases (fs s)) as [ents|] eqn:Hr; [|exact H].
  destruct (lookup n ents); [|exact H].
  unfold on_fs, absent, release_exists, find_release in *. simpl.
  rewrite Hr in H. rewrite lookup_remove_entry.
  destruct (String.eqb v n); [reflexivity | exact H].
Qed.

(** A release that a completed run of deletions had on its list is gone. *)
Lemma for_each_rmtree_deletes (w : World) (v : string)
    (l : list (string * Z)) (s s' : State) :
  for_each (fun vm => rmtree_release w (fst vm)) l s = (Ok tt, s') ->
  In v (map fst l) ->
  release_exists v (fs s') = false.
Proof.
  revert s. induction l as [|[n m] r IH]; intros s Hrun Hin; [destruct Hin|].
  simpl in Hrun. apply bind_inv_ok in Hrun as ([] & s1 & Hrm & Hrun).
  destruct (String.eqb n v) eqn:Hnv.
  - apply String.eqb_eq in Hnv. subst n.
    assert (H1 : on_fs (absent v) s1).
    { revert Hrm. cbn [fst]. rewrite rmtree_release_run.
      destruct (rmtree_error w v); [discriminate|].
      destruct (releases (fs s)) as [ents|]; [|discriminate].
      destruct (lookup v ents); [|discriminate].
      intros H. inversion H; subst s1.
      unfold on_fs, absent, release_exists, find_release. simpl.
      now rewrite lookup_remove_entry, String.eqb_refl. }
    pose proof (stable_for_each (on_fs (absent v))
                  (fun vm => rmtree_release w (fst vm)) r
                  (fun a => absent_kept_rmtree w v (fst a)) s1 H1) as H2.
    now rewrite Hrun in H2.
  - apply (IH s1 Hrun). destruct Hin as [Hin | Hin]; [|exact Hin].
    simpl in Hin. apply String.eqb_neq in Hnv. contradiction.
Qed.

(** A release that is not on the list of a run of deletions is still
    there afterwards, however the run ends. *)
Lemma for_each_rmtree_spares (w : World) (v : string)
    (l : list (string * Z)) (s : State) :
  ~ In v (map fst l) ->
  release_exists v (fs s) = true ->
  release_exists v
    (fs (snd (for_each (fun vm => rmtree_release w (fst vm)) l s))) = true.
Proof.
  revert s. induction l as [|[n m] r IH]; intros s Hnot Hex; [exact Hex|].
  simpl. unfold bind. cbn [fst]. rewrite rmtree_release_run.
  destruct (rmtree_error w n); [exact Hex|].
  destruct (releases (fs s)) as [ents|] eqn:Hr; [|exact Hex].
  destruct (lookup n ents); [|exact Hex].
  apply IH; [intros H; apply Hnot; simpl; auto|].
  unfold release_exists, find_release in *. simpl. rewrite Hr in Hex.
  rewrite lookup_remove_entry.
  destruct (String.eqb v n) eqn:Hvn; [|exact Hex].
  apply String.eqb_eq in Hvn. subst n. exfalso. apply Hnot. simpl. auto.
Qed.

(** Whether a release outlives cleanup_old_versions: one that is not
    doomed does, however the cleanup ends; a doomed one does not outlive
    a cleanup that completes. *)
Lemma cleanup_fate (w : World) (p : Params) (s : State)
    (ents : list (string * entry)) (v : string) :
  releases (fs s) = Some ents ->
  release_exists v (fs s) = true ->
  (~ In v (doomed p ents) ->
   release_exists v (fs (snd (cleanup_old_versions w p s))) = true)
  /\ (forall s', cleanup_old_versions w p s = (Ok tt, s') ->
                 In v (doomed p ents) ->
                 release_exists v (fs s') = false).
Proof.
  intros Hr Hex. unfold cleanup_old_versions.
  rewrite (bind_ok get_state _ s s s eq_refl), Hr. split.
  - intros Hnot. now apply for_each_rmtree_spares.
  - intros s' Hrun Hin. exact (for_each_rmtree_deletes w v _ s s' Hrun Hin).
Qed.

(** ** The deployment run *)

Lemma stable_clear_current_link (v : string) (k : bool) :
  stable (on_fs (kind_in v k)) clear_current_link.
Proof.
  intros s H. unfold clear_current_link. unfold_monad.
  destruct (current (fs s)); exact H.
Qed.

Lemma stable_os_symlink (v : string) (k : bool) (target : string) :
  stable (on_fs (kind_in v k)) (os_symlink target).
Proof.
  intros s H. unfold os_symlink. unfold_monad.
  destruct (current (fs s)); exact H.
Qed.

Lemma stable_stage_and_switch (w : World) (p : Params) (v : string) (k : bool) :
  stable (on_fs (kind_in v k)) (stage_and_switch w p).
Proof.
  unfold stage_and_switch, create_symlink.
  apply stable_bind; [apply stable_download_artifact|]. intros _.
  apply stable_bind.
  { apply stable_bind; [apply stable_clear_current_link|]. intros _.
    apply stable_bind; [apply stable_os_symlink|]. intros _.
    apply stable_set_changed. }
  intros _.
  apply stable_bind; [apply stable_restart_service|]. intros ok.
  destruct (negb ok); [apply stable_raise | apply stable_ret].
Qed.

(** Once stage_and_switch has returned, every release that was there is
    still there and the pointer names the target version. *)
Lemma stage_and_switch_ok (w : World) (p : Params) (s s3 : State) :
  stage_and_switch w p s = (Ok tt, s3) ->
  (forall v, release_exists v (fs s) = true -> release_exists v (fs s3) = true)
  /\ current (fs s3) = Symlink (release_path p (version p)).
Proof.
  intros H. split.
  - intros v Hv. apply exists_kind in Hv as [k Hk]. apply exists_kind.
    exists k. pose proof (stable_stage_and_switch w p v k s Hk) as Hs.
    now rewrite H in Hs.
  - unfold stage_and_switch in H.
    apply bind_inv_ok in H as (b & s1 & _ & H).
    apply bind_inv_ok in H as ([] & s2 & Hsym & H).
    apply bind_inv_ok in H as (ok & s3' & Hrs & H).
    destruct ok; [|discriminate]. inversion H; subst s3'.
    pose proof (restart_service_fs w p s2) as Hfs. rewrite Hrs in Hfs.
    simpl in Hfs. rewrite Hfs.
    destruct (current (fs s1)) eqn:Hc.
    4: { unfold create_symlink in Hsym.
         rewrite <- (bind_assoc clear_current_link (fun _ => os_symlink _)
                       (fun _ => set_changed) s1) in Hsym.
         rewrite (bind_raise _ _ _ _ _ (switch_refuses_file _ s1 Hc)) in Hsym.
         discriminate. }
    all: rewrite create_symlink_runs in Hsym by congruence;
      inversion Hsym; reflexivity.
Qed.

Lemma after_makedirs_exists (s : State) (v : string) :
  release_exists v (fs s) = true -> after_makedirs s = s.
Proof.
  unfold release_exists, find_release, after_makedirs.
  destruct (releases (fs s)); [reflexivity | discriminate].
Qed.

Lemma deploy_begin (w : World) (p : Params) (s : State) :
  deploy w p s
  = if already_deployed p (fs s)
    then (Ok (mkResult false (Some (version p)) false
                       (clock s - deployment_start_time s)
                       "Already deployed" None),
          after_makedirs s)
    else bind (attempt w p (current_version_of (fs s)))
              (finish w p (current_version_of (fs s)))
              (after_makedirs s).
Proof.
  unfold deploy, get_current_version, makedirs_releases, already_deployed,
    after_makedirs, attempt, same_version.
  unfold bind at 1 2 3 4 5. unfold get_state, ret, put_fs.
  unfold release_exists, find_release.
  destruct (releases (fs s)) as [ents|] eqn:Hr; simpl.
  - rewrite Hr. destruct (lookup (version p) ents); simpl; [|reflexivity].
    now destruct (current_version_of (fs s)) as [cv|];
      [destruct (String.eqb cv (version p))|].
  - reflexivity.
Qed.

Lemma finish_run (w : World) (p : Params) (cv : option string)
    (rb : bool) (st : string) (s : State) :
  finish w p cv (rb, st) s
  = match cleanup_old_versions w p s with
    | (Ok _, s') =>
        (Ok (mkResult (changed s')
                      (if rb then cv else Some (version p))
                      rb
                      (clock s' - deployment_start_time s')
                      st
                      (if rb && truthy cv then cv else None)), s')
    | (Raise e, s') => (Raise e, s')
    | (Exit msg, s') => (Exit msg, s')
    end.
Proof.
  unfold finish, bind.
  now destruct (cleanup_old_versions w p s) as [[[]|e|msg] s'].
Qed.

(** ** The claims *)

(** C7 (idempotence of deploy): when the release directory of the target
    version exists and the current pointer already resolves to the target
    version, deploy returns at once with changed = false and health status
    'Already deployed'; the machine state is the one it started from, so
    nothing was staged, switched, restarted, probed or rolled back. *)
Theorem deploy_already_deployed (w : World) (p : Params) (s : State) :
  release_exists (version p) (fs s) = true ->
  current_version_of (fs s) = Some (version p) ->
  deploy w p s
  = (Ok (mkResult false (Some (version p)) false
                  (clock s - deployment_start_time s)
                  "Already deployed" None), s).
Proof.
  intros Hex Hcv. rewrite deploy_begin.
  unfold already_deployed. rewrite Hex, Hcv. simpl.
  rewrite String.eqb_refl. now rewrite (after_makedirs_exists s _ Hex).
Qed.

Lemma deploy_already_deployed_witness :
  deploy Sample.calm (Sample.params "v5" (Some "http://repo/app.tgz")
                                    (Some "http://localhost/health") 5
                                    (Some "my-app"))
         (Sample.running "v5")
  = (Ok (mkResult false (Some "v5") false 0 "Already deployed" None),
     Sample.running "v5").
Proof.
  apply (deploy_already_deployed Sample.calm
           (Sample.params "v5" (Some "http://repo/app.tgz")
                          (Some "http://localhost/health") 5 (Some "my-app"))
           (Sample.running "v5")); reflexivity.
Defined.

(** C10 (an existing directory counts as staged): whenever releases/<version>
    exists, download_artifact returns True and leaves the machine as it
    was, whatever the directory holds; this covers the directory a failed
    download of the same version left behind. *)
Theorem download_artifact_reuses_directory (w : World) (p : Params) (s : State) :
  (release_exists (version p) (fs s) = true ->
   download_artifact w p s = (Ok true, s))
  /\ (forall w0 s0 msg,
        download_artifact w0 p s0 = (Exit msg, s) ->
        download_artifact w p s = (Ok true, s)).
Proof.
  split.
  - apply download_artifact_existing.
  - intros w0 s0 msg H. apply download_artifact_existing.
    apply isdir_exists. now apply (download_exit_leaves_dir w0 p s0 s msg).
Qed.

Lemma download_artifact_reuses_directory_witness :
  download_artifact Sample.calm
    (Sample.params "v6" (Some "http://repo/app.tgz") None 5 None)
    Sample.half_staged
  = (Ok true, Sample.half_staged)
  /\ (let left_behind :=
        snd (download_artifact Sample.wget_fails
               (Sample.params "v6" (Some "http://repo/app.tgz") None 5 None)
               (Sample.running "v5")) in
      download_artifact Sample.calm
        (Sample.params "v6" (Some "http://repo/app.tgz") None 5 None)
        left_behind
      = (Ok true, left_behind)).
Proof.
  split.
  - apply (proj1 (download_artifact_reuses_directory Sample.calm
                    (Sample.params "v6" (Some "http://repo/app.tgz") None 5 None)
                    Sample.half_staged)).
    reflexivity.
  - cbv zeta.
    apply (proj2 (download_artifact_reuses_directory Sample.calm
                    (Sample.params "v6" (Some "http://repo/app.tgz") None 5 None)
                    _)
             Sample.wget_fails (Sample.running "v5")
             "Failed to download artifact: 404 Not Found").
    vm_compute. reflexivity.
Defined.

(** A call that gets past the two early returns creates the directory
    and goes on to the try statement. *)
Lemma download_artifact_fresh (w : World) (p : Params) (s : State)
    (url : string) :
  artifact_url p = Some url -> url <> "" ->
  release_exists (version p) (fs s) = false ->
  makedirs_release (version p) s
  = (Ok tt, snd (makedirs_release (version p) s))
  /\ download_artifact w p s
     = fetch_and_extract w p url (snd (makedirs_release (version p) s)).
Proof.
  intros Hu Hne Hex.
  destruct (makedirs_release_creates _ _ Hex) as (s1 & Hmk & _).
  rewrite Hmk. split; [reflexivity|].
  unfold download_artifact. rewrite Hu.
  apply String.eqb_neq in Hne. rewrite Hne.
  rewrite (bind_ok get_state _ s s s eq_refl), Hex.
  now rewrite (bind_ok _ _ _ _ _ Hmk).
Qed.

(** subprocess.run raises or returns; it never calls fail_json. *)
Lemma subprocess_run_no_exit (w : World) (argv : list string)
    (dir : option string) (s s' : State) (msg : string) :
  subprocess_run w argv dir s <> (Exit msg, s').
Proof.
  unfold subprocess_run, write_files. unfold_monad.
  destruct (run_process w (trace s) argv) as [rc err d new|exc];
    [|discriminate].
  destruct dir as [name|]; [|discriminate].
  destruct new; [discriminate|]. cbn [fs].
  destruct (releases (fs s)); discriminate.
Qed.

(** The try statement of download_artifact, ending by ending. *)
Lemma fetch_and_extract_wget_raises (w : World) (p : Params) (url exc : string)
    (s1 s2 : State) :
  subprocess_run w (wget_argv p url) (Some (version p)) s1 = (Raise exc, s2) ->
  fetch_and_extract w p url s1
  = (Exit ("Failed to download/extract artifact: " ++ exc), s2).
Proof.
  intros H. unfold fetch_and_extract, try_except.
  now rewrite (bind_raise _ _ _ _ _ H).
Qed.

Lemma fetch_and_extract_after_wget (w : World) (p : Params) (url err : string)
    (rc : Z) (s1 s2 : State) :
  subprocess_run w (wget_argv p url) (Some (version p)) s1
  = (Ok (rc, err), s2) ->
  fetch_and_extract w p url s1
  = if rc =? 0 then
      match subprocess_run w (tar_argv p) (Some (version p)) s2 with
      | (Raise exc, s3) =>
          (Exit ("Failed to download/extract artifact: " ++ exc), s3)
      | (Exit msg, s3) => (Exit msg, s3)
      | (Ok (rc2, err2), s3) =>
          if rc2 =? 0 then
            match remove_release_file (version p) archive_name
                    (release_path p (version p) ++ "/" ++ archive_name) s3
            with
            | (Ok _, s4) => (Ok true, snd (set_changed s4))
            | (Raise e, s4) =>
                (Exit ("Failed to download/extract artifact: " ++ e), s4)
            | (Exit msg, s4) => (Exit msg, s4)
            end
          else (Exit ("Failed to extract artifact: " ++ err2), s3)
      end
    else (Exit ("Failed to download artifact: " ++ err), s2).
Proof.
  intros H. unfold fetch_and_extract, try_except.
  rewrite (bind_ok _ _ _ _ _ H).
  destruct (rc =? 0); [|reflexivity].
  cbn [negb]. rewrite (bind_ok (ret tt) _ s2 s2 tt eq_refl).
  fold (tar_argv p).
  destruct (subprocess_run w (tar_argv p) (Some (version p)) s2)
    as [[[rc2 err2]|exc|msg] s3] eqn:Ht.
  - rewrite (bind_ok _ _ _ _ _ Ht).
    destruct (rc2 =? 0); [|reflexivity].
    cbn [negb]. rewrite (bind_ok (ret tt) _ s3 s3 tt eq_refl).
    destruct (remove_release_file _ _ _ s3) as [[[]|e|msg] s4] eqn:Hrm.
    + now rewrite (bind_ok _ _ _ _ _ Hrm).
    + now rewrite (bind_raise _ _ _ _ _ Hrm).
    + now rewrite (bind_exit _ _ _ _ _ Hrm).
  - now rewrite (bind_raise _ _ _ _ _ Ht).
  - now rewrite (bind_exit _ _ _ _ _ Ht).
Qed.

(** C6, as the code has it: whichever of the two commands fails, and
    whether it exits with a non-zero status or subprocess.run itself
    raises, download_artifact ends in module.fail_json, and the
    releases/<version> directory this call created is still on disk:
    nothing removes it.  The first part says so of every fail_json of
    download_artifact; the second goes through the endings of a call that
    created the directory, [s1] being the state os.makedirs leaves. *)
Theorem download_failure_keeps_directory :
  (forall w p s s' msg,
     download_artifact w p s = (Exit msg, s') ->
     release_exists (version p) (fs s) = false
     /\ release_isdir (version p) (fs s') = true)
  /\ (forall w p s url,
        artifact_url p = Some url ->
        url <> "" ->
        plain_name (version p) ->
        release_exists (version p) (fs s) = false ->
        let s1 := snd (makedirs_release (version p) s) in
        let wget := subprocess_run w (wget_argv p url) (Some (version p)) in
        let tar := subprocess_run w (tar_argv p) (Some (version p)) in
        makedirs_release (version p) s = (Ok tt, s1)
        /\ release_isdir (version p) (fs (snd (download_artifact w p s))) = true
        /\ (forall exc s2,
              wget s1 = (Raise exc, s2) ->
              download_artifact w p s
              = (Exit ("Failed to download/extract artifact: " ++ exc), s2))
        /\ (forall rc err s2,
              wget s1 = (Ok (rc, err), s2) ->
              rc <> 0 ->
              download_artifact w p s
              = (Exit ("Failed to download artifact: " ++ err), s2))
        /\ (forall err s2 exc s3,
              wget s1 = (Ok (0, err), s2) ->
              tar s2 = (Raise exc, s3) ->
              download_artifact w p s
              = (Exit ("Failed to download/extract artifact: " ++ exc), s3))
        /\ (forall err s2 rc2 err2 s3,
              wget s1 = (Ok (0, err), s2) ->
              tar s2 = (Ok (rc2, err2), s3) ->
              rc2 <> 0 ->
              download_artifact w p s
              = (Exit ("Failed to extract artifact: " ++ err2), s3))
        /\ (forall err s2 err2 s3,
              wget s1 = (Ok (0, err), s2) ->
              tar s2 = (Ok (0, err2), s3) ->
              (exists s', download_artifact w p s = (Ok true, s'))
              \/ (exists e s',
                    download_artifact w p s
                    = (Exit ("Failed to download/extract artifact: " ++ e),
                       s')))
        /\ (forall msg s2, wget s1 <> (Exit msg, s2))
        /\ (forall msg s2 s3, tar s2 <> (Exit msg, s3))).
Proof.
  split; [exact download_exit_leaves_dir|].
  intros w p s url Hu Hne _ Hex. cbv zeta.
  destruct (download_artifact_fresh w p s url Hu Hne Hex) as [Hmk Hrun].
  split; [exact Hmk|].
  split.
  { apply is_dir_in_isdir. now apply (download_artifact_leaves_dir w p s url). }
  rewrite Hrun. repeat split.
  - intros exc s2 Hw. now apply fetch_and_extract_wget_raises.
  - intros rc err s2 Hw Hrc.
    rewrite (fetch_and_extract_after_wget _ _ _ _ _ _ _ Hw).
    apply Z.eqb_neq in Hrc. now rewrite Hrc.
  - intros err s2 exc s3 Hw Ht.
    rewrite (fetch_and_extract_after_wget _ _ _ _ _ _ _ Hw).
    cbn [Z.eqb]. now rewrite Ht.
  - intros err s2 rc2 err2 s3 Hw Ht Hrc.
    rewrite (fetch_and_extract_after_wget _ _ _ _ _ _ _ Hw).
    cbn [Z.eqb]. rewrite Ht.
    apply Z.eqb_neq in Hrc. now rewrite Hrc.
  - intros err s2 err2 s3 Hw Ht.
    rewrite (fetch_and_extract_after_wget _ _ _ _ _ _ _ Hw).
    cbn [Z.eqb]. rewrite Ht. cbn [Z.eqb].
    destruct (remove_release_file _ _ _ s3) as [[[]|e|msg] s4] eqn:Hrm.
    + left. eauto.
    + right. eauto.
    + exfalso. revert Hrm. unfold remove_release_file. unfold_monad.
      destruct (releases (fs s3)) as [ents|]; [|discriminate].
      destruct (lookup (version p) ents) as [[m files|m]|]; try discriminate.
      destruct (remove_string archive_name files); discriminate.
  - intros msg s2. apply subprocess_run_no_exit.
  - intros msg s2 s3. apply subprocess_run_no_exit.
Qed.

Lemma download_failure_keeps_directory_witness :
  (exists s3,
     download_artifact Scenario.tar_fails
       (Sample.params "v6" (Some "http://repo/app.tgz") None 5 None)
       (Sample.running "v5")
     = (Exit "Failed to extract artifact: not in gzip format", s3)
     /\ release_isdir "v6" (fs s3) = true)
  /\ (exists s2,
        download_artifact Scenario.no_wget
          (Sample.params "v6" (Some "http://repo/app.tgz") None 5 None)
          (Sample.running "v5")
        = (Exit ("Failed to download/extract artifact: "
                 ++ "[Errno 2] No such file or directory: 'wget'"), s2)
        /\ release_isdir "v6" (fs s2) = true).
Proof.
  pose (p := Sample.params "v6" (Some "http://repo/app.tgz") None 5 None).
  assert (Hplain : plain_name (version p)) by solve_plain_name.
  split.
  - destruct (proj2 download_failure_keeps_directory Scenario.tar_fails p
                (Sample.running "v5") "http://repo/app.tgz"
                eq_refl ltac:(discriminate) Hplain eq_refl)
      as (_ & _ & _ & _ & _ & Htar & _).
    eexists. split.
    + eapply (Htar "" _ 2 "not in gzip format").
      * vm_compute. reflexivity.
      * vm_compute. reflexivity.
      * discriminate.
    + apply (proj1 download_failure_keeps_directory _ _ _ _ _
               (Htar "" _ 2 "not in gzip format" _ eq_refl eq_refl
                  ltac:(discriminate))).
  - destruct (proj2 download_failure_keeps_directory Scenario.no_wget p
                (Sample.running "v5") "http://repo/app.tgz"
                eq_refl ltac:(discriminate) Hplain eq_refl)
      as (_ & _ & Hwget & _).
    eexists. split.
    + eapply (Hwget "[Errno 2] No such file or directory: 'wget'").
      vm_compute. reflexivity.
    + apply (proj1 download_failure_keeps_directory _ _ _ _ _
               (Hwget "[Errno 2] No such file or directory: 'wget'" _
                  eq_refl)).
Defined.

(** C6 as stated fails: wget fails, download_artifact exits with the
    failure message, and releases/v6 is left behind holding the partial
    archive. *)
Lemma download_failure_leaves_partial_directory :
  exists s',
    download_artifact Sample.wget_fails
      (Sample.params "v6" (Some "http://repo/app.tgz") None 5 None)
      (Sample.running "v5")
    = (Exit "Failed to download artifact: 404 Not Found", s')
    /\ find_release "v6" (fs s') = Some (EDir 1002 ["app.tar.gz"]).
Proof. eexists. split; vm_compute; reflexivity. Qed.

(** C8, as the code has it: when module.params['health_check_url'] is
    None or empty, health_check returns (True, 'No health check URL
    provided') at once, with no probe and no wait, and the try block of
    deploy ends without a rollback in the state the restart left.  An
    empty string given as the option has this effect; an option left out
    of the task does not, since main's argument_spec fills in the default
    URL. *)
Theorem health_check_disabled_by_empty_url :
  (forall w p s,
     truthy (health_check_url p) = false ->
     health_check w p s = (Ok (true, "No health check URL provided"), s))
  /\ (forall w p cv s s3,
        truthy (health_check_url p) = false ->
        stage_and_switch w p s = (Ok tt, s3) ->
        deploy_try w p cv s = (Ok (false, "No health check URL provided"), s3))
  /\ (forall a,
        arg_health_check_url a = Some "" ->
        truthy (health_check_url (module_params a)) = false)
  /\ (forall a,
        arg_health_check_url a = None ->
        health_check_url (module_params a) = Some "http://localhost:8080/health").
Proof.
  repeat split.
  - apply health_check_disabled.
  - intros w p cv s s3 Hu Hs. unfold deploy_try.
    rewrite (bind_ok _ _ _ _ _ Hs).
    now rewrite (bind_ok _ _ _ _ _ (health_check_disabled w p s3 Hu)).
  - intros a Ha. unfold module_params. simpl. now rewrite Ha.
  - intros a Ha. unfold module_params. simpl. now rewrite Ha.
Qed.

Lemma health_check_disabled_by_empty_url_witness :
  health_check Sample.unhealthy
    (module_params (Sample.args "v1" (Some ""))) Sample.fresh
  = (Ok (true, "No health check URL provided"), Sample.fresh)
  /\ exists s3,
       deploy_try Sample.unhealthy
         (module_params (Sample.args "v1" (Some ""))) None Sample.fresh
       = (Ok (false, "No health check URL provided"), s3).
Proof.
  split.
  - apply (proj1 health_check_disabled_by_empty_url).
    apply (proj1 (proj2 (proj2 health_check_disabled_by_empty_url))).
    reflexivity.
  - eexists.
    apply (proj1 (proj2 health_check_disabled_by_empty_url)).
    + reflexivity.
    + vm_compute. reflexivity.
Defined.

(** C8 as stated fails for an option left out: main then runs with the
    default URL, and the probe request is issued. *)
Lemma absent_health_check_url_is_probed :
  arg_health_check_url (Sample.args "v1" None) = None
  /\ exists r s',
       main Sample.calm (Sample.args "v1" None) Sample.fresh
       = (Ok (Deployed r), s')
       /\ health_check_status r = "Health check passed"
       /\ In (Get "http://localhost:8080/health") (trace s').
Proof.
  split; [reflexivity|]. eexists. eexists.
  split; [vm_compute; reflexivity|].
  split; [reflexivity|]. simpl. auto 10.
Qed.

(** C3, as the code has it: the switch is 'remove the old entry, then
    create the link'.  When current is a link or a directory, the first
    filesystem change of create_symlink leaves no current entry at all and
    the second creates the link to releases/<version>; rollback repoints
    in the same two steps before it restarts the service.  (A current that
    is a regular file makes the removal raise.) *)
Theorem switch_removes_then_creates :
  (forall p s,
     current (fs s) <> CurFile ->
     let target := release_path p (version p) in
     let s' := snd (create_symlink p s) in
     fst (create_symlink p s) = Ok tt
     /\ current (fs s') = Symlink target
     /\ trace s'
        = (trace s
           ++ match current (fs s) with
              | NoCurrent => []
              | _ => [Mutated (with_current (fs s) NoCurrent)]
              end
           ++ [Mutated (with_current (fs s) (Symlink target))])%list)
  /\ (forall w p v s,
        v <> "" ->
        release_exists v (fs s) = true ->
        current (fs s) <> CurFile ->
        let target := release_path p v in
        let s' := snd (rollback w p (Some v) s) in
        current (fs s') = Symlink target
        /\ exists rest,
             trace s'
             = (trace s
                ++ match current (fs s) with
                   | NoCurrent => []
                   | _ => [Mutated (with_current (fs s) NoCurrent)]
                   end
                ++ [Mutated (with_current (fs s) (Symlink target))]
                ++ rest)%list).
Proof.
  split.
  - intros p s Hc. cbv zeta. rewrite (create_symlink_runs p s Hc). simpl.
    repeat split. unfold switch_steps.
    now destruct (current (fs s)).
  - intros w p v s Hv Hex Hc. cbv zeta.
    rewrite (rollback_runs w p v s Hv Hex Hc). simpl. split.
    + now rewrite restart_service_fs.
    + destruct (restart_service_trace w p (switched s (release_path p v)))
        as [rest Hrest].
      exists rest. rewrite Hrest. simpl. unfold switch_steps.
      destruct (current (fs s)); simpl; now rewrite <- ?app_assoc.
Qed.

Lemma switch_removes_then_creates_witness :
  trace (snd (create_symlink (Sample.params "v2" None None 5 None)
                             (Sample.running "v1")))
  = [Mutated (mkFS (Some Sample.five) NoCurrent);
     Mutated (mkFS (Some Sample.five) (Symlink "/opt/my-app/releases/v2"))]
  /\ current (fs (snd (rollback Sample.calm
                         (Sample.params "v5" None None 5 (Some "my-app"))
                         (Some "v4") (Sample.running "v5"))))
     = Symlink "/opt/my-app/releases/v4".
Proof.
  split.
  - apply (proj1 switch_removes_then_creates
             (Sample.params "v2" None None 5 None) (Sample.running "v1")).
    simpl. discriminate.
  - apply (proj2 switch_removes_then_creates Sample.calm
             (Sample.params "v5" None None 5 (Some "my-app")) "v4"
             (Sample.running "v5")).
    + discriminate.
    + reflexivity.
    + simpl. discriminate.
Defined.

(** C3 as stated fails: while v2 replaces v1, the filesystem passes
    through a state in which there is no current entry. *)
Lemma switch_passes_through_no_current :
  exists f,
    In (Mutated f)
       (trace (snd (create_symlink (Sample.params "v2" None None 5 None)
                                   (Sample.running "v1"))))
    /\ current f = NoCurrent.
Proof.
  exists (mkFS (Some Sample.five) NoCurrent).
  split; [left; reflexivity | reflexivity].
Qed.

(** C5, as the code has it: rollback returns False and changes nothing
    when the previous version is None or empty or its release directory
    is missing; otherwise it repoints current to the previous release,
    restarts the service, and returns True whatever the restart
    answered. *)
Theorem rollback_result :
  (forall w p pv s,
     truthy pv = false
     \/ (exists v, pv = Some v /\ release_exists v (fs s) = false) ->
     rollback w p pv s = (Ok false, s))
  /\ (forall w p v s,
        v <> "" ->
        release_exists v (fs s) = true ->
        current (fs s) <> CurFile ->
        exists s1 restarted s',
          (clear_current_link ;; os_symlink (release_path p v)) s = (Ok tt, s1)
          /\ current (fs s1) = Symlink (release_path p v)
          /\ restart_service w p s1 = (Ok restarted, s')
          /\ rollback w p (Some v) s = (Ok true, s')).
Proof.
  split.
  - apply rollback_unavailable.
  - intros w p v s Hv Hex Hc.
    destruct (restart_service_returns w p (switched s (release_path p v)))
      as [b Hb].
    exists (switched s (release_path p v)), b,
      (snd (restart_service w p (switched s (release_path p v)))).
    repeat split.
    + now apply switch_runs.
    + destruct (restart_service w p (switched s (release_path p v))).
      simpl in *. now subst.
    + now apply rollback_runs.
Qed.

Lemma rollback_result_witness :
  rollback Sample.calm (Sample.params "v5" None None 5 None) (Some "v9")
           (Sample.running "v5")
  = (Ok false, Sample.running "v5")
  /\ exists s1 restarted s',
       (clear_current_link ;; os_symlink "/opt/my-app/releases/v4")
         (Sample.running "v5") = (Ok tt, s1)
       /\ current (fs s1) = Symlink "/opt/my-app/releases/v4"
       /\ restart_service Sample.calm
            (Sample.params "v5" None None 5 (Some "my-app")) s1
          = (Ok restarted, s')
       /\ rollback Sample.calm
            (Sample.params "v5" None None 5 (Some "my-app")) (Some "v4")
            (Sample.running "v5") = (Ok true, s').
Proof.
  split.
  - apply (proj1 rollback_result). right. exists "v9". split; reflexivity.
  - apply (proj2 rollback_result Sample.calm
             (Sample.params "v5" None None 5 (Some "my-app")) "v4"
             (Sample.running "v5")).
    + discriminate.
    + reflexivity.
    + simpl. discriminate.
Defined.

(** C5 as stated fails: the restart inside rollback fails and rollback
    still returns True. *)
Lemma rollback_true_though_restart_failed :
  exists s1 s',
    (clear_current_link ;; os_symlink "/opt/my-app/releases/v4")
      (Sample.running "v5") = (Ok tt, s1)
    /\ restart_service Sample.restart_fails
         (Sample.params "v5" None None 5 (Some "my-app")) s1 = (Ok false, s')
    /\ rollback Sample.restart_fails
         (Sample.params "v5" None None 5 (Some "my-app")) (Some "v4")
         (Sample.running "v5") = (Ok true, s').
Proof.
  do 2 eexists. split; [vm_compute; reflexivity|].
  split; vm_compute; reflexivity.
Qed.

(** C1, as the code has it: cleanup_old_versions keeps the directories
    that come first in newest-first st_mtime order, keep_versions of them,
    and deletes every later one.  When no deletion fails, a release is on
    disk afterwards exactly when it was there before and is not among the
    later ones; the pointer is left as it was, and the release it names is
    treated like any other. *)
Theorem cleanup_keeps_only_newest (w : World) (p : Params) (s : State)
    (ents : list (string * entry)) :
  releases (fs s) = Some ents ->
  NoDup (map fst ents) ->
  (forall n, rmtree_error w n = None) ->
  exists s',
    cleanup_old_versions w p s = (Ok tt, s')
    /\ current (fs s') = current (fs s)
    /\ forall n,
         release_exists n (fs s') = true
         <-> release_exists n (fs s) = true
             /\ ~ In n (map fst (slice_from (keep_versions p)
                                   (sort_newest_first (listed_versions ents)))).
Proof.
  intros Hr Hnd Hw.
  destruct (cleanup_runs w p s ents Hr Hnd Hw) as (s' & Hrun & Hex).
  exists s'. split; [exact Hrun|]. split.
  - pose proof (cleanup_keeps_current w p s) as Hc. now rewrite Hrun in Hc.
  - exact Hex.
Qed.

Lemma cleanup_keeps_only_newest_witness :
  exists s',
    cleanup_old_versions Sample.calm (Sample.params "v3" None None 2 None)
                         (Sample.running "v3") = (Ok tt, s')
    /\ current (fs s') = Symlink "/opt/my-app/releases/v3"
    /\ forall n,
         release_exists n (fs s') = true
         <-> release_exists n (fs (Sample.running "v3")) = true
             /\ ~ In n ["v3"; "v2"; "v1"].
Proof.
  apply (cleanup_keeps_only_newest Sample.calm
           (Sample.params "v3" None None 2 None) (Sample.running "v3")
           Sample.five).
  - reflexivity.
  - repeat (constructor; [simpl; intuition discriminate|]). constructor.
  - intros n. reflexivity.
Defined.

(** C1 as stated fails: with keep_versions = 2, deploying the staged v3
    over v5 repoints current to v3 and then deletes releases/v3, the third
    newest directory. *)
Lemma cleanup_deletes_active_release :
  exists r s',
    deploy Sample.calm (Sample.params "v3" None (Some "") 2 None)
           (Sample.running "v5") = (Ok r, s')
    /\ current_version_of (fs s') = Some "v3"
    /\ release_exists "v3" (fs s') = false.
Proof.
  do 2 eexists. split; [vm_compute; reflexivity|].
  split; vm_compute; reflexivity.
Qed.

(** C9, as the code has it: shutil.rmtree is called with no handler
    around it.  cleanup_old_versions deletes the doomed releases in order,
    oldest last, and the first deletion that fails ends it with that
    exception: the releases before the failing one are gone, it and the
    ones after it stay.  deploy, which had its rollback flag and status
    ready, ends with the same exception instead of returning the result. *)
Theorem cleanup_failure_ends_deploy :
  (forall w p s ents pre n rest msg,
     releases (fs s) = Some ents ->
     doomed p ents = (pre ++ n :: rest)%list ->
     NoDup pre ->
     (forall v, In v pre -> rmtree_error w v = None) ->
     rmtree_error w n = Some msg ->
     cleanup_old_versions w p s = (Raise msg, after_deletions s pre)
     /\ releases (fs (after_deletions s pre)) = Some (entries_without pre ents)
     /\ (forall v, In v (n :: rest) -> ~ In v pre ->
                   release_exists v (fs (after_deletions s pre)) = true))
  /\ (forall w p s x s5 e s6,
        already_deployed p (fs s) = false ->
        attempt w p (current_version_of (fs s)) (after_makedirs s) = (Ok x, s5) ->
        cleanup_old_versions w p s5 = (Raise e, s6) ->
        deploy w p s = (Raise e, s6)).
Proof.
  split.
  - exact cleanup_stops.
  - intros w p s [rb st] s5 e s6 Hnot Hatt Hcl.
    rewrite deploy_begin, Hnot.
    rewrite (bind_ok _ _ _ _ _ Hatt), finish_run. now rewrite Hcl.
Qed.

Lemma cleanup_failure_ends_deploy_witness :
  (cleanup_old_versions Sample.v1_undeletable
     (Sample.params "v5" None None 2 None) (Sample.running "v5")
   = (Raise "PermissionError",
      after_deletions (Sample.running "v5") ["v3"; "v2"])
   /\ releases (fs (after_deletions (Sample.running "v5") ["v3"; "v2"]))
      = Some [("v1", EDir 10 ["app"]); ("v4", EDir 40 ["app"]);
              ("v5", EDir 50 ["app"])])
  /\ exists s6,
       deploy Sample.v1_undeletable (Sample.params "v3" None (Some "") 4 None)
              (Sample.running "v5") = (Raise "PermissionError", s6).
Proof.
  split.
  - destruct (proj1 cleanup_failure_ends_deploy Sample.v1_undeletable
                (Sample.params "v5" None None 2 None) (Sample.running "v5")
                Sample.five ["v3"; "v2"] "v1" [] "PermissionError"
                eq_refl eq_refl)
      as (Hrun & Hrel & _).
    + repeat constructor; simpl; intuition discriminate.
    + intros v [<- | [<- | []]]; reflexivity.
    + reflexivity.
    + split; [exact Hrun | exact Hrel].
  - eexists.
    eapply (proj2 cleanup_failure_ends_deploy Sample.v1_undeletable
              (Sample.params "v3" None (Some "") 4 None) (Sample.running "v5")).
    + reflexivity.
    + vm_compute. reflexivity.
    + vm_compute. reflexivity.
Defined.

(** C9 as stated fails: the deployment of v4 went through, releases/v1
    cannot be deleted, and deploy raises instead of returning a result. *)
Lemma undeletable_release_fails_deploy :
  exists s',
    deploy Sample.v1_undeletable (Sample.params "v4" None (Some "") 2 None)
           (Sample.running "v5") = (Raise "PermissionError", s')
    /\ current_version_of (fs s') = Some "v4".
Proof. eexists. split; vm_compute; reflexivity. Qed.

(** What deploy's try statement yields once the health check has failed
    with rollback enabled. *)
Lemma attempt_after_failed_health_check (w : World) (p : Params)
    (cv : option string) (s s3 s4 : State) (st : string) :
  stage_and_switch w p s = (Ok tt, s3) ->
  health_check w p s3 = (Ok (false, st), s4) ->
  rollback_on_failure p = true ->
  attempt w p cv s
  = match rollback w p cv s4 with
    | (Ok true, s5) => (Ok (true, st ++ " - Rolled back to previous version"), s5)
    | (Ok false, s5) => (Ok (false, st ++ " - Rollback failed"), s5)
    | (Raise e, s5) => deploy_except w p cv e s5
    | (Exit msg, s5) => (Exit msg, s5)
    end.
Proof.
  intros Hs Hh Hr. unfold attempt, try_except, deploy_try.
  rewrite (bind_ok _ _ _ _ _ Hs), (bind_ok _ _ _ _ _ Hh).
  unfold after_health_check. rewrite Hr. simpl. unfold bind.
  now destruct (rollback w p cv s4) as [[[|]|e|msg] s5].
Qed.

Lemma attempt_with_failed_rollback (w : World) (p : Params) (s s5 : State)
    (narrative : string) :
  failed_rollback w p s narrative s5 ->
  attempt w p (current_version_of (fs s)) (after_makedirs s)
  = (Ok (false, narrative ++ " - Rollback failed"), s5).
Proof.
  intros [s3 s4 s5' st Hs Hh Hr Hrb | s4 s5' e Ht Hr Hcv Hrb].
  - rewrite (attempt_after_failed_health_check _ _ _ _ _ _ _ Hs Hh Hr).
    now rewrite Hrb.
  - unfold attempt, try_except. rewrite Ht.
    unfold deploy_except. rewrite Hr, Hcv.
    change (true && true) with true. cbv iota.
    rewrite (bind_ok _ _ _ _ _ Hrb). unfold ret.
    now rewrite PathFacts.append_assoc.
Qed.

(** The first deployment on a machine whose health URL never answers 200:
    rollback is called with no previous version. *)
Lemma first_deployment_failed_rollback :
  exists s5,
    failed_rollback Sample.unhealthy
      (Sample.params "v1" None (Some "http://localhost/health") 5 None)
      Sample.fresh "Health check failed" s5.
Proof.
  eexists. eapply failed_after_health_check; vm_compute; reflexivity.
Qed.

(** C2, as the code has it: a rollback that returns False does not end
    the run.  deploy appends ' - Rollback failed' to the status, goes on to
    the cleanup, and returns the result with rollback_occurred = False and
    version_deployed the target version; the only other ending is an
    exception raised by the cleanup. *)
Theorem failed_rollback_is_reported (w : World) (p : Params) (s s5 : State)
    (narrative : string) :
  already_deployed p (fs s) = false ->
  failed_rollback w p s narrative s5 ->
  (exists s',
     cleanup_old_versions w p s5 = (Ok tt, s')
     /\ deploy w p s
        = (Ok (mkResult (changed s') (Some (version p)) false
                        (clock s' - deployment_start_time s')
                        (narrative ++ " - Rollback failed") None), s'))
  \/ (exists e s',
        cleanup_old_versions w p s5 = (Raise e, s')
        /\ deploy w p s = (Raise e, s')).
Proof.
  intros Hnot Hfr. rewrite deploy_begin, Hnot.
  rewrite (bind_ok _ _ _ _ _ (attempt_with_failed_rollback w p s s5 _ Hfr)).
  rewrite finish_run.
  destruct (cleanup_outcome w p s5) as [H | [e H]];
    destruct (cleanup_old_versions w p s5) as [[[]|e'|msg] s']; simpl in H;
    try discriminate.
  - left. exists s'. split; reflexivity.
  - right. exists e', s'. split; reflexivity.
Qed.

Lemma failed_rollback_is_reported_witness :
  exists s5,
    (exists s',
       cleanup_old_versions Sample.unhealthy
         (Sample.params "v1" None (Some "http://localhost/health") 5 None) s5
       = (Ok tt, s')
       /\ deploy Sample.unhealthy
            (Sample.params "v1" None (Some "http://localhost/health") 5 None)
            Sample.fresh
          = (Ok (mkResult (changed s') (Some "v1") false
                          (clock s' - deployment_start_time s')
                          "Health check failed - Rollback failed" None), s'))
    \/ (exists e s',
          cleanup_old_versions Sample.unhealthy
            (Sample.params "v1" None (Some "http://localhost/health") 5 None) s5
          = (Raise e, s')
          /\ deploy Sample.unhealthy
               (Sample.params "v1" None (Some "http://localhost/health") 5 None)
               Sample.fresh
             = (Raise e, s')).
Proof.
  destruct first_deployment_failed_rollback as [s5 H]. exists s5.
  apply (failed_rollback_is_reported Sample.unhealthy
           (Sample.params "v1" None (Some "http://localhost/health") 5 None)
           Sample.fresh s5 "Health check failed");
    [reflexivity | exact H].
Defined.

(** C2 as stated fails: on a first deployment whose health check fails,
    rollback is called, returns False, and deploy returns an ordinary
    result whose status ends in 'Rollback failed'. *)
Lemma failed_rollback_is_not_fatal :
  (exists s5,
     failed_rollback Sample.unhealthy
       (Sample.params "v1" None (Some "http://localhost/health") 5 None)
       Sample.fresh "Health check failed" s5)
  /\ exists r s',
       deploy Sample.unhealthy
         (Sample.params "v1" None (Some "http://localhost/health") 5 None)
         Sample.fresh = (Ok r, s')
       /\ rollback_occurred r = false
       /\ health_check_status r = "Health check failed - Rollback failed".
Proof.
  split; [exact first_deployment_failed_rollback|].
  do 2 eexists. split; [vm_compute; reflexivity|].
  split; reflexivity.
Qed.

Lemma current_version_no_sep (f : FS) (pv : string) :
  current_version_of f = Some pv -> Path.has_sep pv = false.
Proof.
  unfold current_version_of. destruct (current f); try discriminate.
  intros H. inversion H. apply PathFacts.basename_no_sep.
Qed.

(** Whenever deploy returns without a rollback, version_deployed is the
    target version. *)
Lemma deploy_reports_target (w : World) (p : Params) (s s' : State)
    (r : Result) :
  deploy w p s = (Ok r, s') ->
  rollback_occurred r = false ->
  version_deployed r = Some (version p).
Proof.
  rewrite deploy_begin. destruct (already_deployed p (fs s)).
  - intros H _. now inversion H.
  - intros H. apply bind_inv_ok in H as ([rb st] & s1 & _ & H).
    rewrite finish_run in H.
    destruct (cleanup_old_versions w p s1) as [[[]|e|msg] s2];
      try discriminate.
    inversion H; subst. simpl. now intros ->.
Qed.

(** C4, as the code has it: in a run that reaches the health check with
    a previous version on disk and rollback_on_failure set, a failed
    health check makes rollback repoint current to the directory of the
    previous version, which is on disk at that moment, and return True.
    The cleanup follows, outside the try statement.  When it completes,
    deploy returns the result with rollback_occurred = True and
    version_deployed = previous_version = the previous version; when a
    deletion fails, deploy ends with that exception and returns no result.
    Either way the pointer stays on the previous release, and that
    release outlives a completed cleanup exactly when it is not among the
    doomed ones.  A result without rollback has version_deployed the
    target version. *)
Theorem failed_health_check_restores_previous :
  (forall w p s pv s3 s4 st,
     current_version_of (fs s) = Some pv ->
     pv <> "" ->
     release_exists pv (fs s) = true ->
     rollback_on_failure p = true ->
     already_deployed p (fs s) = false ->
     stage_and_switch w p s = (Ok tt, s3) ->
     health_check w p s3 = (Ok (false, st), s4) ->
     exists s5 ents,
       rollback w p (Some pv) s4 = (Ok true, s5)
       /\ current (fs s5) = Symlink (release_path p pv)
       /\ releases (fs s5) = Some ents
       /\ release_exists pv (fs s5) = true
       /\ current (fs (snd (deploy w p s))) = Symlink (release_path p pv)
       /\ current_version_of (fs (snd (deploy w p s))) = Some pv
       /\ (~ In pv (doomed p ents) ->
           release_exists pv (fs (snd (deploy w p s))) = true)
       /\ match cleanup_old_versions w p s5 with
          | (Ok _, s6) =>
              deploy w p s
              = (Ok (mkResult (changed s6) (Some pv) true
                              (clock s6 - deployment_start_time s6)
                              (st ++ " - Rolled back to previous version")
                              (Some pv)), s6)
              /\ (In pv (doomed p ents) -> release_exists pv (fs s6) = false)
          | (Raise e, s6) => deploy w p s = (Raise e, s6)
          | (Exit _, _) => False
          end)
  /\ (forall w p s s' r,
        deploy w p s = (Ok r, s') ->
        rollback_occurred r = false ->
        version_deployed r = Some (version p)).
Proof.
  split; [|exact deploy_reports_target].
  intros w p s pv s3 s4 st Hcv Hpv Hex Hrb Hnot Hs Hh.
  destruct (stage_and_switch_ok w p s s3 Hs) as [Hkeep Hcur].
  pose proof (health_check_fs w p s3) as Hfs. rewrite Hh in Hfs.
  simpl in Hfs.
  assert (Hex4 : release_exists pv (fs s4) = true)
    by (rewrite Hfs; now apply Hkeep).
  assert (Hc4 : current (fs s4) <> CurFile)
    by (rewrite Hfs, Hcur; discriminate).
  pose proof (rollback_runs w p pv s4 Hpv Hex4 Hc4) as Hroll.
  pose proof (rollback_fs w p pv s4 Hpv Hex4 Hc4) as Hrfs.
  set (s5 := snd (restart_service w p (switched s4 (release_path p pv)))) in *.
  rewrite Hroll in Hrfs. simpl snd in Hrfs.
  assert (Hex5 : release_exists pv (fs s5) = true).
  { rewrite Hrfs. exact Hex4. }
  destruct (releases (fs s5)) as [ents|] eqn:Hr5.
  2: { unfold release_exists, find_release in Hex5. rewrite Hr5 in Hex5.
       discriminate. }
  assert (Hdep : deploy w p s
                 = finish w p (Some pv)
                     (true, st ++ " - Rolled back to previous version") s5).
  { rewrite deploy_begin, Hnot, (after_makedirs_exists s pv Hex), Hcv.
    unfold bind.
    rewrite (attempt_after_failed_health_check _ _ _ _ _ _ _ Hs Hh Hrb).
    now rewrite Hroll. }
  pose proof (cleanup_keeps_current w p s5) as Hkc.
  rewrite Hrfs in Hkc. simpl current in Hkc.
  destruct (cleanup_fate w p s5 ents pv Hr5 Hex5) as [Hspared Hdeleted].
  assert (Hsnd : snd (deploy w p s) = snd (cleanup_old_versions w p s5)).
  { rewrite Hdep, finish_run.
    now destruct (cleanup_old_versions w p s5) as [[[]|e|msg] s6]. }
  assert (Hpvt : truthy (Some pv) = true).
  { simpl. apply String.eqb_neq in Hpv. now rewrite Hpv. }
  exists s5, ents.
  split; [exact Hroll|]. split; [now rewrite Hrfs|].
  split; [exact Hr5|]. split; [exact Hex5|].
  rewrite Hsnd.
  split; [exact Hkc|].
  split.
  { unfold current_version_of. rewrite Hkc.
    now rewrite (basename_release_path p pv (current_version_no_sep _ _ Hcv)). }
  split; [exact Hspared|].
  rewrite Hdep, finish_run.
  pose proof (never_exits_cleanup_run w p s5) as Hne.
  destruct (cleanup_old_versions w p s5) as [[[]|e|msg] s6].
  - split; [|now apply Hdeleted].
    cbn [andb]. now rewrite Hpvt.
  - reflexivity.
  - now apply (Hne msg).
Qed.

Lemma failed_health_check_restores_previous_witness :
  exists s5,
    current (fs s5) = Symlink "/opt/my-app/releases/v4"
    /\ release_exists "v4" (fs s5) = true
    /\ current
         (fs (snd (deploy Sample.unhealthy
                     (Sample.params "v5" None (Some "http://localhost/health")
                                    5 (Some "my-app"))
                     (Sample.running "v4"))))
       = Symlink "/opt/my-app/releases/v4"
    /\ current_version_of
         (fs (snd (deploy Sample.unhealthy
                     (Sample.params "v5" None (Some "http://localhost/health")
                                    5 (Some "my-app"))
                     (Sample.running "v4"))))
       = Some "v4".
Proof.
  edestruct (proj1 failed_health_check_restores_previous
               Sample.unhealthy
               (Sample.params "v5" None (Some "http://localhost/health") 5
                              (Some "my-app"))
               (Sample.running "v4") "v4")
    as (s5 & ents & _ & Hcur & _ & Hex & Hfin & Hcv & _).
  - reflexivity.
  - discriminate.
  - reflexivity.
  - reflexivity.
  - reflexivity.
  - vm_compute. reflexivity.
  - vm_compute. reflexivity.
  - exists s5. split; [exact Hcur|]. split; [exact Hex|].
    split; [exact Hfin | exact Hcv].
Defined.

(** C4 as stated fails in two ways.  In both runs the health check fails
    with rollback_on_failure set and the directory of the previous version
    on disk.  In the first (v5 over v4, keep_versions 4) the cleanup that
    follows the rollback cannot delete releases/v1, and deploy raises
    instead of returning a result.  In the second (v5 over v1,
    keep_versions 2) deploy returns rollback_occurred = True and
    version_deployed = 'v1', and the cleanup has deleted releases/v1: the
    pointer names a directory that is no longer there. *)
Lemma failed_health_check_without_result :
  (rollback_on_failure
     (Sample.params "v5" None (Some "http://localhost/health") 4 None) = true
   /\ current_version_of (fs (Sample.running "v4")) = Some "v4"
   /\ release_exists "v4" (fs (Sample.running "v4")) = true
   /\ (exists s3 s4,
         stage_and_switch Scenario.unhealthy_v1_undeletable
           (Sample.params "v5" None (Some "http://localhost/health") 4 None)
           (Sample.running "v4") = (Ok tt, s3)
         /\ health_check Scenario.unhealthy_v1_undeletable
              (Sample.params "v5" None (Some "http://localhost/health") 4 None)
              s3 = (Ok (false, "Health check failed"), s4))
   /\ exists s',
        deploy Scenario.unhealthy_v1_undeletable
          (Sample.params "v5" None (Some "http://localhost/health") 4 None)
          (Sample.running "v4") = (Raise "PermissionError", s'))
  /\ (current_version_of (fs (Sample.running "v1")) = Some "v1"
      /\ release_exists "v1" (fs (Sample.running "v1")) = true
      /\ (exists s3 s4,
            stage_and_switch Sample.unhealthy
              (Sample.params "v5" None (Some "http://localhost/health") 2 None)
              (Sample.running "v1") = (Ok tt, s3)
            /\ health_check Sample.unhealthy
                 (Sample.params "v5" None (Some "http://localhost/health") 2
                                None)
                 s3 = (Ok (false, "Health check failed"), s4))
      /\ exists r s',
           deploy Sample.unhealthy
             (Sample.params "v5" None (Some "http://localhost/health") 2 None)
             (Sample.running "v1") = (Ok r, s')
           /\ rollback_occurred r = true
           /\ version_deployed r = Some "v1"
           /\ current (fs s') = Symlink "/opt/my-app/releases/v1"
           /\ release_exists "v1" (fs s') = false).
Proof.
  split.
  - split; [reflexivity|]. split; [reflexivity|]. split; [reflexivity|].
    split.
    + do 2 eexists. split; [vm_compute; reflexivity|].
      vm_compute. reflexivity.
    + eexists. vm_compute. reflexivity.
  - split; [reflexivity|]. split; [reflexivity|].
    split.
    + do 2 eexists. split; [vm_compute; reflexivity|].
      vm_compute. reflexivity.
    + do 2 eexists. split; [vm_compute; reflexivity|].
      split; [reflexivity|]. split; [reflexivity|].
      split; reflexivity.
Qed.

(** * Further properties *)

(** ** Retention: what is kept and what is deleted *)

Lemma insert_newest_sorted (x : string * Z) (l : list (string * Z)) :
  StronglySorted newer_or_equal l ->
  StronglySorted newer_or_equal (insert_newest x l).
Proof.
  induction l as [|y r IH]; simpl; intros Hs.
  - repeat constructor.
  - apply StronglySorted_inv in Hs as [Hr Hy].
    destruct (snd x <? snd y) eqn:Hxy.
    + apply Z.ltb_lt in Hxy. constructor; [now apply IH|].
      apply (Permutation_Forall (Permutation_sym (insert_newest_perm x r))).
      constructor; [unfold newer_or_equal; lia | exact Hy].
    + apply Z.ltb_ge in Hxy. constructor.
      * now constructor.
      * constructor; [exact Hxy|].
        apply (Forall_impl _ (P := newer_or_equal y)); [|exact Hy].
        unfold newer_or_equal. intros a Ha. lia.
Qed.

Lemma sort_newest_first_sorted (l : list (string * Z)) :
  StronglySorted newer_or_equal (sort_newest_first l).
Proof.
  induction l as [|x r IH]; simpl; [constructor|].
  now apply insert_newest_sorted.
Qed.

Lemma sorted_app_order (k d : list (string * Z)) :
  StronglySorted newer_or_equal (k ++ d) ->
  forall a b, In a k -> In b d -> snd b <= snd a.
Proof.
  induction k as [|x k IH]; simpl; intros Hs a b Ha Hb; [contradiction|].
  apply StronglySorted_inv in Hs as [Hk Hx].
  destruct Ha as [<- | Ha]; [|now apply (IH Hk a b)].
  rewrite Forall_forall in Hx. apply (Hx b). apply in_or_app. now right.
Qed.

Lemma nodup_fst_functional {B} (l : list (string * B)) (n : string) (a b : B) :
  NoDup (map fst l) -> In (n, a) l -> In (n, b) l -> a = b.
Proof.
  induction l as [|[k c] r IH]; simpl; intros Hnd Ha Hb; [contradiction|].
  inversion Hnd as [|? ? Hk Hr]; subst.
  destruct Ha as [Ha | Ha], Hb as [Hb | Hb].
  - congruence.
  - inversion Ha; subst. exfalso. apply Hk.
    apply (in_map fst) in Hb. exact Hb.
  - inversion Hb; subst. exfalso. apply Hk.
    apply (in_map fst) in Ha. exact Ha.
  - now apply IH.
Qed.

Lemma listed_versions_lookup (n : string) (m : Z)
    (ents : list (string * entry)) :
  In (n, m) (listed_versions ents) -> lookup n ents <> None.
Proof.
  intros H. apply lookup_in. apply listed_versions_in.
  apply (in_map fst) in H. exact H.
Qed.

(** cleanup_old_versions deletes from the old end: a directory it deletes
    is never newer than a directory it keeps. *)
Theorem cleanup_deletes_only_older (w : World) (p : Params) (s s' : State)
    (ents : list (string * entry)) :
  releases (fs s) = Some ents ->
  NoDup (map fst ents) ->
  (forall n, rmtree_error w n = None) ->
  cleanup_old_versions w p s = (Ok tt, s') ->
  forall kept kept_mtime gone gone_mtime,
    In (kept, kept_mtime) (listed_versions ents) ->
    In (gone, gone_mtime) (listed_versions ents) ->
    release_exists kept (fs s') = true ->
    release_exists gone (fs s') = false ->
    gone_mtime <= kept_mtime.
Proof.
  intros Hr Hnd Hw Hrun kept km gone gm Hk Hg Hke Hge.
  destruct (cleanup_runs w p s ents Hr Hnd Hw) as (s1 & Hrun1 & Hex).
  rewrite Hrun in Hrun1. inversion Hrun1; subst s1. clear Hrun1.
  set (sorted := sort_newest_first (listed_versions ents)) in *.
  assert (Hperm : Permutation sorted (listed_versions ents))
    by apply sort_newest_first_perm.
  assert (Hnds : NoDup (map fst sorted)).
  { apply (Permutation_NoDup (Permutation_map fst (Permutation_sym Hperm))).
    now apply listed_versions_nodup. }
  destruct (slice_from_split (keep_versions p) sorted) as [front Hsplit].
  assert (Hkept : ~ In kept (doomed p ents)) by (now apply Hex).
  assert (Hgone : In gone (doomed p ents)).
  { destruct (existsb (String.eqb gone) (doomed p ents)) eqn:Hd.
    - now apply existsb_eqb_in in Hd.
    - exfalso. assert (Hn : ~ In gone (doomed p ents)).
      { intros Hin. apply existsb_eqb_in in Hin. congruence. }
      assert (Hbefore : release_exists gone (fs s) = true).
      { unfold release_exists, find_release. rewrite Hr.
        destruct (lookup gone ents) eqn:Hl; [reflexivity|].
        now apply listed_versions_lookup in Hg. }
      assert (Hafter : release_exists gone (fs s') = true) by (now apply Hex).
      congruence. }
  unfold doomed in Hkept, Hgone. fold sorted in Hkept, Hgone.
  apply in_map_iff in Hgone as ([g gm'] & Hgn & Hgin). simpl in Hgn. subst g.
  assert (Hgs : In (gone, gm) sorted)
    by (apply (Permutation_in _ (Permutation_sym Hperm)); exact Hg).
  assert (Hgs' : In (gone, gm') sorted).
  { rewrite Hsplit. apply in_or_app. now right. }
  assert (gm' = gm) by (apply (nodup_fst_functional sorted gone); assumption).
  subst gm'.
  assert (Hks : In (kept, km) sorted)
    by (apply (Permutation_in _ (Permutation_sym Hperm)); exact Hk).
  assert (Hkf : In (kept, km) front).
  { rewrite Hsplit in Hks. apply in_app_or in Hks as [Hf | Hsl]; [exact Hf|].
    exfalso. apply Hkept. apply (in_map fst) in Hsl. exact Hsl. }
  pose proof (sort_newest_first_sorted (listed_versions ents)) as Hsorted.
  fold sorted in Hsorted. rewrite Hsplit in Hsorted.
  exact (sorted_app_order front _ Hsorted (kept, km) (gone, gm) Hkf Hgin).
Qed.

Lemma cleanup_deletes_only_older_witness :
  let s' := snd (cleanup_old_versions Sample.calm
                   (Sample.params "v5" None None 2 None)
                   (Sample.running "v5")) in
  release_exists "v4" (fs s') = true
  /\ release_exists "v3" (fs s') = false
  /\ 30 <= 40.
Proof.
  cbv zeta. split; [reflexivity|]. split; [reflexivity|].
  apply (cleanup_deletes_only_older Sample.calm
           (Sample.params "v5" None None 2 None) (Sample.running "v5")
           (snd (cleanup_old_versions Sample.calm
                   (Sample.params "v5" None None 2 None)
                   (Sample.running "v5")))
           Sample.five eq_refl) with (kept := "v4") (gone := "v3").
  - repeat (constructor; [simpl; intuition discriminate|]). constructor.
  - intros n. reflexivity.
  - vm_compute. reflexivity.
  - simpl. auto 10.
  - simpl. auto 10.
  - reflexivity.
  - reflexivity.
Defined.

(** When there are no more directories than keep_versions, the cleanup
    deletes nothing and calls nothing: the state is left as it was. *)
Theorem cleanup_within_limit_is_noop (w : World) (p : Params) (s : State)
    (ents : list (string * entry)) :
  releases (fs s) = Some ents ->
  Z.of_nat (length (listed_versions ents)) <= keep_versions p ->
  cleanup_old_versions w p s = (Ok tt, s).
Proof.
  intros Hr Hlen. unfold cleanup_old_versions.
  rewrite (bind_ok get_state _ s s s eq_refl), Hr.
  unfold slice_from.
  assert (Hk : (0 <=? keep_versions p) = true) by (apply Z.leb_le; lia).
  rewrite Hk. rewrite skipn_all2; [reflexivity|].
  rewrite (Permutation_length (sort_newest_first_perm (listed_versions ents))).
  lia.
Qed.

Lemma cleanup_within_limit_is_noop_witness :
  cleanup_old_versions Sample.v1_undeletable
    (Sample.params "v5" None None 5 None) (Sample.running "v5")
  = (Ok tt, Sample.running "v5").
Proof.
  apply (cleanup_within_limit_is_noop Sample.v1_undeletable
           (Sample.params "v5" None None 5 None) (Sample.running "v5")
           Sample.five).
  - reflexivity.
  - simpl. lia.
Defined.

(** The entries a run of deletions leaves, as a list. *)
Lemma for_each_rmtree_entries (w : World) (l : list (string * Z)) :
  (forall n, rmtree_error w n = None) ->
  forall (s s' : State) (ents : list (string * entry)),
    releases (fs s) = Some ents ->
    for_each (fun vm => rmtree_release w (fst vm)) l s = (Ok tt, s') ->
    releases (fs s')
    = Some (filter (fun ne => negb (existsb (String.eqb (fst ne)) (map fst l)))
                   ents).
Proof.
  intros Hw. induction l as [|[v m] r IH]; intros s s' ents Hr Hrun.
  - simpl in *. inversion Hrun; subst. rewrite Hr. f_equal. clear.
    induction ents as [|x ents IHe]; simpl; [reflexivity|]. now rewrite <- IHe.
  - simpl in Hrun. unfold bind in Hrun.
    rewrite rmtree_release_run, Hw, Hr in Hrun.
    destruct (lookup v ents); [|discriminate].
    rewrite (IH (without_release s v ents) s' (remove_entry v ents)
               eq_refl Hrun).
    simpl map. now rewrite filter_remove_entry.
Qed.

Lemma cleanup_entries (w : World) (p : Params) (s s' : State)
    (ents : list (string * entry)) :
  (forall n, rmtree_error w n = None) ->
  releases (fs s) = Some ents ->
  cleanup_old_versions w p s = (Ok tt, s') ->
  releases (fs s') = Some (surviving p ents).
Proof.
  intros Hw Hr Hrun. unfold cleanup_old_versions in Hrun.
  rewrite (bind_ok get_state _ s s s eq_refl), Hr in Hrun.
  exact (for_each_rmtree_entries w _ Hw s s' ents Hr Hrun).
Qed.

Lemma filter_names_nodup (f : string * entry -> bool)
    (ents : list (string * entry)) :
  NoDup (map fst ents) -> NoDup (map fst (filter f ents)).
Proof.
  induction ents as [|x r IH]; simpl; intros H; [constructor|].
  inversion H as [|? ? Hx Hr]; subst.
  destruct (f x); simpl; [|auto].
  constructor; [|auto]. intros Hin. apply Hx.
  apply in_map_iff in Hin as (y & Hy & Hin).
  apply filter_In in Hin as [Hin _]. rewrite <- Hy. now apply in_map.
Qed.

Lemma listed_versions_filter (f : string * entry -> bool) (n : string)
    (ents : list (string * entry)) :
  (forall a b, fst a = fst b -> f a = f b) ->
  In n (map fst (listed_versions (filter f ents))) ->
  In n (map fst (listed_versions ents)) /\ forall e, f (n, e) = true.
Proof.
  intros Hf. induction ents as [|[k e] r IH]; simpl; [tauto|].
  destruct (f (k, e)) eqn:Hfk; simpl.
  - destruct e as [m files|m]; simpl.
    + intros [<- | H].
      * split; [now left|]. intros e'. now rewrite (Hf (k, e') (k, EDir m files)).
      * destruct (IH H). auto.
    + intros H. destruct (IH H). auto.
  - intros H. destruct (IH H) as [H1 H2]. split; [|exact H2].
    destruct e; simpl; auto.
Qed.

Lemma doomed_are_directories (p : Params) (ents : list (string * entry))
    (n : string) :
  In n (doomed p ents) -> In n (map fst (listed_versions ents)).
Proof.
  unfold doomed. intros H.
  apply (Permutation_in n
           (Permutation_map fst (sort_newest_first_perm (listed_versions ents)))).
  destruct (slice_from_split (keep_versions p)
              (sort_newest_first (listed_versions ents))) as [front Hf].
  rewrite Hf, map_app. apply in_or_app. now right.
Qed.

Lemma file_not_listed (n : string) (m : Z) (ents : list (string * entry)) :
  NoDup (map fst ents) ->
  lookup n ents = Some (EFile m) ->
  ~ In n (map fst (listed_versions ents)).
Proof.
  induction ents as [|[k e] r IH]; simpl; intros Hnd Hl; [discriminate|].
  inversion Hnd as [|? ? Hk Hr]; subst.
  destruct (String.eqb k n) eqn:Hkn.
  - apply String.eqb_eq in Hkn. subst k. inversion Hl; subst e.
    intros Hin. apply Hk. now apply listed_versions_in.
  - apply String.eqb_neq in Hkn. destruct e as [m0 files|m0]; simpl.
    + intros [Heq | Hin]; [congruence | now apply (IH Hr Hl)].
    + now apply IH.
Qed.

(** Retention bound: once the cleanup has run with keep_versions >= 0 and
    no failing deletion, at most keep_versions directories are left under
    releases, and every plain file that was there is still there. *)
Theorem cleanup_leaves_at_most_keep_versions (w : World) (p : Params)
    (s s' : State) (ents : list (string * entry)) :
  releases (fs s) = Some ents ->
  NoDup (map fst ents) ->
  (forall n, rmtree_error w n = None) ->
  0 <= keep_versions p ->
  cleanup_old_versions w p s = (Ok tt, s') ->
  exists ents',
    releases (fs s') = Some ents'
    /\ Z.of_nat (length (listed_versions ents')) <= keep_versions p
    /\ forall n m, lookup n ents = Some (EFile m) ->
                   lookup n ents' = Some (EFile m).
Proof.
  intros Hr Hnd Hw Hk Hrun.
  exists (surviving p ents). split; [now apply (cleanup_entries w p s s')|].
  set (sorted := sort_newest_first (listed_versions ents)).
  assert (Hperm : Permutation sorted (listed_versions ents))
    by apply sort_newest_first_perm.
  assert (Hsplit : sorted = (firstn (Z.to_nat (keep_versions p)) sorted
                             ++ slice_from (keep_versions p) sorted)%list).
  { unfold slice_from. apply Z.leb_le in Hk. rewrite Hk.
    now rewrite firstn_skipn. }
  split.
  - assert (Hincl : incl (map fst (listed_versions (surviving p ents)))
                         (map fst (firstn (Z.to_nat (keep_versions p)) sorted))).
    { intros n Hn. unfold surviving in Hn.
      apply listed_versions_filter in Hn as [Hin Hkeep].
      2: { intros a b Hab. now rewrite Hab. }
      specialize (Hkeep (EFile 0)). simpl in Hkeep.
      apply negb_true_iff in Hkeep.
      assert (Hnd' : ~ In n (doomed p ents)).
      { intros Hd. apply existsb_eqb_in in Hd. congruence. }
      apply (Permutation_in n (Permutation_map fst (Permutation_sym Hperm)))
        in Hin.
      rewrite Hsplit, map_app in Hin.
      apply in_app_or in Hin as [Hf | Hd]; [exact Hf|].
      exfalso. apply Hnd'. exact Hd. }
    assert (Hnd' : NoDup (map fst (listed_versions (surviving p ents)))).
    { apply listed_versions_nodup. now apply filter_names_nodup. }
    pose proof (NoDup_incl_length Hnd' Hincl) as Hlen.
    rewrite !length_map in Hlen.
    pose proof (firstn_le_length (Z.to_nat (keep_versions p)) sorted).
    lia.
  - intros n m Hl. unfold surviving.
    rewrite (lookup_filter_names
               (fun k => negb (existsb (String.eqb k) (doomed p ents)))).
    destruct (existsb (String.eqb n) (doomed p ents)) eqn:Hd; [|exact Hl].
    exfalso. apply existsb_eqb_in in Hd.
    apply (file_not_listed n m ents Hnd Hl).
    now apply (doomed_are_directories p).
Qed.

Lemma cleanup_leaves_at_most_keep_versions_witness :
  exists ents',
    releases (fs (snd (cleanup_old_versions Sample.calm
                         (Sample.params "v6" None None 3 None)
                         Sample.half_staged)))
    = Some ents'
    /\ Z.of_nat (length (listed_versions ents')) <= 3
    /\ forall n m, lookup n (Sample.five ++ [("v6", EDir 900 ["app.tar.gz"])])
                   = Some (EFile m) ->
                   lookup n ents' = Some (EFile m).
Proof.
  apply (cleanup_leaves_at_most_keep_versions Sample.calm
           (Sample.params "v6" None None 3 None) Sample.half_staged).
  - reflexivity.
  - repeat (constructor; [simpl; intuition discriminate|]). constructor.
  - intros n. reflexivity.
  - simpl. lia.
  - vm_compute. reflexivity.
Defined.

(** ** Computations that never exit *)

Section ExitRules.
Context {A B : Type}.

Lemma never_exits_ret (a : A) : never_exits (ret a).
Proof. intros s msg. discriminate. Qed.

Lemma never_exits_raise (e : string) : never_exits (@raise A e).
Proof. intros s msg. discriminate. Qed.

Lemma never_exits_bind (m : M A) (k : A -> M B) :
  never_exits m -> (forall a, never_exits (k a)) -> never_exits (bind m k).
Proof.
  intros Hm Hk s msg. unfold bind. specialize (Hm s).
  destruct (m s) as [[a|e|msg'] s1]; simpl in *.
  - apply Hk.
  - discriminate.
  - exfalso. now apply (Hm msg').
Qed.

Lemma never_exits_try_except (m : M A) (h : string -> M A) :
  never_exits m -> (forall e, never_exits (h e)) ->
  never_exits (try_except m h).
Proof.
  intros Hm Hh s msg. unfold try_except. specialize (Hm s).
  destruct (m s) as [[a|e|msg'] s1]; simpl in *.
  - discriminate.
  - apply Hh.
  - exfalso. now apply (Hm msg').
Qed.
End ExitRules.

Lemma never_exits_get_state : never_exits get_state.
Proof. intros s msg. discriminate. Qed.

Lemma never_exits_time_time : never_exits time_time.
Proof. intros s msg. discriminate. Qed.

Lemma never_exits_put_fs (f : FS) : never_exits (put_fs f).
Proof. intros s msg. discriminate. Qed.

Lemma never_exits_time_sleep (d : Z) : never_exits (time_sleep d).
Proof. intros s msg. discriminate. Qed.

Lemma never_exits_subprocess_run (w : World) (argv : list string)
    (dir : option string) :
  never_exits (subprocess_run w argv dir).
Proof.
  intros s msg. unfold subprocess_run, write_files. unfold_monad.
  destruct (run_process w (trace s) argv) as [rc err d new|exc]; simpl;
    [|discriminate].
  destruct dir as [v|]; [|discriminate].
  destruct new; [discriminate|].
  simpl. destruct (releases (fs s)); discriminate.
Qed.

Lemma never_exits_requests_get (w : World) (url : string) :
  never_exits (requests_get w url).
Proof.
  intros s msg. unfold requests_get. unfold_monad.
  destruct (http_get w (trace s) url); discriminate.
Qed.

Lemma never_exits_clear_current_link : never_exits clear_current_link.
Proof.
  intros s msg. unfold clear_current_link. unfold_monad.
  destruct (current (fs s)); discriminate.
Qed.

Lemma never_exits_os_symlink (target : string) :
  never_exits (os_symlink target).
Proof.
  intros s msg. unfold os_symlink. unfold_monad.
  destruct (current (fs s)); discriminate.
Qed.

Lemma never_exits_create_symlink (p : Params) : never_exits (create_symlink p).
Proof.
  unfold create_symlink.
  apply never_exits_bind; [apply never_exits_clear_current_link|]. intros _.
  apply never_exits_bind; [apply never_exits_os_symlink|]. intros _.
  intros s msg. discriminate.
Qed.

Lemma never_exits_restart_service (w : World) (p : Params) :
  never_exits (restart_service w p).
Proof.
  intros s msg. destruct (restart_service_returns w p s) as [b Hb].
  rewrite Hb. discriminate.
Qed.

Lemma never_exits_health_check (w : World) (p : Params) :
  never_exits (health_check w p).
Proof.
  intros s msg. destruct (health_check_returns w p s) as [b Hb].
  rewrite Hb. discriminate.
Qed.

Lemma never_exits_rollback (w : World) (p : Params) (pv : option string) :
  never_exits (rollback w p pv).
Proof.
  unfold rollback. destruct pv as [v|]; [|apply never_exits_ret].
  destruct (String.eqb v ""); [apply never_exits_ret|].
  apply never_exits_bind; [apply never_exits_get_state|]. intros s0.
  destruct (negb (release_exists v (fs s0))); [apply never_exits_ret|].
  apply never_exits_bind; [apply never_exits_clear_current_link|]. intros _.
  apply never_exits_bind; [apply never_exits_os_symlink|]. intros _.
  apply never_exits_bind; [apply never_exits_restart_service|]. intros _.
  apply never_exits_ret.
Qed.

Lemma never_exits_cleanup (w : World) (p : Params) :
  never_exits (cleanup_old_versions w p).
Proof.
  intros s msg. destruct (cleanup_outcome w p s) as [H | [e H]];
    rewrite H; discriminate.
Qed.

(** ** Properties of the pointer that staging cannot change *)

Section CurrentRules.
Variable P : current_node -> Prop.

Lemma pointer_write_files (dir : option string) (new : list string) :
  stable (on_current P) (write_files dir new).
Proof.
  intros s H. unfold write_files. destruct dir as [v|]; [|exact H].
  destruct new; [exact H|]. unfold_monad.
  destruct (releases (fs s)); exact H.
Qed.

Lemma pointer_subprocess_run (w : World) (argv : list string)
    (dir : option string) :
  stable (on_current P) (subprocess_run w argv dir).
Proof.
  unfold subprocess_run.
  apply stable_bind; [intros s H; exact H|]. intros s0.
  destruct (run_process w (trace s0) argv); [|apply stable_raise].
  apply stable_bind; [intros s H; exact H|]. intros _.
  apply stable_bind; [intros s H; exact H|]. intros _.
  apply stable_bind; [apply pointer_write_files|]. intros _.
  apply stable_ret.
Qed.

Lemma pointer_makedirs_release (v : string) :
  stable (on_current P) (makedirs_release v).
Proof.
  intros s H. unfold makedirs_release. unfold_monad.
  destruct (lookup v _) as [[m files|m]|]; exact H.
Qed.

Lemma pointer_remove_release_file (v file path : string) :
  stable (on_current P) (remove_release_file v file path).
Proof.
  intros s H. unfold remove_release_file. unfold_monad.
  destruct (releases (fs s)) as [ents|]; [|exact H].
  destruct (lookup v ents) as [[m files|m]|]; try exact H.
  destruct (remove_string file files); exact H.
Qed.

Lemma pointer_download_artifact (w : World) (p : Params) :
  stable (on_current P) (download_artifact w p).
Proof.
  unfold download_artifact. destruct (artifact_url p) as [url|].
  2: apply stable_ret.
  destruct (String.eqb url ""). 1: apply stable_ret.
  apply stable_bind; [intros s H; exact H|]. intros s0.
  destruct (release_exists (version p) (fs s0)). 1: apply stable_ret.
  apply stable_bind; [apply pointer_makedirs_release|]. intros _.
  unfold fetch_and_extract.
  apply stable_try_except; [|intros; apply stable_fail_json].
  apply stable_bind; [apply pointer_subprocess_run|]. intros [rc err].
  apply stable_bind.
  { destruct (negb (rc =? 0)); [apply stable_fail_json | apply stable_ret]. }
  intros _.
  apply stable_bind; [apply pointer_subprocess_run|]. intros [rc2 err2].
  apply stable_bind.
  { destruct (negb (rc2 =? 0)); [apply stable_fail_json | apply stable_ret]. }
  intros _.
  apply stable_bind; [apply pointer_remove_release_file|]. intros _.
  apply stable_bind; [intros s H; exact H|]. intros _.
  apply stable_ret.
Qed.
End CurrentRules.

(** download_artifact leaves the pointer as it is. *)
Lemma download_artifact_current (w : World) (p : Params) (s : State) :
  current (fs (snd (download_artifact w p s))) = current (fs s).
Proof.
  now apply (pointer_download_artifact (fun c => c = current (fs s)) w p s).
Qed.

(** No exception leaves download_artifact: what its try statement catches
    becomes a fail_json, and os.makedirs runs only on a free name, where
    it is taken to succeed. *)
Lemma download_artifact_never_raises (w : World) (p : Params) :
  never_raises (download_artifact w p).
Proof.
  intros s e. unfold download_artifact.
  destruct (artifact_url p) as [url|]; [|discriminate].
  destruct (String.eqb url ""); [discriminate|].
  rewrite (bind_ok get_state _ s s s eq_refl).
  destruct (release_exists (version p) (fs s)) eqn:Hex; [discriminate|].
  destruct (makedirs_release_creates _ _ Hex) as (s1 & Hmk & _).
  rewrite (bind_ok _ _ _ _ _ Hmk).
  unfold fetch_and_extract, try_except.
  match goal with
  | |- context [match ?m s1 with _ => _ end] =>
      destruct (m s1) as [[b|e'|msg] s2]
  end; discriminate.
Qed.

(** ** Properties of the state that no step of a deployment breaks *)

Section StateRules.
Variable I : State -> Prop.
Hypothesis I_emit : forall e s, I s -> I (snd (emit e s)).
Hypothesis I_advance : forall d s, 0 <= d -> I s -> I (snd (advance d s)).
Hypothesis I_put_fs : forall f s, I s -> I (snd (put_fs f s)).
Hypothesis I_set_changed : forall s, I s -> I (snd (set_changed s)).

Lemma kept_emit (e : event) : stable I (emit e).
Proof. intros s H. now apply I_emit. Qed.

Lemma kept_advance (d : Z) : 0 <= d -> stable I (advance d).
Proof. intros Hd s H. now apply I_advance. Qed.

Lemma kept_put_fs (f : FS) : stable I (put_fs f).
Proof. intros s H. now apply I_put_fs. Qed.

Lemma kept_get_state : stable I get_state.
Proof. intros s H. exact H. Qed.

Lemma kept_time_sleep (d : Z) : 0 <= d -> stable I (time_sleep d).
Proof.
  intros Hd. unfold time_sleep.
  apply stable_bind; [apply kept_emit | intros _; now apply kept_advance].
Qed.

Lemma kept_write_files (dir : option string) (new : list string) :
  stable I (write_files dir new).
Proof.
  unfold write_files. destruct dir as [v|]; [|apply stable_ret].
  destruct new; [apply stable_ret|].
  apply stable_bind; [apply kept_get_state|]. intros s0.
  destruct (releases (fs s0)); [apply kept_put_fs | apply stable_ret].
Qed.

Lemma kept_subprocess_run (w : World) (argv : list string)
    (dir : option string) :
  stable I (subprocess_run w argv dir).
Proof.
  unfold subprocess_run.
  apply stable_bind; [apply kept_get_state|]. intros s0.
  destruct (run_process w (trace s0) argv); [|apply stable_raise].
  apply stable_bind; [apply kept_emit|]. intros _.
  apply stable_bind; [apply kept_advance; lia|]. intros _.
  apply stable_bind; [apply kept_write_files|]. intros _.
  apply stable_ret.
Qed.

Lemma kept_requests_get (w : World) (url : string) :
  stable I (requests_get w url).
Proof.
  unfold requests_get.
  apply stable_bind; [apply kept_get_state|]. intros s0.
  apply stable_bind; [apply kept_emit|]. intros _.
  destruct (http_get w (trace s0) url).
  - apply stable_bind; [apply kept_advance; lia | intros _; apply stable_ret].
  - apply stable_bind; [apply kept_advance; lia | intros _; apply stable_raise].
Qed.

Lemma kept_restart_service (w : World) (p : Params) :
  stable I (restart_service w p).
Proof.
  unfold restart_service. destruct (service_name p) as [svc|].
  2: apply stable_ret.
  destruct (String.eqb svc ""). 1: apply stable_ret.
  apply stable_try_except; [|intros; apply stable_ret].
  apply stable_bind; [apply kept_subprocess_run|].
  intros [rc err]. destruct (negb (rc =? 0)). 1: apply stable_ret.
  apply stable_bind; [apply kept_time_sleep; lia|]. intros _.
  apply stable_bind; [apply kept_subprocess_run|].
  intros [rc2 err2]. apply stable_ret.
Qed.

Lemma kept_health_check (w : World) (p : Params) :
  stable I (health_check w p).
Proof.
  unfold health_check. destruct (health_check_url p) as [url|].
  2: apply stable_ret.
  destruct (String.eqb url ""). 1: apply stable_ret.
  apply stable_bind; [intros s H; exact H|]. intros start.
  generalize (S (Z.to_nat (health_check_timeout p))). intros fuel.
  induction fuel as [|n IH]; simpl. 1: apply stable_raise.
  apply stable_bind; [intros s H; exact H|]. intros now.
  destruct (now - start <? health_check_timeout p). 2: apply stable_ret.
  apply stable_bind.
  - apply stable_try_except; [|intros; apply stable_ret].
    apply stable_bind; [apply kept_requests_get|].
    intros; apply stable_ret.
  - intros [|]. 1: apply stable_ret.
    apply stable_bind; [apply kept_time_sleep; lia | intros _; exact IH].
Qed.

Lemma kept_clear_current_link : stable I clear_current_link.
Proof.
  unfold clear_current_link.
  apply stable_bind; [apply kept_get_state|]. intros s0.
  destruct (current (fs s0));
    try apply kept_put_fs; try apply stable_ret; apply stable_raise.
Qed.

Lemma kept_os_symlink (target : string) : stable I (os_symlink target).
Proof.
  unfold os_symlink.
  apply stable_bind; [apply kept_get_state|]. intros s0.
  destruct (current (fs s0)); try apply kept_put_fs; apply stable_raise.
Qed.

Lemma kept_rollback (w : World) (p : Params) (pv : option string) :
  stable I (rollback w p pv).
Proof.
  unfold rollback. destruct pv as [v|]; [|apply stable_ret].
  destruct (String.eqb v ""); [apply stable_ret|].
  apply stable_bind; [apply kept_get_state|]. intros s0.
  destruct (negb (release_exists v (fs s0))); [apply stable_ret|].
  apply stable_bind; [apply kept_clear_current_link|]. intros _.
  apply stable_bind; [apply kept_os_symlink|]. intros _.
  apply stable_bind; [apply kept_restart_service|]. intros _.
  apply stable_ret.
Qed.

Lemma kept_cleanup (w : World) (p : Params) :
  stable I (cleanup_old_versions w p).
Proof.
  unfold cleanup_old_versions.
  apply stable_bind; [apply kept_get_state|]. intros s0.
  destruct (releases (fs s0)); [|apply stable_ret].
  apply stable_for_each. intros [n m]. unfold rmtree_release. simpl.
  apply stable_bind; [apply kept_get_state|]. intros s1.
  destruct (rmtree_error w n); [apply stable_raise|].
  destruct (releases (fs s1)) as [ents|]; [|apply stable_raise].
  destruct (lookup n ents); [apply kept_put_fs | apply stable_raise].
Qed.

Lemma kept_after_health_check (w : World) (p : Params) (cv : option string)
    (hc : bool * string) :
  stable I (after_health_check w p cv hc).
Proof.
  unfold after_health_check. destruct hc as [ok st].
  destruct (negb ok && rollback_on_failure p); [|apply stable_ret].
  apply stable_bind; [apply kept_rollback|].
  intros [|]; apply stable_ret.
Qed.

Lemma kept_deploy_except (w : World) (p : Params) (cv : option string)
    (e : string) :
  stable I (deploy_except w p cv e).
Proof.
  unfold deploy_except.
  destruct (rollback_on_failure p && truthy cv); [|apply stable_fail_json].
  apply stable_bind; [apply kept_rollback|].
  intros [|]; apply stable_ret.
Qed.
End StateRules.

(** ** The try statement of deploy, case by case *)

(** How stage_and_switch ends when current is not a regular file: with
    the exit of a failed download, or, the pointer switched, according to
    what the restart answered. *)
Lemma stage_and_switch_cases (w : World) (p : Params) (s : State) :
  current (fs s) <> CurFile ->
  (exists msg s',
     download_artifact w p s = (Exit msg, s')
     /\ stage_and_switch w p s = (Exit msg, s'))
  \/ (exists b s1 restarted s3,
        download_artifact w p s = (Ok b, s1)
        /\ restart_service w p (linked p s1) = (Ok restarted, s3)
        /\ stage_and_switch w p s
           = if restarted then (Ok tt, s3)
             else (Raise "Failed to restart service", s3)).
Proof.
  intros Hc. unfold stage_and_switch.
  pose proof (download_artifact_current w p s) as Hcur.
  pose proof (download_artifact_never_raises w p s) as Hnr.
  destruct (download_artifact w p s) as [[b|e|msg] s1] eqn:Hd; simpl in *.
  - right.
    assert (Hc1 : current (fs s1) <> CurFile) by (now rewrite Hcur).
    destruct (restart_service_returns w p (linked p s1)) as [ok Hok].
    exists b, s1, ok, (snd (restart_service w p (linked p s1))).
    split; [reflexivity|]. split.
    + destruct (restart_service w p (linked p s1)); simpl in *. now subst.
    + rewrite (bind_ok _ _ _ _ _ Hd).
      rewrite (bind_ok _ _ _ _ _ (create_symlink_runs p s1 Hc1)).
      fold (linked p s1). unfold bind.
      destruct (restart_service w p (linked p s1)) as [o s3]. simpl in *.
      subst o. now destruct ok.
  - exfalso. now apply (Hnr e).
  - left. exists msg, s1. split; [reflexivity|].
    now rewrite (bind_exit _ _ _ _ _ Hd).
Qed.

Lemma linked_fs (p : Params) (s1 : State) :
  fs (linked p s1)
  = with_current (fs s1) (Symlink (release_path p (version p))).
Proof. reflexivity. Qed.

Lemma linked_changed (p : Params) (s1 : State) : changed (linked p s1) = true.
Proof. reflexivity. Qed.

Lemma changed_kept_restart_service (w : World) (p : Params) :
  stable changed_is_set (restart_service w p).
Proof. apply kept_restart_service; intros; assumption. Qed.

(** Unless it ends in fail_json, stage_and_switch ends with the pointer on
    the target release and self.changed set. *)
Lemma stage_and_switch_end (w : World) (p : Params) (s s3 : State)
    (o : outcome unit) :
  current (fs s) <> CurFile ->
  stage_and_switch w p s = (o, s3) ->
  (exists msg, o = Exit msg /\ download_artifact w p s = (Exit msg, s3))
  \/ (current (fs s3) = Symlink (release_path p (version p))
      /\ changed s3 = true
      /\ (o = Ok tt \/ o = Raise "Failed to restart service")).
Proof.
  intros Hc Hrun.
  destruct (stage_and_switch_cases w p s Hc)
    as [(msg & s' & Hd & Hs) | (b & s1 & ok & s3' & Hd & Hr & Hs)].
  - left. rewrite Hrun in Hs. inversion Hs; subst. eauto.
  - right.
    pose proof (restart_service_fs w p (linked p s1)) as Hfs.
    pose proof (changed_kept_restart_service w p (linked p s1)
                  (linked_changed p s1)) as Hch.
    rewrite Hr in Hfs, Hch. simpl in Hfs, Hch.
    rewrite Hrun in Hs.
    destruct ok; inversion Hs; subst; rewrite Hfs;
      (split; [reflexivity|]); (split; [exact Hch|]); auto.
Qed.

(** rollback can only return False by one of its two early returns. *)
Lemma rollback_false_unchanged (w : World) (p : Params) (pv : option string)
    (s s' : State) :
  rollback w p pv s = (Ok false, s') -> s' = s.
Proof.
  destruct pv as [v|].
  2: { unfold rollback, ret. intros H. now inversion H. }
  destruct (String.eqb v "") eqn:Hv.
  { rewrite (rollback_unavailable w p (Some v) s); [intros H; now inversion H|].
    left. simpl. now rewrite Hv. }
  destruct (release_exists v (fs s)) eqn:Hex.
  2: { rewrite (rollback_unavailable w p (Some v) s);
         [intros H; now inversion H|].
       right. eauto. }
  apply String.eqb_neq in Hv.
  destruct (current (fs s)) eqn:Hc.
  4: { unfold rollback. apply String.eqb_neq in Hv. rewrite Hv.
       rewrite (bind_ok get_state _ s s s eq_refl), Hex.
       change (negb true) with false. cbv iota.
       rewrite <- (bind_assoc clear_current_link (fun _ => os_symlink _)
                     (fun _ => restart_service w p ;; ret true) s).
       rewrite (bind_raise _ _ _ _ _ (switch_refuses_file _ s Hc)).
       discriminate. }
  all: rewrite rollback_runs by (auto; congruence); discriminate.
Qed.

(** With current not a regular file, rollback returns its boolean. *)
Lemma rollback_returns (w : World) (p : Params) (pv : option string)
    (s : State) :
  current (fs s) <> CurFile -> exists b, fst (rollback w p pv s) = Ok b.
Proof.
  intros Hc. destruct pv as [v|]; [|now exists false].
  destruct (String.eqb v "") eqn:Hv.
  { rewrite (rollback_unavailable w p (Some v) s); [now exists false|].
    left. simpl. now rewrite Hv. }
  destruct (release_exists v (fs s)) eqn:Hex.
  - apply String.eqb_neq in Hv. rewrite rollback_runs by assumption.
    now exists true.
  - rewrite (rollback_unavailable w p (Some v) s); [now exists false|].
    right. eauto.
Qed.

Lemma rollback_end (w : World) (p : Params) (cv : option string)
    (s s' : State) (b : bool) :
  current (fs s) <> CurFile ->
  rollback w p cv s = (Ok b, s') ->
  (b = false /\ s' = s)
  \/ (b = true
      /\ exists pv, cv = Some pv /\ pv <> ""
                    /\ release_exists pv (fs s) = true
                    /\ fs s' = with_current (fs s)
                                 (Symlink (release_path p pv))).
Proof.
  intros Hc Hrun. destruct b.
  - right. split; [reflexivity|].
    destruct cv as [v|]; [|discriminate].
    destruct (String.eqb v "") eqn:Hv.
    { rewrite (rollback_unavailable w p (Some v) s) in Hrun; [discriminate|].
      left. simpl. now rewrite Hv. }
    destruct (release_exists v (fs s)) eqn:Hex.
    2: { rewrite (rollback_unavailable w p (Some v) s) in Hrun;
           [discriminate|]. right. eauto. }
    apply String.eqb_neq in Hv. exists v. repeat split; auto.
    pose proof (rollback_fs w p v s Hv Hex Hc) as Hfs.
    now rewrite Hrun in Hfs.
  - left. split; [reflexivity|].
    now apply (rollback_false_unchanged w p cv).
Qed.

Lemma changed_kept_rollback (w : World) (p : Params) (cv : option string) :
  stable changed_is_set (rollback w p cv).
Proof. apply kept_rollback; intros; assumption. Qed.

Lemma changed_kept_health_check (w : World) (p : Params) :
  stable changed_is_set (health_check w p).
Proof. apply kept_health_check; intros; assumption. Qed.

Lemma changed_kept_cleanup (w : World) (p : Params) :
  stable changed_is_set (cleanup_old_versions w p).
Proof. apply kept_cleanup; intros; assumption. Qed.

(** The ways deploy's try statement ends when current is not a regular
    file: in fail_json, for a failed download or for an exception with no
    rollback to attempt; or with its pair, self.changed set and the
    pointer switched. *)
Lemma attempt_end (w : World) (p : Params) (cv : option string)
    (s s1 : State) (o : outcome (bool * string)) :
  current (fs s) <> CurFile ->
  attempt w p cv s = (o, s1) ->
  (exists msg,
     o = Exit msg
     /\ (download_artifact w p s = (Exit msg, s1)
         \/ (exists e, msg = "Deployment failed: " ++ e
                       /\ rollback_on_failure p && truthy cv = false)))
  \/ (exists rb st,
        o = Ok (rb, st) /\ changed s1 = true /\ pointer_after p cv rb (fs s1)).
Proof.
  intros Hc Hrun. unfold attempt, try_except, deploy_try in Hrun.
  unfold bind at 1 in Hrun.
  destruct (stage_and_switch w p s) as [o3 s3] eqn:Hs.
  destruct (stage_and_switch_end w p s s3 o3 Hc Hs)
    as [(msg & -> & Hd) | (Hcur & Hch & [-> | ->])].
  - inversion Hrun; subst. left. exists msg. auto.
  - (* the restart succeeded: health check, then the rollback decision *)
    pose proof (health_check_fs w p s3) as Hfs.
    pose proof (changed_kept_health_check w p s3 Hch) as Hch4.
    destruct (health_check_returns w p s3) as [[ok st0] Hhc].
    unfold bind at 1 in Hrun.
    destruct (health_check w p s3) as [o4 s4]. simpl in Hfs, Hch4, Hhc.
    subst o4. unfold after_health_check in Hrun.
    assert (Hc4 : current (fs s4) <> CurFile)
      by (rewrite Hfs, Hcur; discriminate).
    destruct (negb ok && rollback_on_failure p).
    + destruct (rollback_returns w p cv s4 Hc4) as [b Hb].
      pose proof (changed_kept_rollback w p cv s4 Hch4) as Hch5.
      unfold bind in Hrun.
      destruct (rollback w p cv s4) as [o5 s5] eqn:Hroll.
      simpl in Hb, Hch5. subst o5.
      destruct (rollback_end w p cv s4 s5 b Hc4 Hroll)
        as [[-> ->] | [-> (pv & Hpv & Hne & _ & Hfs5)]];
        inversion Hrun; subst; right; do 2 eexists;
        (split; [reflexivity|]); (split; [assumption|]); simpl.
      * now rewrite Hfs.
      * exists pv. rewrite Hfs5. auto.
    + inversion Hrun; subst. right. do 2 eexists.
      split; [reflexivity|]. split; [assumption|]. simpl. now rewrite Hfs.
  - (* the restart failed: the except clause *)
    unfold deploy_except in Hrun.
    assert (Hc3 : current (fs s3) <> CurFile) by (rewrite Hcur; discriminate).
    destruct (rollback_on_failure p && truthy cv) eqn:Hrb.
    + destruct (rollback_returns w p cv s3 Hc3) as [b Hb].
      pose proof (changed_kept_rollback w p cv s3 Hch) as Hch5.
      unfold bind in Hrun.
      destruct (rollback w p cv s3) as [o5 s5] eqn:Hroll.
      simpl in Hb, Hch5. subst o5.
      destruct (rollback_end w p cv s3 s5 b Hc3 Hroll)
        as [[-> ->] | [-> (pv & Hpv & Hne & _ & Hfs5)]];
        inversion Hrun; subst; right; do 2 eexists;
        (split; [reflexivity|]); (split; [assumption|]); simpl.
      * assumption.
      * exists pv. rewrite Hfs5. auto.
    + inversion Hrun; subst. left. eexists. split; [reflexivity|].
      right. exists "Failed to restart service". split; reflexivity.
Qed.

Lemma create_symlink_over_file (p : Params) (s : State) :
  current (fs s) = CurFile ->
  create_symlink p s = (Raise "NotADirectoryError", s).
Proof.
  intros Hc. unfold create_symlink.
  rewrite <- (bind_assoc clear_current_link (fun _ => os_symlink _)
                (fun _ => set_changed) s).
  now rewrite (bind_raise _ _ _ _ _ (switch_refuses_file _ s Hc)).
Qed.

(** With a regular file in the place of current, the removal raises, no
    previous version is known, and the try statement ends in fail_json. *)
Lemma attempt_over_file (w : World) (p : Params) (s s1 : State)
    (o : outcome (bool * string)) :
  current (fs s) = CurFile ->
  attempt w p None s = (o, s1) ->
  exists msg,
    o = Exit msg
    /\ (download_artifact w p s = (Exit msg, s1)
        \/ msg = "Deployment failed: NotADirectoryError").
Proof.
  intros Hc Hrun.
  pose proof (download_artifact_current w p s) as Hcur.
  pose proof (download_artifact_never_raises w p s) as Hnr.
  unfold attempt, try_except, deploy_try, stage_and_switch in Hrun.
  destruct (download_artifact w p s) as [[b|e|msg] s2] eqn:Hd; simpl in *.
  - assert (Hc2 : current (fs s2) = CurFile) by (now rewrite Hcur).
    rewrite (bind_raise _ _ s s2 "NotADirectoryError") in Hrun.
    2: { rewrite (bind_ok _ _ _ _ _ Hd).
         now rewrite (bind_raise _ _ _ _ _ (create_symlink_over_file p s2 Hc2)). }
    unfold deploy_except in Hrun. rewrite andb_false_r in Hrun.
    inversion Hrun; subst. eexists. split; [reflexivity|]. now right.
  - exfalso. now apply (Hnr e).
  - rewrite (bind_exit _ _ s s2 msg) in Hrun.
    2: { now rewrite (bind_exit _ _ _ _ _ Hd). }
    inversion Hrun; subst. exists msg. auto.
Qed.

(** ** How deploy ends *)

Lemma already_deployed_exists (p : Params) (f : FS) :
  already_deployed p f = true ->
  release_exists (version p) f = true
  /\ current_version_of f = Some (version p).
Proof.
  unfold already_deployed, same_version. intros H.
  apply andb_true_iff in H as [Hex Hcv]. split; [exact Hex|].
  destruct (current_version_of f) as [cv|]; [|discriminate].
  apply String.eqb_eq in Hcv. now subst.
Qed.

Lemma current_version_file (f : FS) :
  current f = CurFile -> current_version_of f = None.
Proof. unfold current_version_of. now intros ->. Qed.

(** deploy ends in one of three ways: at the idempotency check, the state
    untouched; in fail_json, for a failed download or for an exception
    with no rollback to attempt; or through its try statement and the
    cleanup. *)
Lemma deploy_end (w : World) (p : Params) (s s' : State)
    (o : outcome Result) :
  deploy w p s = (o, s') ->
  (already_deployed p (fs s) = true
   /\ o = Ok (already_deployed_result p s) /\ s' = s)
  \/ (already_deployed p (fs s) = false
      /\ exists msg,
           o = Exit msg
           /\ (download_artifact w p (after_makedirs s) = (Exit msg, s')
               \/ (exists e,
                     msg = "Deployment failed: " ++ e
                     /\ rollback_on_failure p
                        && truthy (current_version_of (fs s)) = false)))
  \/ (already_deployed p (fs s) = false
      /\ exists rb st s1,
           attempt w p (current_version_of (fs s)) (after_makedirs s)
           = (Ok (rb, st), s1)
           /\ changed s1 = true
           /\ pointer_after p (current_version_of (fs s)) rb (fs s1)
           /\ finish w p (current_version_of (fs s)) (rb, st) s1 = (o, s')).
Proof.
  rewrite deploy_begin. destruct (already_deployed p (fs s)) eqn:Hal.
  - intros H. left. split; [reflexivity|].
    destruct (already_deployed_exists p (fs s) Hal) as [Hex _].
    rewrite (after_makedirs_exists s _ Hex) in H. inversion H; subst. auto.
  - intros H. right.
    assert (Hcm : current (fs (after_makedirs s)) = current (fs s)).
    { unfold after_makedirs. now destruct (releases (fs s)). }
    unfold bind in H.
    destruct (attempt w p (current_version_of (fs s)) (after_makedirs s))
      as [oa s1] eqn:Ha.
    destruct (current (fs s)) eqn:Hc.
    4: { rewrite (current_version_file (fs s) Hc) in *.
         destruct (attempt_over_file w p (after_makedirs s) s1 oa)
           as (msg & -> & Hcause); [now rewrite Hcm | exact Ha |].
         inversion H; subst. left. split; [reflexivity|].
         exists msg. split; [reflexivity|].
         destruct Hcause as [Hd | ->]; [now left | right].
         exists "NotADirectoryError". split; [reflexivity|].
         apply andb_false_r. }
    all: assert (Hnf : current (fs (after_makedirs s)) <> CurFile)
      by (rewrite Hcm; discriminate);
      destruct (attempt_end w p (current_version_of (fs s))
                  (after_makedirs s) s1 oa Hnf Ha)
        as [(msg & -> & Hcause) | (rb & st & -> & Hch & Hptr)];
      [ inversion H; subst; left; split; [reflexivity|];
        exists msg; split; [reflexivity | exact Hcause]
      | right; split; [reflexivity|]; exists rb, st, s1; auto ].
Qed.

(** deploy calls fail_json in two cases only: the download or extraction
    failed, or an exception occurred with rollback switched off or no
    previous version to roll back to.  A rollback that was attempted never
    ends the run in fail_json. *)
Theorem deploy_exit_causes (w : World) (p : Params) (s s' : State)
    (msg : string) :
  deploy w p s = (Exit msg, s') ->
  download_artifact w p (after_makedirs s) = (Exit msg, s')
  \/ (exists e,
        msg = "Deployment failed: " ++ e
        /\ (rollback_on_failure p = false
            \/ truthy (current_version_of (fs s)) = false)).
Proof.
  intros H.
  destruct (deploy_end w p s s' _ H)
    as [(_ & Ho & _) | [(_ & msg' & Ho & Hcause)
                       | (_ & rb & st & s1 & _ & _ & _ & Hfin)]].
  - discriminate.
  - inversion Ho; subst msg'.
    destruct Hcause as [Hd | (e & -> & Hrb)]; [now left | right].
    exists e. split; [reflexivity|]. now apply andb_false_iff.
  - exfalso. rewrite finish_run in Hfin.
    pose proof (never_exits_cleanup w p s1) as Hne.
    destruct (cleanup_old_versions w p s1) as [[[]|e|m] s2];
      try discriminate.
    now apply (Hne m).
Qed.

Lemma deploy_exit_causes_witness :
  download_artifact Sample.restart_fails
    (Sample.params "v1" None (Some "") 5 (Some "my-app"))
    (after_makedirs Sample.fresh)
  = (Exit "Deployment failed: Failed to restart service",
     snd (deploy Sample.restart_fails
            (Sample.params "v1" None (Some "") 5 (Some "my-app"))
            Sample.fresh))
  \/ (exists e,
        "Deployment failed: Failed to restart service"
        = "Deployment failed: " ++ e
        /\ (rollback_on_failure
              (Sample.params "v1" None (Some "") 5 (Some "my-app")) = false
            \/ truthy (current_version_of (fs Sample.fresh)) = false)).
Proof.
  apply (deploy_exit_causes Sample.restart_fails
           (Sample.params "v1" None (Some "") 5 (Some "my-app"))
           Sample.fresh).
  vm_compute. reflexivity.
Defined.

(** deploy of a version that is a plain name reports changed = False only
    from the idempotency check: every other result comes after the pointer
    was switched, with self.changed set. *)
Theorem deploy_unchanged_only_if_already_deployed (w : World) (p : Params)
    (s s' : State) (r : Result) :
  plain_name (version p) ->
  deploy w p s = (Ok r, s') ->
  r_changed r = false ->
  already_deployed p (fs s) = true
  /\ s' = s
  /\ health_check_status r = "Already deployed".
Proof.
  intros _ H Hch.
  destruct (deploy_end w p s s' _ H)
    as [(Hal & Ho & Hs) | [(_ & msg' & Ho & _)
                          | (_ & rb & st & s1 & _ & Hc1 & _ & Hfin)]].
  - inversion Ho; subst. auto.
  - discriminate.
  - exfalso. rewrite finish_run in Hfin.
    pose proof (changed_kept_cleanup w p s1 Hc1) as Hc2.
    destruct (cleanup_old_versions w p s1) as [[[]|e|m] s2];
      try discriminate.
    inversion Hfin; subst. simpl in Hch, Hc2.
    unfold changed_is_set in Hc2. congruence.
Qed.

Lemma deploy_unchanged_only_if_already_deployed_witness :
  already_deployed (Sample.params "v5" None (Some "") 5 None)
                   (fs (Sample.running "v5")) = true
  /\ snd (deploy Sample.calm (Sample.params "v5" None (Some "") 5 None)
                 (Sample.running "v5")) = Sample.running "v5"
  /\ "Already deployed" = "Already deployed".
Proof.
  apply (deploy_unchanged_only_if_already_deployed Sample.calm
           (Sample.params "v5" None (Some "") 5 None) (Sample.running "v5")
           _ (mkResult false (Some "v5") false 0 "Already deployed" None)).
  - solve_plain_name.
  - vm_compute. reflexivity.
  - reflexivity.
Defined.

Lemma finish_ok (w : World) (p : Params) (cv : option string) (rb : bool)
    (st : string) (s1 s' : State) (r : Result) :
  finish w p cv (rb, st) s1 = (Ok r, s') ->
  cleanup_old_versions w p s1 = (Ok tt, s')
  /\ rollback_occurred r = rb
  /\ version_deployed r = (if rb then cv else Some (version p))
  /\ health_check_status r = st
  /\ r_changed r = changed s'.
Proof.
  rewrite finish_run.
  destruct (cleanup_old_versions w p s1) as [[[]|e|m] s2]; try discriminate.
  intros H. inversion H; subst. auto.
Qed.

(** Whenever deploy returns, the version it reports in version_deployed
    is the one get_current_version now yields: the target version, or the
    previous version after a rollback.  (The target version is taken to be
    a plain name, without '/'.) *)
Theorem deploy_reports_the_active_version (w : World) (p : Params)
    (s s' : State) (r : Result) :
  Path.has_sep (version p) = false ->
  deploy w p s = (Ok r, s') ->
  current_version_of (fs s') = version_deployed r.
Proof.
  intros Hv H.
  destruct (deploy_end w p s s' _ H)
    as [(Hal & Ho & Hs) | [(_ & msg' & Ho & _)
                          | (_ & rb & st & s1 & _ & _ & Hptr & Hfin)]].
  - inversion Ho; subst. simpl.
    now destruct (already_deployed_exists p (fs s) Hal).
  - discriminate.
  - destruct (finish_ok _ _ _ _ _ _ _ _ Hfin) as (Hcl & _ & Hvd & _).
    pose proof (cleanup_keeps_current w p s1) as Hkc.
    rewrite Hcl in Hkc. simpl in Hkc.
    rewrite Hvd. unfold current_version_of at 1. rewrite Hkc.
    unfold pointer_after in Hptr. destruct rb.
    + destruct Hptr as (pv & Hcv & _ & Hcur). rewrite Hcur, Hcv.
      now rewrite (basename_release_path p pv
                     (current_version_no_sep _ _ Hcv)).
    + rewrite Hptr. now rewrite (basename_release_path p _ Hv).
Qed.

Lemma deploy_reports_the_active_version_witness :
  current_version_of
    (fs (snd (deploy Sample.restart_fails
                (Sample.params "v5" None (Some "") 5 (Some "my-app"))
                (Sample.running "v4"))))
  = Some "v4".
Proof.
  apply (deploy_reports_the_active_version Sample.restart_fails
           (Sample.params "v5" None (Some "") 5 (Some "my-app"))
           (Sample.running "v4") _
           (mkResult true (Some "v4") true 2
                     "Deployment failed: Failed to restart service - Rolled back"
                     (Some "v4"))).
  - reflexivity.
  - vm_compute. reflexivity.
Defined.

(** Deploying twice: after a deploy that returned without rollback, a
    second deploy of the same version is the idempotent no-op, as long as
    the cleanup of the first left the release directory in place. *)
Theorem second_deploy_is_noop (w w' : World) (p : Params) (s s' : State)
    (r : Result) :
  Path.has_sep (version p) = false ->
  deploy w p s = (Ok r, s') ->
  rollback_occurred r = false ->
  release_exists (version p) (fs s') = true ->
  deploy w' p s' = (Ok (already_deployed_result p s'), s').
Proof.
  intros Hv H Hrb Hex.
  assert (Hcv : current_version_of (fs s') = Some (version p)).
  { destruct (deploy_end w p s s' _ H)
      as [(Hal & _ & ->) | [(_ & msg' & Ho & _)
                           | (_ & rb & st & s1 & _ & _ & Hptr & Hfin)]].
    - now destruct (already_deployed_exists p (fs s) Hal).
    - discriminate.
    - destruct (finish_ok _ _ _ _ _ _ _ _ Hfin) as (Hcl & Hr & _).
      rewrite Hrb in Hr. subst rb. simpl in Hptr.
      pose proof (cleanup_keeps_current w p s1) as Hkc.
      rewrite Hcl in Hkc. simpl in Hkc.
      unfold current_version_of. rewrite Hkc, Hptr.
      now rewrite (basename_release_path p _ Hv). }
  rewrite deploy_begin. unfold already_deployed, same_version.
  rewrite Hex, Hcv, String.eqb_refl. simpl.
  now rewrite (after_makedirs_exists s' _ Hex).
Qed.

Lemma second_deploy_is_noop_witness :
  let p := Sample.params "v6" (Some "http://repo/app.tgz") (Some "") 5
                         (Some "my-app") in
  let s' := snd (deploy Sample.calm p Sample.half_staged) in
  deploy Sample.unhealthy p s' = (Ok (already_deployed_result p s'), s').
Proof.
  cbv zeta.
  apply (second_deploy_is_noop Sample.calm Sample.unhealthy
           (Sample.params "v6" (Some "http://repo/app.tgz") (Some "") 5
                          (Some "my-app"))
           Sample.half_staged _
           (mkResult true (Some "v6") false 7
                     "No health check URL provided" None)).
  - reflexivity.
  - vm_compute. reflexivity.
  - reflexivity.
  - vm_compute. reflexivity.
Defined.

Lemma current_version_symlink (f : FS) (pv : string) :
  current_version_of f = Some pv -> current f <> CurFile.
Proof.
  unfold current_version_of. destruct (current f); discriminate.
Qed.

(** The deployment as far as the restart, when the restart answers False:
    stage_and_switch raises 'Failed to restart service' with the pointer
    already switched. *)
Lemma stage_and_switch_failed_restart (w : World) (p : Params)
    (s s1 s3 : State) (b : bool) :
  current (fs s) <> CurFile ->
  download_artifact w p s = (Ok b, s1) ->
  restart_service w p (linked p s1) = (Ok false, s3) ->
  stage_and_switch w p s = (Raise "Failed to restart service", s3)
  /\ current (fs s3) = Symlink (release_path p (version p))
  /\ changed s3 = true.
Proof.
  intros Hc Hd Hr.
  destruct (stage_and_switch_cases w p s Hc)
    as [(msg & s' & Hd' & _) | (b' & s1' & ok & s3' & Hd' & Hr' & Hs)].
  - rewrite Hd in Hd'. discriminate.
  - rewrite Hd in Hd'. inversion Hd'; subst b' s1'.
    rewrite Hr in Hr'. inversion Hr'; subst ok s3'.
    split; [exact Hs|].
    destruct (stage_and_switch_end w p s s3 _ Hc Hs)
      as [(msg & Hm & _) | (Hcur & Hch & _)]; [discriminate | auto].
Qed.

(** A failed restart with nothing to roll back to: when the download has
    returned, the pointer has been switched and restart_service answers
    False, with rollback switched off or no previous version known,
    deploy ends in fail_json with the restart failure; current stays on
    the target release and the cleanup is not run. *)
Theorem failed_restart_without_rollback_is_fatal (w : World) (p : Params)
    (s s1 s3 : State) (b : bool) :
  current (fs s) <> CurFile ->
  already_deployed p (fs s) = false ->
  rollback_on_failure p = false
  \/ truthy (current_version_of (fs s)) = false ->
  download_artifact w p (after_makedirs s) = (Ok b, s1) ->
  restart_service w p (linked p s1) = (Ok false, s3) ->
  deploy w p s = (Exit "Deployment failed: Failed to restart service", s3)
  /\ current (fs s3) = Symlink (release_path p (version p))
  /\ changed s3 = true.
Proof.
  intros Hc Hal Hno Hd Hr.
  assert (Hcm : current (fs (after_makedirs s)) <> CurFile).
  { unfold after_makedirs. now destruct (releases (fs s)). }
  destruct (stage_and_switch_failed_restart w p _ s1 s3 b Hcm Hd Hr)
    as (Hs & Hcur & Hch).
  split; [|auto].
  rewrite deploy_begin, Hal. unfold bind, attempt, try_except, deploy_try.
  rewrite (bind_raise _ _ _ _ _ Hs). unfold deploy_except.
  assert (Hrb : rollback_on_failure p && truthy (current_version_of (fs s))
                = false).
  { apply andb_false_iff. exact Hno. }
  now rewrite Hrb.
Qed.

Lemma failed_restart_without_rollback_is_fatal_witness :
  exists s3,
    deploy Sample.restart_fails
      (Sample.params "v1" None (Some "") 5 (Some "my-app")) Sample.fresh
    = (Exit "Deployment failed: Failed to restart service", s3)
    /\ current (fs s3) = Symlink "/opt/my-app/releases/v1"
    /\ changed s3 = true.
Proof.
  eexists.
  eapply (failed_restart_without_rollback_is_fatal Sample.restart_fails
            (Sample.params "v1" None (Some "") 5 (Some "my-app"))
            Sample.fresh).
  - simpl. discriminate.
  - reflexivity.
  - right. reflexivity.
  - vm_compute. reflexivity.
  - vm_compute. reflexivity.
Defined.

(** A failed restart with a previous version on disk and rollback on:
    deploy repoints current to the previous release and, unless the
    cleanup raises, returns the result with rollback_occurred = True,
    version_deployed and previous_version the previous version, and the
    status 'Deployment failed: Failed to restart service - Rolled back'. *)
Theorem failed_restart_restores_previous (w : World) (p : Params)
    (s s1 s3 : State) (pv : string) (b : bool) :
  current_version_of (fs s) = Some pv ->
  pv <> "" ->
  release_exists pv (fs s) = true ->
  rollback_on_failure p = true ->
  already_deployed p (fs s) = false ->
  download_artifact w p s = (Ok b, s1) ->
  restart_service w p (linked p s1) = (Ok false, s3) ->
  current_version_of (fs (snd (deploy w p s))) = Some pv
  /\ ((exists r,
         fst (deploy w p s) = Ok r
         /\ rollback_occurred r = true
         /\ version_deployed r = Some pv
         /\ previous_version r = Some pv
         /\ health_check_status r
            = "Deployment failed: Failed to restart service - Rolled back")
      \/ (exists x,
            fst (deploy w p s) = Raise x
            /\ fst (cleanup_old_versions w p
                      (snd (rollback w p (Some pv) s3))) = Raise x)).
Proof.
  intros Hcv Hpv Hex Hrb Hal Hd Hr.
  pose proof (current_version_symlink _ _ Hcv) as Hc.
  destruct (stage_and_switch_failed_restart w p s s1 s3 b Hc Hd Hr)
    as (Hs & Hcur & Hch).
  assert (Hex3 : release_exists pv (fs s3) = true).
  { apply exists_kind in Hex as [k Hk]. apply exists_kind. exists k.
    pose proof (stable_stage_and_switch w p pv k s Hk) as H3.
    now rewrite Hs in H3. }
  assert (Hc3 : current (fs s3) <> CurFile) by (rewrite Hcur; discriminate).
  pose proof (rollback_runs w p pv s3 Hpv Hex3 Hc3) as Hroll.
  pose proof (rollback_fs w p pv s3 Hpv Hex3 Hc3) as Hrfs.
  set (s5 := snd (restart_service w p (switched s3 (release_path p pv)))) in *.
  assert (Hpvt : (pv =? "")%string = false) by (now apply String.eqb_neq).
  assert (Hdep : deploy w p s
                 = finish w p (Some pv)
                     (true, "Deployment failed: Failed to restart service - Rolled back")
                     s5).
  { rewrite deploy_begin, Hal, (after_makedirs_exists s pv Hex), Hcv.
    unfold bind at 1. unfold attempt, try_except, deploy_try.
    rewrite (bind_raise _ _ _ _ _ Hs). unfold deploy_except.
    assert (Ht : rollback_on_failure p && truthy (Some pv) = true)
      by (rewrite Hrb; unfold truthy; now rewrite Hpvt).
    rewrite Ht. now rewrite (bind_ok _ _ _ _ _ Hroll). }
  rewrite Hdep, finish_run, Hroll. simpl snd.
  pose proof (cleanup_keeps_current w p s5) as Hkc.
  rewrite Hroll in Hrfs. simpl snd in Hrfs. rewrite Hrfs in Hkc.
  simpl current in Hkc.
  assert (Hfinal : forall s6,
            current (fs s6) = Symlink (release_path p pv) ->
            current_version_of (fs s6) = Some pv).
  { intros s6 H6. unfold current_version_of. rewrite H6.
    now rewrite (basename_release_path p pv (current_version_no_sep _ _ Hcv)). }
  destruct (cleanup_outcome w p s5) as [H | [x H]];
    destruct (cleanup_old_versions w p s5) as [[[]|x'|msg] s6];
    simpl in H; try discriminate; simpl fst; simpl snd; simpl snd in Hkc.
  - split; [now apply Hfinal|]. left. eexists. split; [reflexivity|].
    cbn [rollback_occurred version_deployed previous_version
         health_check_status andb truthy].
    rewrite Hpvt. auto.
  - split; [now apply Hfinal|]. right. exists x'. auto.
Qed.

Lemma failed_restart_restores_previous_witness :
  current_version_of
    (fs (snd (deploy Sample.restart_fails
                (Sample.params "v5" None (Some "") 5 (Some "my-app"))
                (Sample.running "v4"))))
  = Some "v4".
Proof.
  refine (proj1 (failed_restart_restores_previous Sample.restart_fails
                   (Sample.params "v5" None (Some "") 5 (Some "my-app"))
                   (Sample.running "v4") _ _ "v4" true
                   _ _ _ _ _ _ _)).
  - reflexivity.
  - discriminate.
  - reflexivity.
  - reflexivity.
  - reflexivity.
  - vm_compute. reflexivity.
  - vm_compute. reflexivity.
Defined.

(** ** The polling loop *)

Lemma health_poll_never_healthy (w : World) (url : string)
    (start timeout : Z) :
  (forall tr d, http_get w tr url <> Response 200 d) ->
  forall (fuel : nat) (s : State),
    Z.of_nat fuel > Z.max 0 (timeout - (clock s - start)) ->
    exists s',
      health_poll fuel w url start timeout s
      = (Ok (false, "Health check failed"), s')
      /\ timeout <= clock s' - start
      /\ clock s <= clock s'.
Proof.
  intros Hw. induction fuel as [|n IH]; intros s Hfuel; [lia|].
  simpl. unfold requests_get. unfold_monad.
  destruct (clock s - start <? timeout) eqn:Hlt.
  2: { apply Z.ltb_ge in Hlt. eexists. split; [reflexivity|]. lia. }
  apply Z.ltb_lt in Hlt.
  ask_world; simpl.
  - destruct (code =? 200) eqn:Hcode.
    { exfalso. apply Z.eqb_eq in Hcode. subst code. now apply (Hw _ _ Hget). }
    simpl.
    match goal with
    | |- context [health_poll n w url start timeout ?s1] =>
        destruct (IH s1) as (s' & Hrun & Ht & Hc); [simpl; lia|]
    end.
    exists s'. rewrite Hrun. simpl in Hc. split; [reflexivity|]. lia.
  - match goal with
    | |- context [health_poll n w url start timeout ?s1] =>
        destruct (IH s1) as (s' & Hrun & Ht & Hc); [simpl; lia|]
    end.
    exists s'. rewrite Hrun. simpl in Hc. split; [reflexivity|]. lia.
Qed.

(** When the URL never answers 200, whether by another status or by an
    error, health_check gives up with (False, 'Health check failed'), and
    not before the timeout has elapsed; every failed probe is swallowed. *)
Theorem health_check_gives_up_after_timeout (w : World) (p : Params)
    (s : State) (url : string) :
  health_check_url p = Some url ->
  url <> "" ->
  (forall tr d, http_get w tr url <> Response 200 d) ->
  exists s',
    health_check w p s = (Ok (false, "Health check failed"), s')
    /\ health_check_timeout p <= clock s' - clock s
    /\ fs s' = fs s.
Proof.
  intros Hu Hne Hw.
  pose proof (health_check_fs w p s) as Hfs.
  unfold health_check in *. rewrite Hu in *.
  apply String.eqb_neq in Hne. rewrite Hne in *.
  unfold bind, time_time in *.
  destruct (health_poll_never_healthy w url (clock s) (health_check_timeout p)
              Hw (S (Z.to_nat (health_check_timeout p))) s)
    as (s' & Hrun & Ht & _); [lia|].
  exists s'. rewrite Hrun in *. auto.
Qed.

Lemma health_check_gives_up_after_timeout_witness :
  exists s',
    health_check Sample.unhealthy
      (Sample.params "v1" None (Some "http://localhost/health") 5 None)
      Sample.fresh
    = (Ok (false, "Health check failed"), s')
    /\ 25 <= clock s' - 1000
    /\ fs s' = fs Sample.fresh.
Proof.
  apply (health_check_gives_up_after_timeout Sample.unhealthy
           (Sample.params "v1" None (Some "http://localhost/health") 5 None)
           Sample.fresh "http://localhost/health").
  - reflexivity.
  - discriminate.
  - intros tr d. discriminate.
Defined.

Lemma count_gets_app (a b : list event) :
  count_gets (a ++ b) = (count_gets a + count_gets b)%nat.
Proof.
  induction a as [|x r IH]; simpl; [reflexivity|].
  destruct x; simpl; now rewrite IH.
Qed.

Lemma health_poll_probe_bound (w : World) (url : string) (start timeout : Z)
    (fuel : nat) :
  forall s,
    exists added,
      trace (snd (health_poll fuel w url start timeout s))
      = (trace s ++ added)%list
      /\ 10 * Z.of_nat (count_gets added)
         <= Z.max 0 (timeout - (clock s - start) + 9).
Proof.
  induction fuel as [|n IH]; intros s.
  - exists []. cbn [health_poll raise snd]. rewrite app_nil_r.
    split; [reflexivity | cbn [count_gets]; lia].
  - cbn [health_poll]. unfold requests_get. unfold_monad.
    destruct (clock s - start <? timeout) eqn:Hlt.
    2: { exists []. cbn [snd]. rewrite app_nil_r.
         split; [reflexivity | cbn [count_gets]; lia]. }
    apply Z.ltb_lt in Hlt.
    ask_world; cbn [fst snd fs clock trace changed deployment_start_time].
    + destruct (code =? 200); cbn [fst snd trace].
      { exists [Get url]. split; [reflexivity | cbn [count_gets]; lia]. }
      match goal with
      | |- context [health_poll n w url start timeout ?s1] =>
          destruct (IH s1) as (added & Htr & Hb)
      end.
      exists ([Get url; Sleep 10] ++ added)%list. rewrite Htr.
      cbn [trace clock] in *. split.
      * now rewrite <- !app_assoc.
      * rewrite count_gets_app. cbn [count_gets]. lia.
    + match goal with
      | |- context [health_poll n w url start timeout ?s1] =>
          destruct (IH s1) as (added & Htr & Hb)
      end.
      exists ([Get url; Sleep 10] ++ added)%list. rewrite Htr.
      cbn [trace clock] in *. split.
      * now rewrite <- !app_assoc.
      * rewrite count_gets_app. cbn [count_gets]. lia.
Qed.

(** The number of probes is bounded by the timeout: health_check issues
    at most one request per ten seconds of health_check_timeout, rounded
    up, whatever the answers are; with a timeout of zero or less it issues
    none. *)
Theorem health_check_probe_bound (w : World) (p : Params) (s : State) :
  exists added,
    trace (snd (health_check w p s)) = (trace s ++ added)%list
    /\ 10 * Z.of_nat (count_gets added)
       <= Z.max 0 (health_check_timeout p + 9).
Proof.
  unfold health_check.
  destruct (health_check_url p) as [url|].
  2: { exists []. cbn [ret snd]. rewrite app_nil_r.
       split; [reflexivity | cbn [count_gets]; lia]. }
  destruct (String.eqb url "").
  { exists []. cbn [ret snd]. rewrite app_nil_r.
    split; [reflexivity | cbn [count_gets]; lia]. }
  unfold bind, time_time.
  destruct (health_poll_probe_bound w url (clock s) (health_check_timeout p)
              (S (Z.to_nat (health_check_timeout p))) s) as (added & Htr & Hb).
  exists added. split; [exact Htr|].
  replace (health_check_timeout p - (clock s - clock s) + 9)
    with (health_check_timeout p + 9) in Hb by lia.
  exact Hb.
Qed.

(** ** Staging and restarting, seen from outside *)

(** download_artifact only ever adds: for a version that is a plain name,
    a release that is on disk is still there afterwards, file or directory
    as it was, whether the download succeeds or fails, and the pointer is
    left alone. *)
Theorem download_artifact_only_adds (w : World) (p : Params) (s : State) :
  plain_name (version p) ->
  (forall v, release_exists v (fs s) = true ->
             release_exists v (fs (snd (download_artifact w p s))) = true)
  /\ (forall v, release_isdir v (fs s) = true ->
                release_isdir v (fs (snd (download_artifact w p s))) = true)
  /\ current (fs (snd (download_artifact w p s))) = current (fs s).
Proof.
  intros _. repeat split.
  - intros v Hv. apply exists_kind in Hv as [k Hk]. apply exists_kind.
    exists k. now apply (stable_download_artifact w p v k s).
  - intros v Hv. apply is_dir_in_isdir. apply is_dir_in_isdir in Hv.
    now apply (stable_download_artifact w p v true s).
  - apply download_artifact_current.
Qed.

(** restart_service never raises and never touches the filesystem; with a
    service name set it answers True only when `systemctl restart` and,
    five seconds later, `systemctl is-active` both exited with status 0. *)
Theorem restart_service_true_means_active (w : World) (p : Params)
    (s s' : State) (svc : string) (ok : bool) :
  service_name p = Some svc ->
  svc <> "" ->
  restart_service w p s = (Ok ok, s') ->
  fs s' = fs s
  /\ (ok = true ->
      exists e1 d1 n1 e2 d2 n2,
        run_process w (trace s) ["systemctl"; "restart"; svc]
        = Completed 0 e1 d1 n1
        /\ run_process w
             (trace s ++ [Run ["systemctl"; "restart"; svc]; Sleep 5])
             ["systemctl"; "is-active"; svc]
           = Completed 0 e2 d2 n2
        /\ trace s'
           = (trace s ++ [Run ["systemctl"; "restart"; svc]; Sleep 5;
                          Run ["systemctl"; "is-active"; svc]])%list
        /\ clock s' = clock s + Z.of_N d1 + 5 + Z.of_N d2).
Proof.
  intros Hsvc Hne Hrun. split.
  - pose proof (restart_service_fs w p s) as Hfs. now rewrite Hrun in Hfs.
  - intros ->. revert Hrun. unfold restart_service. rewrite Hsvc.
    apply String.eqb_neq in Hne. rewrite Hne.
    unfold subprocess_run, write_files. unfold_monad.
    destruct (run_process w (trace s) ["systemctl"; "restart"; svc])
      as [rc e1 d1 n1|exc] eqn:H1;
      cbn [fst snd fs clock trace changed deployment_start_time];
      [|discriminate].
    destruct (rc =? 0) eqn:Hrc; cbn [negb]; [|discriminate].
    apply Z.eqb_eq in Hrc. subst rc.
    cbn [fst snd fs clock trace changed deployment_start_time].
    replace ((trace s ++ [Run ["systemctl"; "restart"; svc]]) ++ [Sleep 5])%list
      with (trace s ++ [Run ["systemctl"; "restart"; svc]; Sleep 5])%list
      by (now rewrite <- app_assoc).
    destruct (run_process w
                (trace s ++ [Run ["systemctl"; "restart"; svc]; Sleep 5])
                ["systemctl"; "is-active"; svc])
      as [rc2 e2 d2 n2|exc] eqn:H2;
      cbn [fst snd fs clock trace changed deployment_start_time];
      [|discriminate].
    destruct (rc2 =? 0) eqn:Hrc2; [|discriminate].
    apply Z.eqb_eq in Hrc2. subst rc2.
    intros H. inversion H; subst. cbn [trace clock].
    exists e1, d1, n1, e2, d2, n2. rewrite <- ?app_assoc. auto.
Qed.

Lemma restart_service_true_means_active_witness :
  fs (snd (restart_service Sample.calm
             (Sample.params "v5" None None 5 (Some "my-app"))
             (Sample.running "v5")))
  = fs (Sample.running "v5").
Proof.
  refine (proj1 (restart_service_true_means_active Sample.calm
                   (Sample.params "v5" None None 5 (Some "my-app"))
                   (Sample.running "v5") _ "my-app" true _ _ _)).
  - reflexivity.
  - discriminate.
  - vm_compute. reflexivity.
Defined.

(** ** Reading the pointer back *)

Lemma basename_of_suffix (a w : string) :
  Path.has_sep w = true -> Path.basename (a ++ w) = Path.basename w.
Proof.
  intros Hw. induction a as [|c r IH]; simpl; [reflexivity|].
  rewrite PathFacts.has_sep_app, Hw, orb_true_r. exact IH.
Qed.

Lemma basename_after_any_sep (a v : string) :
  Path.basename (a ++ "/" ++ v) = Path.basename v.
Proof.
  destruct (Path.has_sep v) eqn:Hv.
  - rewrite basename_of_suffix; simpl; rewrite ?Hv; reflexivity.
  - rewrite PathFacts.basename_after_sep by exact Hv.
    now rewrite PathFacts.basename_id.
Qed.

Lemma basename_join2_any (a v : string) :
  Path.basename (Path.join2 a v) = Path.basename v.
Proof.
  unfold Path.join2. destruct (Path.startswith_sep v); [reflexivity|].
  destruct (String.eqb a "") eqn:Ha; simpl.
  - apply String.eqb_eq in Ha. now subst.
  - destruct (Path.endswith_sep a) eqn:He.
    + destruct (PathFacts.endswith_sep_split a He) as [a' ->].
      rewrite PathFacts.append_assoc. apply basename_after_any_sep.
    + apply basename_after_any_sep.
Qed.

(** create_symlink followed by get_current_version: the version read back
    is the last path component of the version deployed, hence the version
    itself when it is a plain name; a version written with a '/' is not
    read back as it was given. *)
Theorem get_current_version_after_create_symlink (p : Params) (s : State) :
  current (fs s) <> CurFile ->
  exists s',
    create_symlink p s = (Ok tt, s')
    /\ get_current_version s' = (Ok (Some (Path.basename (version p))), s')
    /\ (Path.has_sep (version p) = false ->
        get_current_version s' = (Ok (Some (version p)), s')).
Proof.
  intros Hc. rewrite (create_symlink_runs p s Hc).
  eexists. split; [reflexivity|].
  assert (Hb : Path.basename (release_path p (version p))
               = Path.basename (version p)).
  { unfold release_path, Path.join. simpl. apply basename_join2_any. }
  unfold get_current_version, current_version_of. unfold_monad. simpl.
  rewrite Hb. split; [reflexivity|].
  intros Hv. now rewrite (PathFacts.basename_id _ Hv).
Qed.

Lemma get_current_version_after_create_symlink_witness :
  exists s',
    create_symlink (Sample.params "v7" None None 5 None) (Sample.running "v5")
    = (Ok tt, s')
    /\ get_current_version s' = (Ok (Some "v7"), s')
    /\ (Path.has_sep "v7" = false ->
        get_current_version s' = (Ok (Some "v7"), s')).
Proof.
  apply (get_current_version_after_create_symlink
           (Sample.params "v7" None None 5 None) (Sample.running "v5")).
  simpl. discriminate.
Defined.

(** ** A deployment without an artifact *)

Section ReleasesRules.
Variable Q : option (list (string * entry)) -> Prop.

Lemma releases_clear_current_link : stable (on_releases Q) clear_current_link.
Proof.
  intros s H. unfold clear_current_link. unfold_monad.
  destruct (current (fs s)); exact H.
Qed.

Lemma releases_os_symlink (target : string) :
  stable (on_releases Q) (os_symlink target).
Proof.
  intros s H. unfold os_symlink. unfold_monad.
  destruct (current (fs s)); exact H.
Qed.

Lemma releases_rollback (w : World) (p : Params) (pv : option string) :
  stable (on_releases Q) (rollback w p pv).
Proof.
  unfold rollback. destruct pv as [v|]; [|apply stable_ret].
  destruct (String.eqb v ""); [apply stable_ret|].
  apply stable_bind; [intros s H; exact H|]. intros s0.
  destruct (negb (release_exists v (fs s0))); [apply stable_ret|].
  apply stable_bind; [apply releases_clear_current_link|]. intros _.
  apply stable_bind; [apply releases_os_symlink|]. intros _.
  apply stable_bind; [apply stable_restart_service|]. intros _.
  apply stable_ret.
Qed.

(** With no artifact_url, nothing in deploy's try statement creates or
    removes a release. *)
Lemma releases_attempt_without_artifact (w : World) (p : Params)
    (cv : option string) :
  truthy (artifact_url p) = false ->
  stable (on_releases Q) (attempt w p cv).
Proof.
  intros Hu. unfold attempt, deploy_try, stage_and_switch, create_symlink.
  apply stable_try_except.
  - apply stable_bind.
    + apply stable_bind.
      { unfold download_artifact, truthy in *.
        destruct (artifact_url p) as [url|]; [|apply stable_ret].
        destruct (String.eqb url ""); [apply stable_ret | discriminate]. }
      intros _. apply stable_bind.
      { apply stable_bind; [apply releases_clear_current_link|]. intros _.
        apply stable_bind; [apply releases_os_symlink|]. intros _.
        intros s H; exact H. }
      intros _. apply stable_bind; [apply stable_restart_service|].
      intros ok. destruct (negb ok); [apply stable_raise | apply stable_ret].
    + intros _. apply stable_bind; [apply stable_health_check|].
      intros [ok st]. unfold after_health_check.
      destruct (negb ok && rollback_on_failure p); [|apply stable_ret].
      apply stable_bind; [apply releases_rollback|].
      intros [|]; apply stable_ret.
  - intros e. unfold deploy_except.
    destruct (rollback_on_failure p && truthy cv); [|apply stable_fail_json].
    apply stable_bind; [apply releases_rollback|].
    intros [|]; apply stable_ret.
Qed.
End ReleasesRules.

(** The cleanup creates nothing. *)
Lemma absent_kept_cleanup (w : World) (p : Params) (v : string) :
  stable (on_fs (absent v)) (cleanup_old_versions w p).
Proof.
  unfold cleanup_old_versions.
  apply stable_bind; [intros s H; exact H|]. intros s0.
  destruct (releases (fs s0)); [|apply stable_ret].
  apply stable_for_each. intros [n m] s H. rewrite rmtree_release_run.
  cbn [fst].
  destruct (rmtree_error w n); [exact H|].
  destruct (releases (fs s)) as [ents|] eqn:Hr; [|exact H].
  destruct (lookup n ents); [|exact H].
  unfold on_fs, absent, release_exists, find_release in *. simpl.
  rewrite Hr in H. rewrite lookup_remove_entry.
  destruct (String.eqb v n); [reflexivity | exact H].
Qed.

(** A deployment without artifact_url of a version, a plain name, that
    was never staged goes through all the same: deploy returns its result
    with changed = True and version_deployed the target version, and
    leaves current pointing at a release directory that does not exist. *)
Theorem deploy_without_artifact_leaves_dangling_pointer (w : World)
    (p : Params) (s s' : State) (r : Result) :
  plain_name (version p) ->
  truthy (artifact_url p) = false ->
  release_exists (version p) (fs s) = false ->
  deploy w p s = (Ok r, s') ->
  rollback_occurred r = false ->
  release_exists (version p) (fs s') = false
  /\ current (fs s') = Symlink (release_path p (version p))
  /\ r_changed r = true
  /\ version_deployed r = Some (version p).
Proof.
  intros _ Hu Hex H Hrb.
  destruct (deploy_end w p s s' _ H)
    as [(Hal & _) | [(_ & msg' & Ho & _)
                    | (_ & rb & st & s1 & Hatt & Hch & Hptr & Hfin)]].
  - destruct (already_deployed_exists p (fs s) Hal). congruence.
  - discriminate.
  - destruct (finish_ok _ _ _ _ _ _ _ _ Hfin) as (Hcl & Hr & Hvd & _ & Hrc).
    rewrite Hrb in Hr. subst rb.
    assert (H0 : on_releases
                   (fun rel => match rel with
                               | Some ents => lookup (version p) ents
                               | None => None
                               end = None)
                   (after_makedirs s)).
    { unfold on_releases, on_fs, after_makedirs.
      unfold release_exists, find_release in Hex.
      destruct (releases (fs s)) as [ents|] eqn:Hr; simpl.
      - rewrite Hr. now destruct (lookup (version p) ents).
      - reflexivity. }
    pose proof (releases_attempt_without_artifact _ w p
                  (current_version_of (fs s)) Hu _ H0) as H1.
    rewrite Hatt in H1. simpl in H1.
    assert (Ha1 : on_fs (absent (version p)) s1).
    { unfold on_releases, on_fs, absent, release_exists, find_release in *.
      now rewrite H1. }
    pose proof (absent_kept_cleanup w p (version p) s1 Ha1) as Ha2.
    pose proof (cleanup_keeps_current w p s1) as Hkc.
    pose proof (changed_kept_cleanup w p s1 Hch) as Hc2.
    rewrite Hcl in Ha2, Hkc, Hc2. simpl in Ha2, Hkc, Hc2.
    repeat split.
    + exact Ha2.
    + rewrite Hkc. exact Hptr.
    + rewrite Hrc. exact Hc2.
    + exact Hvd.
Qed.

Lemma deploy_without_artifact_leaves_dangling_pointer_witness :
  let s' := snd (deploy Sample.calm
                   (Sample.params "v1" None (Some "") 5 (Some "my-app"))
                   Sample.fresh) in
  release_exists "v1" (fs s') = false
  /\ current (fs s') = Symlink "/opt/my-app/releases/v1"
  /\ true = true
  /\ Some "v1" = Some "v1".
Proof.
  cbv zeta.
  apply (deploy_without_artifact_leaves_dangling_pointer Sample.calm
           (Sample.params "v1" None (Some "") 5 (Some "my-app")) Sample.fresh
           _ (mkResult true (Some "v1") false 7
                       "No health check URL provided" None)).
  - solve_plain_name.
  - reflexivity.
  - reflexivity.
  - vm_compute. reflexivity.
  - reflexivity.
Defined.

Lemma download_artifact_only_adds_witness :
  release_exists "v3"
    (fs (snd (download_artifact Sample.wget_fails
                (Sample.params "v6" (Some "http://repo/app.tgz") None 5 None)
                (Sample.running "v5")))) = true.
Proof.
  apply (proj1 (download_artifact_only_adds Sample.wget_fails
                  (Sample.params "v6" (Some "http://repo/app.tgz") None 5 None)
                  (Sample.running "v5") ltac:(solve_plain_name))).
  reflexivity.
Defined.

(** ** A download that succeeds *)

Lemma in_add_names (f : string) (new files : list string) :
  In f (add_names files new) <-> In f files \/ In f new.
Proof.
  revert files. induction new as [|x new IH]; intros files; simpl.
  - tauto.
  - rewrite IH. destruct (existsb (String.eqb x) files) eqn:Hx.
    + apply existsb_eqb_in in Hx. split; [tauto|].
      intros [H | [<- | H]]; auto.
    + rewrite in_app_iff. simpl. tauto.
Qed.

Lemma find_release_update (v : string) (g : entry -> entry) (f : FS)
    (ents : list (string * entry)) (e : entry) :
  releases f = Some ents ->
  find_release v f = Some e ->
  find_release v (with_releases f (Some (update_entry v g ents))) = Some (g e).
Proof.
  unfold find_release. intros -> Hl. simpl.
  now rewrite lookup_update_entry, String.eqb_refl, Hl.
Qed.

Lemma write_files_run (v : string) (new : list string) (s : State)
    (t : Z) (files : list string) :
  find_release v (fs s) = Some (EDir t files) ->
  exists s2 t2,
    write_files (Some v) new s = (Ok tt, s2)
    /\ find_release v (fs s2) = Some (EDir t2 (add_names files new))
    /\ changed s2 = changed s
    /\ current (fs s2) = current (fs s).
Proof.
  intros Hf. unfold write_files. destruct new as [|x new].
  - exists s, t. auto.
  - unfold_monad.
    destruct (releases (fs s)) as [ents|] eqn:Hr.
    2: { unfold find_release in Hf. rewrite Hr in Hf. discriminate. }
    eexists. exists (clock s). split; [reflexivity|].
    split; [|split; reflexivity].
    cbn [fs]. now rewrite (find_release_update v _ (fs s) ents _ Hr Hf).
Qed.

Lemma subprocess_run_completed (w : World) (argv : list string) (v : string)
    (s : State) (rc : Z) (err : string) (d : N) (new : list string)
    (t : Z) (files : list string) :
  run_process w (trace s) argv = Completed rc err d new ->
  find_release v (fs s) = Some (EDir t files) ->
  exists s2 t2,
    subprocess_run w argv (Some v) s = (Ok (rc, err), s2)
    /\ find_release v (fs s2) = Some (EDir t2 (add_names files new))
    /\ changed s2 = changed s
    /\ current (fs s2) = current (fs s).
Proof.
  intros Hrun Hf. unfold subprocess_run.
  rewrite (bind_ok get_state _ s s s eq_refl), Hrun.
  unfold bind at 1 2. unfold emit, advance.
  match goal with
  | |- context [bind (write_files (Some v) new) _ ?s1] =>
      destruct (write_files_run v new s1 t files Hf)
        as (s2 & t2 & Hw & Hf2 & Hc & Hcur)
  end.
  exists s2, t2. rewrite (bind_ok _ _ _ _ _ Hw). auto.
Qed.

Lemma remove_release_file_run (v file path : string) (s : State) (t : Z)
    (files : list string) :
  find_release v (fs s) = Some (EDir t files) ->
  remove_release_file v file path s
  = if existsb (String.eqb file) files
    then (Ok tt,
          snd (put_fs (with_releases (fs s)
                 (match releases (fs s) with
                  | Some ents =>
                      Some (update_entry v
                              (fun _ => EDir (clock s)
                                 (filter (fun y => negb (String.eqb y file))
                                         files)) ents)
                  | None => None
                  end)) s))
    else (Raise (no_such_file path), s).
Proof.
  intros Hf. unfold remove_release_file, remove_string. unfold_monad.
  unfold find_release in Hf.
  destruct (releases (fs s)) as [ents|] eqn:Hr; [|discriminate].
  rewrite Hf. now destruct (existsb (String.eqb file) files).
Qed.

Lemma makedirs_release_new (v : string) (s : State) :
  release_exists v (fs s) = false ->
  exists s1,
    makedirs_release v s = (Ok tt, s1)
    /\ find_release v (fs s1) = Some (EDir (clock s) [])
    /\ changed s1 = changed s
    /\ current (fs s1) = current (fs s).
Proof.
  unfold release_exists, find_release, makedirs_release. unfold_monad.
  intros H.
  destruct (releases (fs s)) as [ents|]; simpl.
  - destruct (lookup v ents) eqn:Hl; [discriminate|].
    eexists; split; [reflexivity|]. split; [|split; reflexivity].
    unfold find_release. simpl.
    rewrite lookup_app, Hl. simpl. now rewrite String.eqb_refl.
  - eexists; split; [reflexivity|]. split; [|split; reflexivity].
    unfold find_release. simpl. now rewrite String.eqb_refl.
Qed.

(** A download that succeeds: for a version that is a plain name and not
    yet on disk, when wget and tar both exit with status 0,
    download_artifact returns True with self.changed set, and the new
    release directory holds the files the two commands left in it other
    than the archive app.tar.gz, which has been removed; the pointer is
    untouched.  When neither command left the archive, os.remove raises
    and the call ends in fail_json all the same. *)
Theorem download_artifact_success (w : World) (p : Params) (s : State)
    (url e1 e2 : string) (d1 d2 : N) (n1 n2 : list string) :
  artifact_url p = Some url ->
  url <> "" ->
  plain_name (version p) ->
  release_exists (version p) (fs s) = false ->
  (forall tr, run_process w tr (wget_argv p url) = Completed 0 e1 d1 n1) ->
  (forall tr, run_process w tr (tar_argv p) = Completed 0 e2 d2 n2) ->
  if existsb (String.eqb archive_name) (n1 ++ n2)
  then
    exists s' t files,
      download_artifact w p s = (Ok true, s')
      /\ changed s' = true
      /\ current (fs s') = current (fs s)
      /\ find_release (version p) (fs s') = Some (EDir t files)
      /\ forall f, In f files <-> (In f n1 \/ In f n2) /\ f <> archive_name
  else
    exists e s',
      download_artifact w p s
      = (Exit ("Failed to download/extract artifact: " ++ e), s').
Proof.
  intros Hu Hne _ Hex Hwget Htar.
  destruct (download_artifact_fresh w p s url Hu Hne Hex) as [_ Hrun].
  destruct (makedirs_release_new _ _ Hex) as (s1 & Hmk & Hf1 & _ & Hc1).
  rewrite Hmk in Hrun. cbn [snd] in Hrun. rewrite Hrun.
  destruct (subprocess_run_completed w _ (version p) s1 0 e1 d1 n1 _ _
              (Hwget (trace s1)) Hf1) as (s2 & t2 & Hr1 & Hf2 & _ & Hc2).
  destruct (subprocess_run_completed w _ (version p) s2 0 e2 d2 n2 _ _
              (Htar (trace s2)) Hf2) as (s3 & t3 & Hr2 & Hf3 & _ & Hc3).
  rewrite (fetch_and_extract_after_wget _ _ _ _ _ _ _ Hr1).
  cbn [Z.eqb]. rewrite Hr2. cbn [Z.eqb].
  rewrite (remove_release_file_run _ _ _ s3 _ _ Hf3).
  assert (Hin : forall f, In f (add_names (add_names [] n1) n2)
                          <-> In f n1 \/ In f n2).
  { intros f. rewrite !in_add_names. simpl. tauto. }
  assert (Hsame : existsb (String.eqb archive_name)
                    (add_names (add_names [] n1) n2)
                  = existsb (String.eqb archive_name) (n1 ++ n2)).
  { destruct (existsb (String.eqb archive_name) (n1 ++ n2)) eqn:He.
    - apply existsb_eqb_in. apply Hin. apply existsb_eqb_in in He.
      now apply in_app_or in He.
    - destruct (existsb _ (add_names _ n2)) eqn:Ha; [|reflexivity].
      apply existsb_eqb_in in Ha. apply Hin in Ha.
      apply in_or_app in Ha. apply existsb_eqb_in in Ha. congruence. }
  rewrite Hsame.
  destruct (existsb (String.eqb archive_name) (n1 ++ n2)).
  - unfold find_release in Hf3.
    destruct (releases (fs s3)) as [ents|] eqn:Hr3; [|discriminate].
    eexists. exists (clock s3).
    exists (filter (fun y => negb (String.eqb y archive_name))
                   (add_names (add_names [] n1) n2)).
    split; [reflexivity|]. split; [reflexivity|].
    split; [cbn; congruence|].
    split.
    + cbn [snd put_fs set_changed fs].
      apply (find_release_update (version p)
               (fun _ => EDir (clock s3)
                           (filter (fun y => negb (String.eqb y archive_name))
                                   (add_names (add_names [] n1) n2)))
               (fs s3) ents
               (EDir t3 (add_names (add_names [] n1) n2)) Hr3).
      unfold find_release. rewrite Hr3. exact Hf3.
    + intros f. rewrite filter_In, Hin. rewrite negb_true_iff.
      rewrite String.eqb_neq. tauto.
  - eauto.
Qed.

Lemma download_artifact_success_witness :
  exists s' t files,
    download_artifact Scenario.mirror
      (Sample.params "v6" (Some "http://repo/app.tgz") None 5 None)
      (Sample.running "v5")
    = (Ok true, s')
    /\ changed s' = true
    /\ current (fs s') = current (fs (Sample.running "v5"))
    /\ find_release "v6" (fs s') = Some (EDir t files)
    /\ forall f, In f files
                 <-> (In f ["app.tar.gz"] \/ In f ["bin"; "lib"])
                     /\ f <> archive_name.
Proof.
  apply (download_artifact_success Scenario.mirror
           (Sample.params "v6" (Some "http://repo/app.tgz") None 5 None)
           (Sample.running "v5") "http://repo/app.tgz" "" "" 3 2
           ["app.tar.gz"] ["bin"; "lib"]).
  - reflexivity.
  - discriminate.
  - solve_plain_name.
  - reflexivity.
  - intros tr. reflexivity.
  - intros tr. reflexivity.
Defined.
